(** * hugo-crawler: a shallow embedding of [crawler-json.py]

    The per-URL ingestion pipeline of [src/crawler-json.py] is embedded as
    Rocq functions over an explicit world (file system, request log, clock
    reads).  Third-party libraries ([requests], [lxml], [bs4],
    [markdownify], [urllib.parse]) and the operating system are an
    environment record [Env]: the theorems hold for every environment.

    A Python [str] is a Rocq [string]; the character tables below are those
    of Python for code points below 256.  [None]-able values are [option]s.
    Logging has no effect on any result and is left out. *)

From Stdlib Require Import Ascii String NArith Bool.
From stdpp Require Import base option list gmap strings.

Local Open Scope bool_scope.

(** ** Python strings *)

Module PyStr.

Definition NL : string := String (ascii_of_nat 10) EmptyString.
Definition DQUOTE : ascii := ascii_of_nat 34.
Definition BACKSLASH : ascii := ascii_of_nat 92.

Definition chr_eqb (a b : ascii) : bool := Ascii.eqb a b.

Definition code (c : ascii) : N := N_of_ascii c.

Definition between (lo hi : N) (c : ascii) : bool :=
  (lo <=? code c)%N && (code c <=? hi)%N.

(** [not s] for a string: the empty string is falsy. *)
Definition is_empty (s : string) : bool :=
  match s with EmptyString => true | String _ _ => false end.

(** [s.startswith(p)] *)
Fixpoint startswith (p s : string) : bool :=
  match p, s with
  | EmptyString, _ => true
  | String a p', String b s' => chr_eqb a b && startswith p' s'
  | String _ _, EmptyString => false
  end.

(** [c in s] for a one-character string [c] *)
Fixpoint has_char (c : ascii) (s : string) : bool :=
  match s with
  | EmptyString => false
  | String a s' => chr_eqb a c || has_char c s'
  end.

(** [s.split(c)[0]]: the part of [s] before the first [c] *)
Fixpoint before_char (c : ascii) (s : string) : string :=
  match s with
  | EmptyString => EmptyString
  | String a s' => if chr_eqb a c then EmptyString else String a (before_char c s')
  end.

(** The last character, if any. *)
Fixpoint last_char (s : string) : option ascii :=
  match s with
  | EmptyString => None
  | String a EmptyString => Some a
  | String _ s' => last_char s'
  end.

Definition endswith_char (c : ascii) (s : string) : bool :=
  match last_char s with Some a => chr_eqb a c | None => false end.

(** [s.rstrip(c)] for a one-character [c] *)
Fixpoint rstrip_char (c : ascii) (s : string) : string :=
  match s with
  | EmptyString => EmptyString
  | String a s' =>
      match rstrip_char c s' with
      | EmptyString => if chr_eqb a c then EmptyString else String a EmptyString
      | r => String a r
      end
  end.

(** Python's [str.isspace] on code points below 256: the characters
    [str.strip()] removes. *)
Definition isspace (c : ascii) : bool :=
  between 9 13 c || between 28 32 c || (code c =? 133)%N || (code c =? 160)%N.

Fixpoint lstrip (s : string) : string :=
  match s with
  | EmptyString => EmptyString
  | String a s' => if isspace a then lstrip s' else s
  end.

Fixpoint rstrip (s : string) : string :=
  match s with
  | EmptyString => EmptyString
  | String a s' =>
      match rstrip s' with
      | EmptyString => if isspace a then EmptyString else String a EmptyString
      | r => String a r
      end
  end.

(** [s.strip()] *)
Definition strip (s : string) : string := rstrip (lstrip s).

(** [s.replace('"', '\\"')] *)
Fixpoint escape_quotes (s : string) : string :=
  match s with
  | EmptyString => EmptyString
  | String a s' =>
      if chr_eqb a DQUOTE then String BACKSLASH (String DQUOTE (escape_quotes s'))
      else String a (escape_quotes s')
  end.

(** Lines of a text file opened in text mode, for a reader that strips
    every line and drops the blank ones: a split at line feeds and
    carriage returns. *)
Fixpoint split_lines_aux (cur : string -> string) (s : string) : list string :=
  match s with
  | EmptyString => [cur EmptyString]
  | String a s' =>
      if chr_eqb a (ascii_of_nat 10) || chr_eqb a (ascii_of_nat 13)
      then cur EmptyString :: split_lines_aux (fun r => r) s'
      else split_lines_aux (fun r => cur (String a r)) s'
  end.

Definition split_lines (s : string) : list string := split_lines_aux (fun r => r) s.

End PyStr.

(** ** [sanitize_filename] (lines 137-150) *)

(** [\w] of Python's [re] on a [str] pattern: alphanumeric code points and
    the underscore. *)
Definition is_word (c : ascii) : bool :=
  PyStr.between 48 57 c || PyStr.between 65 90 c || (PyStr.code c =? 95)%N
  || PyStr.between 97 122 c
  || (PyStr.code c =? 170)%N || PyStr.between 178 179 c || (PyStr.code c =? 181)%N
  || PyStr.between 185 186 c || PyStr.between 188 190 c
  || PyStr.between 192 214 c || PyStr.between 216 246 c || PyStr.between 248 255 c.

(** [str.lower] on one code point. *)
Definition lower_char (c : ascii) : ascii :=
  if PyStr.between 65 90 c || PyStr.between 192 214 c || PyStr.between 216 222 c
  then ascii_of_N (PyStr.code c + 32) else c.

Definition HYPHEN : ascii := "-"%char.
Definition is_hyphen (c : ascii) : bool := PyStr.chr_eqb c HYPHEN.

(** [name.replace(' ', '-')] *)
Definition spaces_to_hyphens (l : list ascii) : list ascii :=
  map (fun c => if PyStr.chr_eqb c " "%char then HYPHEN else c) l.

(** [re.sub(r'[^\w\-]', '', s)] *)
Definition keep_word_or_hyphen (l : list ascii) : list ascii :=
  List.filter (fun c => is_word c || is_hyphen c) l.

(** [re.sub(r'-+', '-', s)]: every maximal run of hyphens becomes one. *)
Fixpoint squeeze_hyphens (l : list ascii) : list ascii :=
  match l with
  | [] => []
  | a :: r =>
      match r with
      | b :: _ => if is_hyphen a && is_hyphen b then squeeze_hyphens r
                  else a :: squeeze_hyphens r
      | [] => [a]
      end
  end.

Fixpoint lstrip_hyphens (l : list ascii) : list ascii :=
  match l with
  | a :: r => if is_hyphen a then lstrip_hyphens r else l
  | [] => []
  end.

Fixpoint rstrip_hyphens (l : list ascii) : list ascii :=
  match l with
  | [] => []
  | a :: r =>
      match rstrip_hyphens r with
      | [] => if is_hyphen a then [] else [a]
      | r' => a :: r'
      end
  end.

(** [s.strip('-')] *)
Definition strip_hyphens (l : list ascii) : list ascii :=
  rstrip_hyphens (lstrip_hyphens l).

Definition sanitize_chars (l : list ascii) : list ascii :=
  take 100 (strip_hyphens (map lower_char
    (squeeze_hyphens (keep_word_or_hyphen (spaces_to_hyphens l))))).

(** [sanitize_filename] on the strings of this development, whose code
    points are below 256; [Unicode.sanitize_filename] below is the
    function on any [str], and agrees with this one on such strings
    ([sanitize_of_chars]). *)
Definition sanitize_filename (name : string) : string :=
  string_of_list_ascii (sanitize_chars (list_ascii_of_string name)).

(** ** [os.path] (posixpath) *)

Module OsPath.

Definition SEP : ascii := "/"%char.

(** One step of [os.path.join]: an absolute component replaces the path
    built so far. *)
Definition join2 (path b : string) : string :=
  if PyStr.startswith "/" b then b
  else if PyStr.is_empty path || PyStr.endswith_char SEP path then path +:+ b
  else path +:+ "/" +:+ b.

(** [os.path.join(a, *p)] *)
Definition join (a : string) (p : list string) : string := fold_left join2 p a.

(** [(p[:i], p[i:])] for [i = p.rfind('/') + 1] *)
Fixpoint rsplit_sep (p : string) : string * string :=
  match p with
  | EmptyString => (EmptyString, EmptyString)
  | String c r =>
      if PyStr.has_char SEP r
      then let '(head, tail) := rsplit_sep r in (String c head, tail)
      else if PyStr.chr_eqb c SEP then ("/", r) else (EmptyString, p)
  end.

(** [os.path.basename] *)
Definition basename (p : string) : string := snd (rsplit_sep p).

(** [head != sep * len(head)] is false on this. *)
Fixpoint all_sep (s : string) : bool :=
  match s with
  | EmptyString => true
  | String c r => PyStr.chr_eqb c SEP && all_sep r
  end.

(** [os.path.dirname] *)
Definition dirname (p : string) : string :=
  let head := fst (rsplit_sep p) in
  if negb (PyStr.is_empty head) && negb (all_sep head)
  then PyStr.rstrip_char SEP head else head.

End OsPath.

(** ** Python dictionaries

    A [dict] keeps its keys in insertion order; assigning to a key that is
    present replaces the value in place. *)

Module PyDict.

Definition dict (V : Type) : Type := list (string * V).

Fixpoint get {V} (k : string) (d : dict V) : option V :=
  match d with
  | [] => None
  | (k', v) :: d' => if decide (k = k') then Some v else get k d'
  end.

(** [d[k] = v] *)
Fixpoint set {V} (k : string) (v : V) (d : dict V) : dict V :=
  match d with
  | [] => [(k, v)]
  | (k', v') :: d' => if decide (k = k') then (k', v) :: d' else (k', v') :: set k v d'
  end.

(** [k in d] *)
Definition mem {V} (k : string) (d : dict V) : bool :=
  match get k d with Some _ => true | None => false end.

Definition keys {V} (d : dict V) : list string := fst <$> d.

(** The invariant of a dictionary: no key occurs twice. *)
Definition wf {V} (d : dict V) : bool := bool_decide (NoDup (keys d)).

End PyDict.

(** ** The environment: libraries and operating system *)

(** What [requests.get] hands back when neither it nor
    [raise_for_status] raises. *)
Record Response := mkResponse {
  resp_url : string;    (* [response.url]: the URL after redirects *)
  resp_body : string    (* [response.text], or the streamed content *)
}.

(** The first item of [etree.HTML(html).xpath(xpath)], as [extract_field]
    looks at it. *)
Inductive XPathFirst :=
| XRaises                            (* parsing or evaluation raised *)
| XNoMatch                           (* [not elements] *)
| XElement (element_html : string)   (* an element, by its [etree.tostring] *)
| XOther (text : string).            (* not an element, by its [str] *)

(** The end of [open(path, mode)] followed by the writes. *)
Inductive WriteOutcome :=
| WriteOk
| WriteFails (left_behind : option string).
   (* an exception; [Some p]: the file was opened and now holds [p] *)

(** [datetime.now()], by the two renderings the program asks for. *)
Record DateTime := mkDateTime {
  ymd : string;     (* [strftime('%Y-%m-%d')] *)
  ymdhms : string   (* [strftime('%Y%m%d%H%M%S')] *)
}.

Record Env := mkEnv {
  (* [requests.get(url, ...)] then [raise_for_status()]; [None] when a
     [RequestException] is raised *)
  requests_get : string -> option Response;
  (* [urllib.parse.urljoin(base, url)]; [None] when it raises *)
  urljoin : string -> string -> option string;
  (* [etree.HTML(html).xpath(xpath)] *)
  lxml_xpath : string -> string -> XPathFirst;
  (* on [BeautifulSoup(element_html, 'html.parser')]: [get_text(strip=True)],
     [str], [get(attribute, None)]; the first two give [None] when they raise.
     The receiver of [get] is the [BeautifulSoup] object, the document built
     from the markup, not the tag of the element: see [bs4_get_reads_document] *)
  bs4_get_text : string -> option string;
  bs4_str : string -> option string;
  bs4_get : string -> string -> option string;
  (* [img.get('src')] of every [img] of a fragment, in document order *)
  bs4_img_srcs : string -> list (option string);
  (* [str(soup)] once the [src] of the i-th [img] was set to the i-th
     entry, where that is [Some] *)
  bs4_with_srcs : string -> list (option string) -> string;
  (* [markdownify(html)] *)
  markdownify : string -> string;
  (* the k-th reading of the clock *)
  datetime_now : nat -> DateTime;
  (* whether [mkdir] of a missing directory succeeds *)
  os_mkdir : string -> bool;
  (* [open(path, 'w')] or [open(path, 'wb')] and the writes of the data *)
  os_write : string -> string -> WriteOutcome;
  (* [open(path, 'a')] and the write of the data *)
  os_append : string -> string -> WriteOutcome
}.

(** ** The world the program acts on

    Paths are compared as strings: two names reach the same file only when
    they are equal. *)

Record World := mkWorld {
  dirs : gset string;             (* directories known to exist *)
  files : gmap string string;     (* regular files and their contents *)
  requests_log : list string;     (* URLs given to [requests.get], oldest first *)
  clock_reads : nat               (* readings of the clock so far *)
}.

Definition log_request (url : string) (w : World) : World :=
  mkWorld (dirs w) (files w) (requests_log w ++ [url]) (clock_reads w).

Definition tick (w : World) : World :=
  mkWorld (dirs w) (files w) (requests_log w) (S (clock_reads w)).

Definition add_dir (d : string) (w : World) : World :=
  mkWorld ({[d]} ∪ dirs w) (files w) (requests_log w) (clock_reads w).

Definition put_file (path data : string) (w : World) : World :=
  mkWorld (dirs w) (<[path := data]> (files w)) (requests_log w) (clock_reads w).

Definition read_file (path : string) (w : World) : option string := files w !! path.

(** [os.path.exists] *)
Definition os_path_exists (path : string) (w : World) : bool :=
  bool_decide (is_Some (files w !! path)) || bool_decide (path ∈ dirs w).

(** [os.makedirs(d, exist_ok=True)]; [None] when it raises [OSError]: the
    name is taken by a regular file, or the directory cannot be made. *)
Definition os_makedirs (E : Env) (d : string) (w : World) : option World :=
  if bool_decide (d ∈ dirs w) then Some w
  else if bool_decide (is_Some (files w !! d)) then None
  else if os_mkdir E d then Some (add_dir d w)
  else None.

(** The file after a write that ended as [o]. *)
Definition after_write (o : WriteOutcome) (path data : string) (w : World) : World :=
  match o with
  | WriteOk => put_file path data w
  | WriteFails (Some p) => put_file path p w
  | WriteFails None => w
  end.

Definition after_append (o : WriteOutcome) (path data : string) (w : World) : World :=
  let old := default EmptyString (files w !! path) in
  match o with
  | WriteOk => put_file path (old +:+ data) w
  | WriteFails (Some p) => put_file path (old +:+ p) w
  | WriteFails None => w
  end.

Definition write_ok (o : WriteOutcome) : bool :=
  match o with WriteOk => true | WriteFails _ => false end.

(** How a call ends: with a value, or with an exception on its way up. *)
Inductive Exn := OSError.

Inductive Outcome (A : Type) :=
| Returns (a : A)
| Raises (e : Exn).
Arguments Returns {A} a.
Arguments Raises {A} e.

(** ** The pipeline of [crawler-json.py] *)

Record FieldConfig := mkFieldConfig {
  fc_xpath : option string;       (* the value under ['xpath'], if the key is there *)
  fc_attribute : option string    (* the value under ['attribute'], if the key is there *)
}.

(** A configuration that [load_config] has returned. *)
Record Config := mkConfig {
  project_root : string;
  fields : PyDict.dict FieldConfig
}.

(** Truthiness of a value that is [None] or a [str]. *)
Definition truthy (v : option string) : bool :=
  match v with
  | Some s => negb (PyStr.is_empty s)
  | None => false
  end.

(** [d.get(k)]: [None] for a key that is missing or bound to [None]. *)
Definition dict_get (k : string) (d : PyDict.dict (option string)) : option string :=
  match PyDict.get k d with
  | Some v => v
  | None => None
  end.

Definition downloaded_log_path (root : string) : string :=
  OsPath.join root ["downloaded.log"].

(** The URLs of a list file: [line.strip() for line in f if line.strip()]. *)
Definition stripped_lines (text : string) : list string :=
  List.filter (fun l => negb (PyStr.is_empty l)) (map PyStr.strip (PyStr.split_lines text)).

(** [read_url_list] (lines 50-64); [None] when the exception is re-raised. *)
Definition read_url_list (root : string) (w : World) : option (list string) :=
  match read_file (OsPath.join root ["urllist.txt"]) w with
  | Some text => Some (stripped_lines text)
  | None => None
  end.

(** [get_downloaded_urls] (lines 66-77) *)
Definition get_downloaded_urls (root : string) (w : World) : gset string :=
  match read_file (downloaded_log_path root) w with
  | Some text => list_to_set (stripped_lines text)
  | None => ∅
  end.

(** [mark_as_downloaded] (lines 79-87): a failed append is logged, not raised. *)
Definition mark_as_downloaded (E : Env) (root url : string) (w : World) : World :=
  let path := downloaded_log_path root in
  let data := url +:+ PyStr.NL in
  after_append (os_append E path data) path data w.

(** [fetch_page_content] (lines 89-100) *)
Definition fetch_page_content (E : Env) (url : string) (w : World)
  : (option string * string) * World :=
  match requests_get E url with
  | Some response => ((Some (resp_body response), url), log_request url w)
  | None => ((None, url), log_request url w)
  end.

Definition is_src_or_href (attribute : string) : bool :=
  bool_decide (attribute = "src") || bool_decide (attribute = "href").

(** [extract_field] (lines 102-135) *)
Definition extract_field (E : Env) (html_content xpath attribute base_url : string)
  : option string :=
  match lxml_xpath E html_content xpath with
  | XRaises => None
  | XNoMatch => None
  | XOther text => Some (PyStr.strip text)
  | XElement element_html =>
      if bool_decide (attribute = "text") then bs4_get_text E element_html
      else if bool_decide (attribute = "html") then bs4_str E element_html
      else
        let value := bs4_get E element_html attribute in
        match value with
        | Some v =>
            if negb (PyStr.is_empty v) && is_src_or_href attribute
               && (PyStr.startswith "/" v || negb (PyStr.startswith "http" v))
            then urljoin E base_url v
            else value
        | None => None
        end
  end.

(** Lines 161-163 of [download_image]: the URL that is requested. *)
Definition resolve_image_url (E : Env) (base_url image_url : string) : option string :=
  if PyStr.startswith "http" image_url then Some image_url
  else urljoin E base_url image_url.

(** Lines 165-168 of [download_image]: the local file name, and the world
    once the clock was read for a synthetic one. *)
Definition local_image_name (E : Env) (image_url : string) (w : World) : string * World :=
  let image_name := OsPath.basename (PyStr.before_char "?" image_url) in
  if PyStr.is_empty image_name || negb (PyStr.has_char "." image_name)
  then ("image_" +:+ ymdhms (datetime_now E (clock_reads w)) +:+ ".jpg", tick w)
  else (image_name, w).

(** [download_image] (lines 152-192): every exception inside the [try]
    ends in [None]. *)
Definition download_image (E : Env) (image_url save_dir base_url : string) (w : World)
  : option string * World :=
  if PyStr.is_empty image_url then (None, w)
  else
    match os_makedirs E save_dir w with
    | None => (None, w)
    | Some w1 =>
        match resolve_image_url E base_url image_url with
        | None => (None, w1)
        | Some image_url =>
            let '(image_name, w2) := local_image_name E image_url w1 in
            let save_path := OsPath.join save_dir [image_name] in
            if os_path_exists save_path w2 then (Some image_name, w2)
            else
              let w3 := log_request image_url w2 in
              match requests_get E image_url with
              | None => (None, w3)
              | Some response =>
                  let o := os_write E save_path (resp_body response) in
                  (if write_ok o then Some image_name else None,
                   after_write o save_path (resp_body response) w3)
              end
        end
    end.

(** The loop of [download_content_images]: the new [src] of every [img],
    [None] where it is left as it was. *)
Fixpoint localize_images (E : Env) (srcs : list (option string))
    (save_dir base_url : string) (w : World) : list (option string) * World :=
  match srcs with
  | [] => ([], w)
  | img_url :: rest =>
      let '(new_src, w1) :=
        if truthy img_url then
          let '(img_name, w1) :=
            download_image E (default EmptyString img_url) save_dir base_url w in
          (if truthy img_name
           then Some ("/static/images/" +:+ default EmptyString img_name)
           else None, w1)
        else (None, w) in
      let '(new_srcs, w2) := localize_images E rest save_dir base_url w1 in
      (new_src :: new_srcs, w2)
  end.

(** [download_content_images] (lines 194-210) *)
Definition download_content_images (E : Env) (content_html save_dir base_url : string)
    (w : World) : string * World :=
  if PyStr.is_empty content_html then (content_html, w)
  else
    let '(new_srcs, w1) :=
      localize_images E (bs4_img_srcs E content_html) save_dir base_url w in
    (bs4_with_srcs E content_html new_srcs, w1).

(** One line of the front-matter; nothing for a [None] value. *)
Definition front_matter_line (kv : string * option string) : string :=
  match snd kv with
  | Some value =>
      fst kv +:+ ": " +:+ String PyStr.DQUOTE (PyStr.escape_quotes value)
        +:+ String PyStr.DQUOTE PyStr.NL
  | None => EmptyString
  end.

Definition md_content (front_matter : PyDict.dict (option string)) (content : string)
  : string :=
  "---" +:+ PyStr.NL +:+ fold_right String.append EmptyString (map front_matter_line front_matter)
    +:+ "---" +:+ PyStr.NL +:+ PyStr.NL +:+ content.

(** [create_markdown_file] (lines 212-235): [os.makedirs] stands before
    the [try], so its [OSError] leaves the function. *)
Definition create_markdown_file (E : Env) (save_path : string)
    (front_matter : PyDict.dict (option string)) (content : string) (w : World)
  : Outcome bool * World :=
  match os_makedirs E (OsPath.dirname save_path) w with
  | None => (Raises OSError, w)
  | Some w1 =>
      let text := md_content front_matter content in
      let o := os_write E save_path text in
      (Returns (write_ok o), after_write o save_path text w1)
  end.

(** The loop of lines 247-261: the extracted record. *)
Definition extract_step (E : Env) (html_content base_url : string)
    (extracted_fields : PyDict.dict (option string)) (item : string * FieldConfig)
  : PyDict.dict (option string) :=
  match fc_xpath (snd item), fc_attribute (snd item) with
  | Some xpath, Some attribute =>
      PyDict.set (fst item) (extract_field E html_content xpath attribute base_url)
        extracted_fields
  | _, _ => extracted_fields
  end.

Definition extract_fields (E : Env) (html_content base_url : string)
    (field_configs : PyDict.dict FieldConfig) : PyDict.dict (option string) :=
  fold_left (extract_step E html_content base_url) field_configs [].

(** Lines 268-275: the record with its derived [date] and [slug]; the clock
    is read only when no date was extracted. *)
Definition with_date (E : Env) (extracted_fields : PyDict.dict (option string))
    (w : World) : PyDict.dict (option string) * World :=
  if negb (PyDict.mem "date" extracted_fields)
     || negb (truthy (dict_get "date" extracted_fields))
  then (PyDict.set "date" (Some (ymd (datetime_now E (clock_reads w)))) extracted_fields,
        tick w)
  else (extracted_fields, w).

Definition with_slug (title : string) (extracted_fields : PyDict.dict (option string))
  : PyDict.dict (option string) :=
  PyDict.set "slug" (Some (sanitize_filename title)) extracted_fields.

(** Line 293: every field but [content] and [url]. *)
Definition front_matter_of (extracted_fields : PyDict.dict (option string))
  : PyDict.dict (option string) :=
  List.filter (fun kv => negb (bool_decide (fst kv = "content")) &&
                         negb (bool_decide (fst kv = "url"))) extracted_fields.

Definition md_save_path (root date_prefix slug : string) : string :=
  OsPath.join root ["content"; "blog"; date_prefix +:+ "-" +:+ slug +:+ ".md"].

Definition image_save_dir (root : string) : string :=
  OsPath.join root ["static"; "images"].

(** Lines 246-304 of [process_url]: what is done with a fetched page.
    [base_url] is the second component of what [fetch_page_content]
    returned. *)
Definition process_fetched (E : Env) (url html_content base_url : string)
    (config : Config) (w : World) : Outcome bool * World :=
  let extracted_fields := extract_fields E html_content base_url (fields config) in
  if negb (truthy (dict_get "title" extracted_fields))
     || negb (truthy (dict_get "content" extracted_fields))
  then (Returns false, w)
  else
    let '(extracted_fields, w1) := with_date E extracted_fields w in
    let title := default EmptyString (dict_get "title" extracted_fields) in
    let slug := sanitize_filename title in
    let extracted_fields := with_slug title extracted_fields in
    let date_prefix := default EmptyString (dict_get "date" extracted_fields) in
    let save_path := md_save_path (project_root config) date_prefix slug in
    let content_html := default EmptyString (dict_get "content" extracted_fields) in
    let '(content_with_local_images, w2) :=
      download_content_images E content_html (image_save_dir (project_root config))
        base_url w1 in
    let content_md := markdownify E content_with_local_images in
    let front_matter := front_matter_of extracted_fields in
    match create_markdown_file E save_path front_matter content_md w2 with
    | (Returns true, w3) => (Returns true, mark_as_downloaded E (project_root config) url w3)
    | (Returns false, w3) => (Returns false, w3)
    | (Raises e, w3) => (Raises e, w3)
    end.

(** [process_url] (lines 237-304) *)
Definition process_url (E : Env) (url : string) (config : Config) (w : World)
  : Outcome bool * World :=
  let '((html_content, base_url), w1) := fetch_page_content E url w in
  match html_content with
  | Some html =>
      if PyStr.is_empty html then (Returns false, w1)
      else process_fetched E url html base_url config w1
  | None => (Returns false, w1)
  end.

(** The loop of [main] (lines 327-333): an exception ends it. *)
Fixpoint process_urls (E : Env) (config : Config) (downloaded_urls : gset string)
    (urls : list string) (w : World) : Outcome unit * World :=
  match urls with
  | [] => (Returns tt, w)
  | url :: rest =>
      if bool_decide (url ∈ downloaded_urls)
      then process_urls E config downloaded_urls rest w
      else
        match process_url E url config w with
        | (Returns _, w1) => process_urls E config downloaded_urls rest w1
        | (Raises e, w1) => (Raises e, w1)
        end
  end.

(** How the process ends. *)
Inductive Exit := Finished | SysExit (status : nat).

(** [main] (lines 306-342) from the configuration [load_config] returned:
    any exception ends the run with [sys.exit(1)]. *)
Definition main (E : Env) (config : Config) (w : World) : Exit * World :=
  let root := project_root config in
  match os_makedirs E root w with
  | None => (SysExit 1, w)
  | Some w1 =>
  match os_makedirs E (OsPath.join root ["content"; "blog"]) w1 with
  | None => (SysExit 1, w1)
  | Some w2 =>
  match os_makedirs E (OsPath.join root ["static"; "images"]) w2 with
  | None => (SysExit 1, w2)
  | Some w3 =>
      match read_url_list root w3 with
      | None => (SysExit 1, w3)
      | Some urls =>
          if bool_decide (urls = []) then (Finished, w3)
          else
            match process_urls E config (get_downloaded_urls root w3) urls w3 with
            | (Returns _, w4) => (Finished, w4)
            | (Raises _, w4) => (SysExit 1, w4)
            end
      end
  end end end.

(** ** More of Python's strings: search and replacement *)

Module PyText.

Definition LF : ascii := ascii_of_nat 10.
Definition CR : ascii := ascii_of_nat 13.

(** [sub in s] *)
Fixpoint contains (sub s : string) : bool :=
  PyStr.startswith sub s
  || match s with
     | EmptyString => false
     | String _ s' => contains sub s'
     end.

(** [s.replace('', new)]: [new] before every character and at the end. *)
Fixpoint insert_between (new s : string) : string :=
  match s with
  | EmptyString => new
  | String a s' => new +:+ String a (insert_between new s')
  end.

(** [s.replace(old, new)] for a non-empty [old], read from the left: the
    occurrences found do not overlap.  [skip] characters of the occurrence
    that was just replaced are still to be passed over. *)
Fixpoint replace_from (old new : string) (skip : nat) (s : string) : string :=
  match s with
  | EmptyString => EmptyString
  | String a s' =>
      match skip with
      | S k => replace_from old new k s'
      | O =>
          if PyStr.startswith old s
          then new +:+ replace_from old new (String.length old - 1) s'
          else String a (replace_from old new 0 s')
      end
  end.

(** [s.replace(old, new)] *)
Definition replace (old new s : string) : string :=
  if PyStr.is_empty old then insert_between new s else replace_from old new 0 s.

(** [s.lower()] *)
Fixpoint lower (s : string) : string :=
  match s with
  | EmptyString => EmptyString
  | String a s' => String (lower_char a) (lower s')
  end.

(** [s.endswith(suffix)] *)
Fixpoint endswith (suffix s : string) : bool :=
  String.eqb s suffix
  || match s with
     | EmptyString => false
     | String _ s' => endswith suffix s'
     end.

(** What [read()] returns for a file opened in text mode: a carriage
    return, with the line feed after it if there is one, comes out as one
    line feed. *)
Fixpoint universal_newlines (s : string) : string :=
  match s with
  | EmptyString => EmptyString
  | String a s' =>
      if PyStr.chr_eqb a CR
      then String LF
             match s' with
             | String b s'' =>
                 if PyStr.chr_eqb b LF then universal_newlines s''
                 else universal_newlines s'
             | EmptyString => EmptyString
             end
      else String a (universal_newlines s')
  end.

End PyText.

(** ** [load_config] (lines 17-48) *)

(** A parsed JSON document as [json.load] builds it; an object is a
    [dict]. *)
#[local] Unset Elimination Schemes.
Inductive Json :=
| JNull
| JBool (b : bool)
| JNumber (literal : string)
| JString (s : string)
| JArray (items : list Json)
| JObject (members : PyDict.dict Json).
#[local] Set Elimination Schemes.

(** [k in v] for a [str] [k]; [None] when it raises [TypeError]. *)
Definition py_in (k : string) (v : Json) : option bool :=
  match v with
  | JObject members => Some (PyDict.mem k members)
  | JArray items =>
      Some (existsb (fun item => match item with
                                 | JString s => bool_decide (s = k)
                                 | _ => false
                                 end) items)
  | JString s => Some (PyText.contains k s)
  | JNull | JBool _ | JNumber _ => None
  end.

(** [v[k]] for a [str] [k]; [None] when it raises [KeyError] or
    [TypeError]. *)
Definition py_item (k : string) (v : Json) : option Json :=
  match v with
  | JObject members => PyDict.get k members
  | _ => None
  end.

(** [isinstance(v, dict)] *)
Definition is_dict (v : Json) : bool :=
  match v with JObject _ => true | _ => false end.

(** [load_config]; [json_loads] parses the text of the file.  [None]
    when an exception leaves the function: every handler raises again. *)
Definition load_config (json_loads : string -> option Json) (config_path : string)
    (w : World) : option Json :=
  match read_file config_path w with
  | None => None
  | Some text =>
      match json_loads text with
      | None => None
      | Some config =>
          match py_in "project_root" config with
          | None | Some false => None
          | Some true =>
              match py_in "fields" config with
              | None | Some false => None
              | Some true =>
                  match py_item "fields" config with
                  | None => None
                  | Some config_fields =>
                      if negb (is_dict config_fields) then None
                      else if forallb (fun field =>
                                         match py_in field config_fields with
                                         | Some true => true
                                         | _ => false
                                         end) ["title"; "content"]
                      then Some config
                      else None
                  end
              end
          end
      end
  end.

(** ** [replacestr.py] *)

Module ReplaceStr.

(** [open(path, 'r', encoding='utf-8')] and [read()]; [None] when one of
    them raises. *)
Definition read_text (path : string) (w : World) : option string :=
  PyText.universal_newlines <$> read_file path w.

(** [replace_in_file] (lines 4-24): every exception ends in [False]. *)
Definition replace_in_file (E : Env) (file_path source_str target_str : string)
    (w : World) : bool * World :=
  match read_text file_path w with
  | None => (false, w)
  | Some content =>
      if negb (PyText.contains source_str content) then (false, w)
      else
        let new_content := PyText.replace source_str target_str content in
        let o := os_write E file_path new_content in
        (write_ok o, after_write o file_path new_content w)
  end.

(** Line 36: only [.md] files are looked at. *)
Definition is_markdown (filename : string) : bool :=
  PyText.endswith ".md" (PyText.lower filename).

(** Lines 37-50: one file of the walk; the state is [modified_files],
    [count] and the world. *)
Definition visit_file (E : Env) (source_str target_str : string) (dry_run : bool)
    (file_path : string) (st : list string * nat * World) : list string * nat * World :=
  let '(modified_files, count, w) := st in
  match read_text file_path w with
  | None => st
  | Some content =>
      if PyText.contains source_str content then
        let modified_files := modified_files ++ [file_path] in
        if dry_run then (modified_files, count, w)
        else
          let '(replaced, w1) := replace_in_file E file_path source_str target_str w in
          (modified_files, if replaced then S count else count, w1)
      else st
  end.

(** Lines 34-50: the files of one directory. *)
Definition visit_dir (E : Env) (source_str target_str : string) (dry_run : bool)
    (st : list string * nat * World) (entry : string * list string)
  : list string * nat * World :=
  fold_left (fun st filename =>
               if is_markdown filename
               then visit_file E source_str target_str dry_run
                      (OsPath.join (fst entry) [filename]) st
               else st)
            (snd entry) st.

(** [find_and_replace] (lines 27-54); [os_walk root_dir] lists what
    [os.walk(root_dir)] yields: every directory with its file names. *)
Definition find_and_replace (E : Env) (os_walk : string -> list (string * list string))
    (root_dir source_str target_str : string) (dry_run : bool) (w : World)
  : (list string * nat) * World :=
  let '(modified_files, count, w1) :=
    fold_left (visit_dir E source_str target_str dry_run) (os_walk root_dir) ([], 0, w) in
  ((modified_files, if dry_run then 0 else count), w1).

(** The command line of [main]. *)
Record Args := mkArgs {
  root : string;
  source : string;
  target : string;
  force : bool
}.

(** [main] (lines 56-95); [answer] is what [input] returns, [None] when
    it raises.  The result is the count that is printed at the end, if the
    run gets there. *)
Definition main (E : Env) (os_walk : string -> list (string * list string))
    (args : Args) (answer : option string) (w : World) : option nat * World :=
  if negb (bool_decide (root args ∈ dirs w)) then (None, w)
  else
    let '((modified_files, _), w1) :=
      find_and_replace E os_walk (root args) (source args) (target args) true w in
    if bool_decide (modified_files = []) then (None, w1)
    else
      let confirmed :=
        force args
        || match answer with
           | Some confirm => bool_decide (PyText.lower confirm ∈ ["y"; "yes"])
           | None => false
           end in
      if negb confirmed then (None, w1)
      else
        let '((_, count), w2) :=
          find_and_replace E os_walk (root args) (source args) (target args) false w1 in
        (Some count, w2).

End ReplaceStr.

(** ** Notions used in the statements *)

(** How bs4 answers [element_soup.get(attribute, None)] on line 127.
    [element_soup] is the [BeautifulSoup] object, which stands for the whole
    document parsed from the markup of the element; [get] looks the name up
    in the attributes of its receiver, and a document has none, whatever
    the attributes of the tags in it are. *)
Definition bs4_get_reads_document (E : Env) : Prop :=
  forall markup attribute, bs4_get E markup attribute = None.

(** A rule that the extraction loop skips (line 250). *)
Definition incomplete (rule : FieldConfig) : Prop :=
  fc_xpath rule = None \/ fc_attribute rule = None.

(** A directory name as [os.path.join] continues it with a relative
    component: with a separator, unless it is empty or ends in one. *)
Definition with_sep (path : string) : string :=
  if PyStr.is_empty path || PyStr.endswith_char OsPath.SEP path then path
  else path +:+ "/".

(** No two hyphens side by side. *)
Fixpoint no_double_hyphen (l : list ascii) : bool :=
  match l with
  | [] => true
  | a :: r =>
      match r with
      | b :: _ => negb (is_hyphen a && is_hyphen b) && no_double_hyphen r
      | [] => true
      end
  end.

(** A character of a finished slug: a word character or a hyphen, in
    lower case. *)
Definition slug_char (c : ascii) : bool :=
  (is_word c || is_hyphen c) && PyStr.chr_eqb (lower_char c) c.

Definition starts_with_hyphen (l : list ascii) : bool :=
  match l with
  | a :: _ => is_hyphen a
  | [] => false
  end.

Definition ends_with_hyphen (l : list ascii) : bool :=
  match last l with
  | Some a => is_hyphen a
  | None => false
  end.

(** What the stages of [sanitize_filename] before the cut establish, and
    the cut keeps. *)
Definition slug_shaped (l : list ascii) : Prop :=
  Forall (fun c => slug_char c = true) l /\ no_double_hyphen l = true
  /\ starts_with_hyphen l = false.


(** ** A reference [urljoin]

    [urllib.parse.urljoin] as CPython defines it (RFC 3986 reference
    resolution), without its input clean-up (control characters) and its
    checks of bracketed hosts.  It only instantiates the environment of the
    worked examples; no theorem over an arbitrary [Env] depends on it. *)

Module UrlLib.

Definition in_list (s : string) (l : list string) : bool :=
  existsb (String.eqb s) l.

Definition uses_relative : list string :=
  [""; "ftp"; "http"; "gopher"; "nntp"; "imap"; "wais"; "file"; "https"; "shttp";
   "mms"; "prospero"; "rtsp"; "rtspu"; "sftp"; "svn"; "svn+ssh"; "ws"; "wss"].

Definition uses_netloc : list string :=
  [""; "ftp"; "http"; "gopher"; "nntp"; "telnet"; "imap"; "wais"; "file"; "mms";
   "https"; "shttp"; "snews"; "prospero"; "rtsp"; "rtspu"; "rsync"; "svn";
   "svn+ssh"; "sftp"; "nfs"; "git"; "git+ssh"; "ws"; "wss"].

Definition uses_params : list string :=
  [""; "ftp"; "hdl"; "prospero"; "http"; "imap"; "https"; "shttp"; "rtsp"; "rtspu";
   "sip"; "sips"; "mms"; "sftp"; "tel"].

Definition is_ascii_alpha (c : ascii) : bool :=
  PyStr.between 65 90 c || PyStr.between 97 122 c.

Definition scheme_char (c : ascii) : bool :=
  is_ascii_alpha c || PyStr.between 48 57 c
  || PyStr.chr_eqb c "+"%char || PyStr.chr_eqb c "-"%char || PyStr.chr_eqb c "."%char.

Fixpoint all_chars (f : ascii -> bool) (s : string) : bool :=
  match s with
  | EmptyString => true
  | String c r => f c && all_chars f r
  end.

Fixpoint map_chars (f : ascii -> ascii) (s : string) : string :=
  match s with
  | EmptyString => EmptyString
  | String c r => String (f c) (map_chars f r)
  end.

(** The part of [s] from the first character that satisfies [f] on. *)
Fixpoint from_first (f : ascii -> bool) (s : string) : string :=
  match s with
  | EmptyString => EmptyString
  | String c r => if f c then s else from_first f r
  end.

Fixpoint until_first (f : ascii -> bool) (s : string) : string :=
  match s with
  | EmptyString => EmptyString
  | String c r => if f c then EmptyString else String c (until_first f r)
  end.

(** [s.split(c, 1)]: the parts before and after the first [c], once [c in s]. *)
Definition cut (c : ascii) (s : string) : string * string :=
  (until_first (fun a => PyStr.chr_eqb a c) s,
   match from_first (fun a => PyStr.chr_eqb a c) s with
   | String _ r => r
   | EmptyString => EmptyString
   end).

(** [s.split(c)] *)
Fixpoint split_on (c : ascii) (s : string) : list string :=
  match s with
  | EmptyString => [EmptyString]
  | String a r =>
      if PyStr.chr_eqb a c then EmptyString :: split_on c r
      else match split_on c r with
           | h :: t => String a h :: t
           | [] => [String a EmptyString]
           end
  end.

(** ['/'.join(l)] *)
Fixpoint join_slash (l : list string) : string :=
  match l with
  | [] => EmptyString
  | [x] => x
  | x :: r => x +:+ "/" +:+ join_slash r
  end.

Record ParseResult := mkParseResult {
  scheme : string; netloc : string; path : string;
  params : string; query : string; fragment : string
}.

(** [urlparse(url, scheme)] *)
Definition urlparse (url default_scheme : string) : ParseResult :=
  let '(sch, url) :=
    let pre := until_first (fun a => PyStr.chr_eqb a ":"%char) url in
    match pre with
    | String c _ =>
        if PyStr.has_char ":" url && is_ascii_alpha c && all_chars scheme_char pre
        then (map_chars lower_char pre, snd (cut ":" url))
        else (default_scheme, url)
    | EmptyString => (default_scheme, url)
    end in
  let '(loc, url) :=
    match url with
    | String "/" (String "/" r) =>
        let is_delim a := PyStr.chr_eqb a "/"%char || PyStr.chr_eqb a "?"%char
                          || PyStr.chr_eqb a "#"%char in
        (until_first is_delim r, from_first is_delim r)
    | _ => (EmptyString, url)
    end in
  let '(url, frag) := if PyStr.has_char "#" url then cut "#" url else (url, EmptyString) in
  let '(url, qry) := if PyStr.has_char "?" url then cut "?" url else (url, EmptyString) in
  let '(url, prm) :=
    if in_list sch uses_params && PyStr.has_char ";" url then
      let '(head, tail) := OsPath.rsplit_sep url in
      if PyStr.has_char ";" tail
      then (head +:+ fst (cut ";" tail), snd (cut ";" tail))
      else (url, EmptyString)
    else (url, EmptyString) in
  mkParseResult sch loc url prm qry frag.

(** [urlunparse] *)
Definition urlunparse (r : ParseResult) : string :=
  let url := if PyStr.is_empty (params r) then path r else path r +:+ ";" +:+ params r in
  let url :=
    if negb (PyStr.is_empty (netloc r))
       || (negb (PyStr.is_empty (scheme r)) && in_list (scheme r) uses_netloc
           && negb (PyStr.startswith "//" url))
    then "//" +:+ netloc r +:+
         (if negb (PyStr.is_empty url) && negb (PyStr.startswith "/" url)
          then "/" +:+ url else url)
    else url in
  let url := if PyStr.is_empty (scheme r) then url else scheme r +:+ ":" +:+ url in
  let url := if PyStr.is_empty (query r) then url else url +:+ "?" +:+ query r in
  if PyStr.is_empty (fragment r) then url else url +:+ "#" +:+ fragment r.

(** [segments[1:-1] = filter(None, segments[1:-1])] *)
Definition drop_empty_middle (segments : list string) : list string :=
  match segments with
  | first :: rest =>
      match reverse rest with
      | last :: middle_rev =>
          first :: List.filter (fun s => negb (PyStr.is_empty s)) (reverse middle_rev)
            ++ [last]
      | [] => segments
      end
  | [] => []
  end.

Definition resolve_step (resolved_path : list string) (seg : string) : list string :=
  if String.eqb seg ".." then removelast resolved_path
  else if String.eqb seg "." then resolved_path
  else resolved_path ++ [seg].

Definition urljoin (base url : string) : string :=
  if PyStr.is_empty base then url
  else if PyStr.is_empty url then base
  else
    let b := urlparse base EmptyString in
    let u := urlparse url (scheme b) in
    if negb (String.eqb (scheme u) (scheme b)) || negb (in_list (scheme u) uses_relative)
    then url
    else if in_list (scheme u) uses_netloc && negb (PyStr.is_empty (netloc u))
    then urlunparse u
    else
      let loc := if in_list (scheme u) uses_netloc then netloc b else netloc u in
      if PyStr.is_empty (path u) && PyStr.is_empty (params u)
      then urlunparse (mkParseResult (scheme u) loc (path b) (params b)
                         (if PyStr.is_empty (query u) then query b else query u)
                         (fragment u))
      else
        let base_parts := split_on "/" (path b) in
        let base_parts :=
          if PyStr.is_empty (List.last base_parts EmptyString) then base_parts
          else removelast base_parts in
        let segments :=
          if PyStr.startswith "/" (path u) then split_on "/" (path u)
          else drop_empty_middle (base_parts ++ split_on "/" (path u)) in
        let resolved_path := fold_left resolve_step segments [] in
        let resolved_path :=
          if in_list (List.last segments EmptyString) ["."; ".."]
          then resolved_path ++ [EmptyString] else resolved_path in
        let joined := join_slash resolved_path in
        urlunparse (mkParseResult (scheme u) loc
                      (if PyStr.is_empty joined then "/" else joined)
                      (params u) (query u) (fragment u)).

End UrlLib.

(** ** A small site for the worked examples

    The libraries answer for the few inputs below as they do on such
    markup; everything else is "no match", "not found" or the identity. *)

Module Demo.

Definition Q : string := String PyStr.DQUOTE EmptyString.

Definition ROOT : string := "/site".
Definition PAGE_URL : string := "https://example.com/a/b".
Definition OLD_URL : string := "http://old.example/a/b".
Definition EMPTY_URL : string := "https://example.com/empty".
Definition UNTITLED_URL : string := "https://example.com/untitled".
Definition BLANK_URL : string := "https://example.com/blank".
Definition NEXT_URL : string := "https://example.com/next".

Definition img_tag (src : string) : string := "<img src=" +:+ Q +:+ src +:+ Q +:+ "/>".
Definition article_with (src : string) : string :=
  "<article>" +:+ img_tag src +:+ "</article>".
Definition gallery_with (src1 src2 : string) : string :=
  "<section>" +:+ img_tag src1 +:+ img_tag src2 +:+ "</section>".

Definition H1 : string := "<h1>Hello World</h1>".
Definition H1_BLANK : string := "<h1></h1>".
Definition TIME : string := "<time>2024/01/15</time>".
Definition ARTICLE : string := article_with "/p.png".
Definition GALLERY : string := gallery_with "/p.png" "https://cdn.example.net/img/p.png".
Definition LINK : string :=
  "<a data-src=" +:+ Q +:+ "/img/x.png" +:+ Q +:+ " href=" +:+ Q +:+ "/img/x.png" +:+ Q
    +:+ ">x</a>".
Definition LINK_REL : string := "<a href=" +:+ Q +:+ "img/x.png" +:+ Q +:+ ">y</a>".

Definition PAGE : string :=
  "<html><body>" +:+ H1 +:+ TIME +:+ LINK +:+ ARTICLE +:+ GALLERY +:+ "<p>" +:+ LINK_REL
    +:+ "</p></body></html>".
Definition UNTITLED_PAGE : string := "<html><body>" +:+ ARTICLE +:+ "</body></html>".
Definition BLANK_PAGE : string := "<html><body>" +:+ H1_BLANK +:+ ARTICLE +:+ "</body></html>".

Definition table_get {V} (k : string) (table : list (string * V)) : option V :=
  snd <$> List.find (fun kv => String.eqb k (fst kv)) table.

Definition site : list (string * Response) :=
  [ (PAGE_URL, mkResponse PAGE_URL PAGE);
    (NEXT_URL, mkResponse NEXT_URL PAGE);
    (OLD_URL, mkResponse PAGE_URL PAGE);
    (EMPTY_URL, mkResponse EMPTY_URL EmptyString);
    (UNTITLED_URL, mkResponse UNTITLED_URL UNTITLED_PAGE);
    (BLANK_URL, mkResponse BLANK_URL BLANK_PAGE);
    ("https://example.com/p.png", mkResponse "https://example.com/p.png" "PNG-1");
    ("https://cdn.example.net/img/p.png",
     mkResponse "https://cdn.example.net/img/p.png" "PNG-2") ].

Definition xpath_table (html : string) : list (string * XPathFirst) :=
  if String.eqb html PAGE then
    [ ("//h1", XElement H1); ("//time", XElement TIME); ("//a", XElement LINK);
      ("//p/a", XElement LINK_REL); ("//article", XElement ARTICLE);
      ("//section", XElement GALLERY); ("//a/@href", XOther "/img/x.png") ]
  else if String.eqb html UNTITLED_PAGE then [ ("//article", XElement ARTICLE) ]
  else if String.eqb html BLANK_PAGE then
    [ ("//h1", XElement H1_BLANK); ("//article", XElement ARTICLE) ]
  else [].

Definition env : Env := {|
  requests_get url := table_get url site;
  urljoin base url := Some (UrlLib.urljoin base url);
  lxml_xpath html xpath := default XNoMatch (table_get xpath (xpath_table html));
  bs4_get_text el :=
    table_get el [ (H1, "Hello World"); (H1_BLANK, EmptyString); (TIME, "2024/01/15");
                (LINK, "x"); (LINK_REL, "y"); (ARTICLE, EmptyString) ];
  bs4_str el := Some el;
  bs4_get _ _ := None;
  bs4_img_srcs html :=
    if String.eqb html ARTICLE then [Some "/p.png"]
    else if String.eqb html GALLERY
    then [Some "/p.png"; Some "https://cdn.example.net/img/p.png"]
    else [];
  bs4_with_srcs html srcs :=
    match srcs with
    | [s] => if String.eqb html ARTICLE then article_with (default "/p.png" s) else html
    | [s1; s2] =>
        if String.eqb html GALLERY
        then gallery_with (default "/p.png" s1)
               (default "https://cdn.example.net/img/p.png" s2)
        else html
    | _ => html
    end;
  markdownify html :=
    if String.eqb html (article_with "/static/images/p.png")
    then "![](/static/images/p.png)" else html;
  datetime_now _ := mkDateTime "2024-01-15" "20240115093000";
  os_mkdir _ := true;
  os_write _ _ := WriteOk;
  os_append _ _ := WriteOk
|}.

(** The same site on a system that refuses to make [refused]. *)
Definition env_without_mkdir (refused : string) : Env := {|
  requests_get := requests_get env;
  urljoin := urljoin env;
  lxml_xpath := lxml_xpath env;
  bs4_get_text := bs4_get_text env;
  bs4_str := bs4_str env;
  bs4_get := bs4_get env;
  bs4_img_srcs := bs4_img_srcs env;
  bs4_with_srcs := bs4_with_srcs env;
  markdownify := markdownify env;
  datetime_now := datetime_now env;
  os_mkdir d := negb (String.eqb d refused);
  os_write := os_write env;
  os_append := os_append env
|}.

Definition rule (xpath attribute : string) : FieldConfig :=
  mkFieldConfig (Some xpath) (Some attribute).

(** Title and content only. *)
Definition config : Config :=
  mkConfig ROOT [ ("title", rule "//h1" "text"); ("content", rule "//article" "html") ].

(** A [date] rule with no keys at all. *)
Definition config_bare_date : Config :=
  mkConfig ROOT [ ("title", rule "//h1" "text"); ("content", rule "//article" "html");
                  ("date", mkFieldConfig None None) ].

(** A [date] rule that extracts [2024/01/15]. *)
Definition config_dated : Config :=
  mkConfig ROOT [ ("title", rule "//h1" "text"); ("content", rule "//article" "html");
                  ("date", rule "//time" "text") ].

(** A [title] rule that lacks its [attribute]. *)
Definition config_bare_title : Config :=
  mkConfig ROOT [ ("title", mkFieldConfig (Some "//h1") None);
                  ("content", rule "//article" "html") ].

Definition IMAGES : string := "/site/static/images".

(** The project tree as [main] leaves it before the loop, with a URL list
    of two pages. *)
Definition world : World :=
  mkWorld {[ ROOT; "/site/content/blog"; IMAGES ]}
    {[ "/site/urllist.txt" := PAGE_URL +:+ PyStr.NL +:+ NEXT_URL +:+ PyStr.NL ]}
    [] 0.

(** The same tree with [p.png] already localized. *)
Definition world_with_image : World := put_file "/site/static/images/p.png" "PNG-0" world.

(** The same tree with a regular file where the documents dated 2024/01
    have their directory. *)
Definition world_with_file_in_the_way : World :=
  put_file "/site/content/blog/2024/01" "not a directory" world.

Definition LONG_TITLE : string :=
  string_of_list_ascii (repeat "a"%char 99) +:+ "-b".

End Demo.

(** ** Further notions used in the statements *)

(** What the extraction loop adds to the record for one rule of the
    configuration: nothing for a rule that lacks a key. *)
Definition extracted_entry (E : Env) (html_content base_url : string)
    (item : string * FieldConfig) : option (string * option string) :=
  match fc_xpath (snd item), fc_attribute (snd item) with
  | Some xpath, Some attribute =>
      Some (fst item, extract_field E html_content xpath attribute base_url)
  | _, _ => None
  end.

(** A piece of text without a line break in it. *)
Definition one_line (s : string) : bool :=
  negb (PyStr.has_char PyText.LF s) && negb (PyStr.has_char PyText.CR s).

(** A URL as it stands in a list that was read: not empty, without white
    space around it, on one line. *)
Definition listed_url (url : string) : Prop :=
  PyStr.is_empty url = false /\ PyStr.strip url = url /\ one_line url = true.

(** A text whose last line is finished: it is empty or ends in a line
    break. *)
Definition ends_lines (text : string) : bool :=
  match PyStr.last_char text with
  | Some c => PyStr.chr_eqb c PyText.LF || PyStr.chr_eqb c PyText.CR
  | None => true
  end.

(** The text of the ledger; no text when the file is not there. *)
Definition ledger_text (root : string) (w : World) : string :=
  default EmptyString (read_file (downloaded_log_path root) w).

(** A character that ends a line. *)
Definition is_break (a : ascii) : bool :=
  PyStr.chr_eqb a (ascii_of_nat 10) || PyStr.chr_eqb a (ascii_of_nat 13).

Definition starts_with_space (s : string) : bool :=
  match s with
  | String a _ => PyStr.isspace a
  | EmptyString => false
  end.

(** A later world: no directory and no file has gone, the list of
    requests and the readings of the clock have only grown. *)
Definition extends (w w' : World) : Prop :=
  dirs w ⊆ dirs w'
  /\ (forall path, is_Some (files w !! path) -> is_Some (files w' !! path))
  /\ (exists more, requests_log w' = requests_log w ++ more)
  /\ clock_reads w <= clock_reads w'.

(** The [.md] files of a walk by their paths, in the order in which
    [find_and_replace] comes to them. *)
Definition md_paths (walk : list (string * list string)) : list string :=
  flat_map (fun entry =>
              map (fun filename => OsPath.join (fst entry) [filename])
                (List.filter ReplaceStr.is_markdown (snd entry)))
    walk.

(** A file that can be read and has [source_str] in it. *)
Definition holds (source_str : string) (w : World) (path : string) : bool :=
  match ReplaceStr.read_text path w with
  | Some content => PyText.contains source_str content
  | None => false
  end.

(** An answer that [main] of [replacestr.py] takes for a yes. *)
Definition says_yes (answer : option string) : bool :=
  match answer with
  | Some confirm => bool_decide (PyText.lower confirm ∈ ["y"; "yes"])
  | None => false
  end.

(** [s[k:]] *)
Fixpoint drop_chars (k : nat) (s : string) : string :=
  match k, s with
  | S k', String _ s' => drop_chars k' s'
  | _, _ => s
  end.

(** A folder of notes for the worked examples of [replacestr.py]. *)
Module Notes.

Definition CRLF : string := String PyText.CR (String PyText.LF EmptyString).

Definition os_walk (root_dir : string) : list (string * list string) :=
  if String.eqb root_dir "/notes"
  then [ ("/notes", ["a.md"; "b.txt"; "C.MD"]); ("/notes/sub", ["d.md"; "gone.md"]) ]
  else [].

Definition world : World :=
  mkWorld {[ "/notes"; "/notes/sub" ]}
    (list_to_map
       [ ("/notes/a.md", "see http://old.example/x and http://old.example/y");
         ("/notes/b.txt", "http://old.example");
         ("/notes/C.MD", "nothing here");
         ("/notes/sub/d.md", "http://old.example" +:+ CRLF) ])
    [] 0.

Definition args (force : bool) : ReplaceStr.Args :=
  ReplaceStr.mkArgs "/notes" "http://old.example" "https://new.example" force.

End Notes.

(** The demo site on a disk that is full: every write leaves two
    characters in the file and fails. *)
Module FullDisk.

Definition env : Env := {|
  requests_get := requests_get Demo.env;
  urljoin := urljoin Demo.env;
  lxml_xpath := lxml_xpath Demo.env;
  bs4_get_text := bs4_get_text Demo.env;
  bs4_str := bs4_str Demo.env;
  bs4_get := bs4_get Demo.env;
  bs4_img_srcs := bs4_img_srcs Demo.env;
  bs4_with_srcs := bs4_with_srcs Demo.env;
  markdownify := markdownify Demo.env;
  datetime_now := datetime_now Demo.env;
  os_mkdir := os_mkdir Demo.env;
  os_write _ _ := WriteFails (Some "PN");
  os_append := os_append Demo.env
|}.

End FullDisk.

(** The document of a page: what [process_url] hands to
    [create_markdown_file]. *)
Record Document := mkDocument {
  doc_path : string;
  doc_front_matter : PyDict.dict (option string);
  doc_body : string
}.

(** The text that [create_markdown_file] writes for it. *)
Definition document_text (doc : Document) : string :=
  md_content (doc_front_matter doc) (doc_body doc).

(** The check of line 264 on the record extracted from a page. *)
Definition required_fields_present (E : Env) (html_content base_url : string)
    (config : Config) : bool :=
  truthy (dict_get "title" (extract_fields E html_content base_url (fields config)))
  && truthy (dict_get "content" (extract_fields E html_content base_url (fields config))).

(** Lines 268-293 of [process_url], for a page that passed that check:
    the document of the page, and the world once the clock was read for a
    missing date and the images were fetched. *)
Definition document_plan (E : Env) (html_content base_url : string) (config : Config)
    (w : World) : Document * World :=
  let extracted_fields := extract_fields E html_content base_url (fields config) in
  let '(extracted_fields, w1) := with_date E extracted_fields w in
  let title := default EmptyString (dict_get "title" extracted_fields) in
  let slug := sanitize_filename title in
  let extracted_fields := with_slug title extracted_fields in
  let date_prefix := default EmptyString (dict_get "date" extracted_fields) in
  let save_path := md_save_path (project_root config) date_prefix slug in
  let content_html := default EmptyString (dict_get "content" extracted_fields) in
  let '(content_with_local_images, w2) :=
    download_content_images E content_html (image_save_dir (project_root config))
      base_url w1 in
  (mkDocument save_path (front_matter_of extracted_fields)
     (markdownify E content_with_local_images), w2).

(** The date of the document: the extracted one, or the day of the run
    when none was extracted. *)
Definition page_date (E : Env) (extracted_fields : PyDict.dict (option string))
    (w : World) : string :=
  if truthy (dict_get "date" extracted_fields)
  then default EmptyString (dict_get "date" extracted_fields)
  else ymd (datetime_now E (clock_reads w)).

(** A text that is a document ending in [body] whose front-matter has
    the line [key: "value"], the quotes of the value escaped. *)
Definition document_with_line (text key value body : string) : Prop :=
  exists before after,
    text = "---" +:+ PyStr.NL +:+ before
           +:+ (key +:+ ": " +:+ String PyStr.DQUOTE (PyStr.escape_quotes value)
                  +:+ String PyStr.DQUOTE PyStr.NL)
           +:+ after +:+ "---" +:+ PyStr.NL +:+ PyStr.NL +:+ body.

(** ** [sanitize_filename] on any [str]

    A [str] as the list of its code points.  What Unicode says of a code
    point ([\w] of [re], [str.lower]) is a parameter; [sanitize_chars]
    above is this function on the code points below 256. *)

Module Unicode.

Record Tables := mkTables {
  word : N -> bool;            (* [\w] of [re] for a [str] pattern *)
  lower : list N -> list N     (* [str.lower] *)
}.

Definition SPACE : N := 32.
Definition HYPHEN : N := 45.

(** [name.replace(' ', '-')] *)
Definition hyphenate (l : list N) : list N :=
  (fun p => if (p =? SPACE)%N then HYPHEN else p) <$> l.

(** [re.sub(r'[^\w\-]', '', s)] *)
Definition keep (U : Tables) (l : list N) : list N :=
  List.filter (fun p => word U p || (p =? HYPHEN)%N) l.

(** [re.sub(r'-+', '-', s)] *)
Fixpoint squeeze (l : list N) : list N :=
  match l with
  | [] => []
  | a :: r =>
      match r with
      | b :: _ => if (a =? HYPHEN)%N && (b =? HYPHEN)%N then squeeze r
                  else a :: squeeze r
      | [] => [a]
      end
  end.

Fixpoint lstrip (l : list N) : list N :=
  match l with
  | a :: r => if (a =? HYPHEN)%N then lstrip r else l
  | [] => []
  end.

Fixpoint rstrip (l : list N) : list N :=
  match l with
  | [] => []
  | a :: r =>
      match rstrip r with
      | [] => if (a =? HYPHEN)%N then [] else [a]
      | r' => a :: r'
      end
  end.

(** [sanitize_filename] (lines 137-150) *)
Definition sanitize_filename (U : Tables) (name : list N) : list N :=
  take 100 (rstrip (lstrip (lower U (squeeze (keep U (hyphenate name)))))).

(** The code points of an 8-bit string. *)
Definition of_chars (l : list ascii) : list N := PyStr.code <$> l.

(** A [str] of code points below 256. *)
Definition latin1 (l : list N) : bool := forallb (fun p => (p <? 256)%N) l.

(** Tables that say of the code points below 256 what Unicode says of
    them: the word characters are those of [is_word], and [lower] works
    on a string of such code points one by one, as [lower_char] does. *)
Definition agree_below_256 (U : Tables) : Prop :=
  (forall c : ascii, word U (PyStr.code c) = is_word c)
  /\ (forall l : list ascii, lower U (of_chars l) = of_chars (lower_char <$> l)).

(** Unicode below 256, and beyond that one letter: U+0130, the capital I
    with a dot, a word character that [lower] turns into the two code
    points of [i] and the combining dot U+0307, which is no word
    character. *)
Definition sample : Tables := {|
  word p := if (p <? 256)%N then is_word (ascii_of_N p) else (p =? 304)%N;
  lower l :=
    flat_map (fun p => if (p <? 256)%N then [PyStr.code (lower_char (ascii_of_N p))]
                       else if (p =? 304)%N then [105; 775]%N else [p]) l
|}.

End Unicode.

(** * Properties *)

(** ** The required-field gate and the fetch *)

Section Gate.

Context (E : Env) (url : string) (config : Config) (w : World).

Lemma fetch_page_content_spec :
  fetch_page_content E url w =
    ((resp_body <$> requests_get E url, url), log_request url w).
Proof. unfold fetch_page_content. by destruct (requests_get E url). Qed.

Lemma process_fetched_gate html base_url w0 :
  truthy (dict_get "title" (extract_fields E html base_url (fields config)))
    && truthy (dict_get "content" (extract_fields E html base_url (fields config))) = false ->
  process_fetched E url html base_url config w0 = (Returns false, w0).
Proof.
  intros Hgate. unfold process_fetched.
  rewrite <- negb_andb, Hgate. reflexivity.
Qed.

Lemma process_url_fetched response :
  requests_get E url = Some response ->
  process_url E url config w =
    if PyStr.is_empty (resp_body response) then (Returns false, log_request url w)
    else process_fetched E url (resp_body response) url config (log_request url w).
Proof.
  intros Hget. unfold process_url. rewrite fetch_page_content_spec, Hget. reflexivity.
Qed.

Lemma process_url_fetch_failed :
  requests_get E url = None ->
  process_url E url config w = (Returns false, log_request url w).
Proof.
  intros Hget. unfold process_url. rewrite fetch_page_content_spec, Hget. reflexivity.
Qed.

Lemma process_url_gate response :
  requests_get E url = Some response ->
  truthy (dict_get "title" (extract_fields E (resp_body response) url (fields config)))
    && truthy (dict_get "content" (extract_fields E (resp_body response) url (fields config)))
    = false ->
  process_url E url config w = (Returns false, log_request url w).
Proof.
  intros Hget Hgate. rewrite (process_url_fetched _ Hget).
  destruct (PyStr.is_empty (resp_body response)); [reflexivity|].
  by apply process_fetched_gate.
Qed.

End Gate.

(** C1: when the extraction of a fetched page gives [None] for [title] or
    for [content] (a null value or a missing key), [process_url] returns
    [False] having done nothing but the page request: no file is written
    or changed (so no document, and the ledger file is as it was), no
    directory is made and the clock is not read. *)
Theorem process_url_null_required_field (E : Env) (url : string) (config : Config)
    (w : World) (response : Response) :
  requests_get E url = Some response ->
  dict_get "title" (extract_fields E (resp_body response) url (fields config)) = None
  \/ dict_get "content" (extract_fields E (resp_body response) url (fields config)) = None ->
  process_url E url config w = (Returns false, log_request url w)
  /\ files (snd (process_url E url config w)) = files w
  /\ read_file (downloaded_log_path (project_root config)) (snd (process_url E url config w))
     = read_file (downloaded_log_path (project_root config)) w.
Proof.
  intros Hget Hnull.
  assert (process_url E url config w = (Returns false, log_request url w)) as ->.
  { apply (process_url_gate _ _ _ _ _ Hget).
    destruct Hnull as [-> | ->]; [reflexivity | apply andb_false_r]. }
  repeat split.
Qed.

(** On the demo site: a page without [h1]. *)
Lemma process_url_null_required_field_witness :
  dict_get "title"
    (extract_fields Demo.env Demo.UNTITLED_PAGE Demo.UNTITLED_URL (fields Demo.config)) = None
  /\ process_url Demo.env Demo.UNTITLED_URL Demo.config Demo.world
     = (Returns false, log_request Demo.UNTITLED_URL Demo.world).
Proof.
  split; [reflexivity|].
  apply (process_url_null_required_field Demo.env Demo.UNTITLED_URL Demo.config Demo.world
           (mkResponse Demo.UNTITLED_URL Demo.UNTITLED_PAGE)).
  - reflexivity.
  - left. reflexivity.
Defined.

(** C9: the gate tests truthiness: when the extracted [title] or [content]
    is the empty string, [process_url] ends exactly as for a null value:
    it returns [False] having done nothing but the page request, so no
    document is written and the ledger file is as it was. *)
Theorem process_url_empty_required_field (E : Env) (url : string) (config : Config)
    (w : World) (response : Response) :
  requests_get E url = Some response ->
  dict_get "title" (extract_fields E (resp_body response) url (fields config))
    = Some EmptyString
  \/ dict_get "content" (extract_fields E (resp_body response) url (fields config))
    = Some EmptyString ->
  process_url E url config w = (Returns false, log_request url w)
  /\ files (snd (process_url E url config w)) = files w
  /\ read_file (downloaded_log_path (project_root config)) (snd (process_url E url config w))
     = read_file (downloaded_log_path (project_root config)) w.
Proof.
  intros Hget Hempty.
  assert (process_url E url config w = (Returns false, log_request url w)) as ->.
  { apply (process_url_gate _ _ _ _ _ Hget).
    destruct Hempty as [-> | ->]; [reflexivity | apply andb_false_r]. }
  repeat split.
Qed.

(** On the demo site: a page whose [h1] is empty. *)
Lemma process_url_empty_required_field_witness :
  dict_get "title"
    (extract_fields Demo.env Demo.BLANK_PAGE Demo.BLANK_URL (fields Demo.config))
    = Some EmptyString
  /\ process_url Demo.env Demo.BLANK_URL Demo.config Demo.world
     = (Returns false, log_request Demo.BLANK_URL Demo.world).
Proof.
  split; [reflexivity|].
  apply (process_url_empty_required_field Demo.env Demo.BLANK_URL Demo.config Demo.world
           (mkResponse Demo.BLANK_URL Demo.BLANK_PAGE)).
  - reflexivity.
  - left. reflexivity.
Defined.

(** C8: a successful response with an empty body is treated like a failed
    fetch: [process_url] returns [False] having done nothing but the page
    request (nothing is extracted, no file is written or changed), and the
    result is the one of any environment in which the request fails. *)
Theorem process_url_empty_body (E : Env) (url : string) (config : Config) (w : World)
    (response : Response) :
  requests_get E url = Some response ->
  resp_body response = EmptyString ->
  process_url E url config w = (Returns false, log_request url w)
  /\ files (snd (process_url E url config w)) = files w
  /\ (forall E' : Env, requests_get E' url = None ->
        process_url E' url config w = process_url E url config w).
Proof.
  intros Hget Hbody.
  assert (process_url E url config w = (Returns false, log_request url w)) as ->.
  { rewrite (process_url_fetched _ _ _ _ _ Hget), Hbody. reflexivity. }
  repeat split. intros E' Hfail. by apply process_url_fetch_failed.
Qed.

(** On the demo site: a URL answered with an empty body. *)
Lemma process_url_empty_body_witness :
  requests_get Demo.env Demo.EMPTY_URL = Some (mkResponse Demo.EMPTY_URL EmptyString)
  /\ process_url Demo.env Demo.EMPTY_URL Demo.config Demo.world
     = (Returns false, log_request Demo.EMPTY_URL Demo.world).
Proof.
  split; [reflexivity|].
  apply (proj1 (process_url_empty_body Demo.env Demo.EMPTY_URL Demo.config Demo.world
                  (mkResponse Demo.EMPTY_URL EmptyString) eq_refl eq_refl)).
Defined.

(** ** The base URL *)








(** ** [extract_field] *)

(** A first match that is not an element (a rule such as [//a/@href],
    which selects the attribute itself) is returned stripped, whatever the
    attribute mode is: nothing is resolved on this path either. *)
Lemma extract_field_non_element E html_content xpath attribute base_url text :
  lxml_xpath E html_content xpath = XOther text ->
  extract_field E html_content xpath attribute base_url = Some (PyStr.strip text).
Proof. unfold extract_field. by intros ->. Qed.

(** C6 fails in the code: in an attribute mode, that is a mode other than
    [text] and [html], the value is asked of the [BeautifulSoup] document
    and not of the element, so it is always [None]: whenever the first
    match of the XPath is an element, [extract_field] returns [None].  The
    guard of line 129 and the [urljoin] of line 130 are never reached with
    a value, and no relative [src] or [href] is resolved, nor returned. *)
Theorem extract_field_attribute_mode_is_dead (E : Env)
    (html_content xpath attribute base_url element_html : string) :
  bs4_get_reads_document E ->
  lxml_xpath E html_content xpath = XElement element_html ->
  attribute <> "text" -> attribute <> "html" ->
  extract_field E html_content xpath attribute base_url = None.
Proof.
  intros Hdocument Hx Htext Hhtml. unfold extract_field. rewrite Hx.
  rewrite !bool_decide_eq_false_2 by done. cbv zeta. by rewrite Hdocument.
Qed.

(** The two examples of the claim, against [https://example.com/a/b]: the
    links of the demo page carry [href="/img/x.png"] and
    [href="img/x.png"]; the claim promises
    [https://example.com/img/x.png] and [https://example.com/a/img/x.png],
    the code returns [None] for both. *)
Lemma extract_field_attribute_mode_is_dead_witness :
  (lxml_xpath Demo.env Demo.PAGE "//a" = XElement Demo.LINK
   /\ UrlLib.urljoin "https://example.com/a/b" "/img/x.png" = "https://example.com/img/x.png"
   /\ extract_field Demo.env Demo.PAGE "//a" "href" "https://example.com/a/b" = None)
  /\ (lxml_xpath Demo.env Demo.PAGE "//p/a" = XElement Demo.LINK_REL
      /\ UrlLib.urljoin "https://example.com/a/b" "img/x.png"
         = "https://example.com/a/img/x.png"
      /\ extract_field Demo.env Demo.PAGE "//p/a" "href" "https://example.com/a/b" = None).
Proof.
  split; (split; [reflexivity|]; split; [by vm_compute|]).
  - by apply (extract_field_attribute_mode_is_dead Demo.env Demo.PAGE "//a" "href"
                "https://example.com/a/b" Demo.LINK).
  - by apply (extract_field_attribute_mode_is_dead Demo.env Demo.PAGE "//p/a" "href"
                "https://example.com/a/b" Demo.LINK_REL).
Defined.

(** ** Exceptions *)

(** C3, evaluated where it fails: the page's date is [2024/01/15], so the
    document goes to a directory that [create_markdown_file] has to make,
    and the system refuses, or a regular file has that name.  The
    [OSError] of [os.makedirs] leaves [process_url]; [main] exits with
    status 1 and the second URL of the list is never requested.  Where the
    directory can be made the same run processes both URLs. *)
Theorem makedirs_error_escapes_process_url :
  read_url_list Demo.ROOT Demo.world = Some [Demo.PAGE_URL; Demo.NEXT_URL]
  /\ fst (process_url (Demo.env_without_mkdir "/site/content/blog/2024/01") Demo.PAGE_URL
            Demo.config_dated Demo.world) = Raises OSError
  /\ fst (main (Demo.env_without_mkdir "/site/content/blog/2024/01")
            Demo.config_dated Demo.world) = SysExit 1
  /\ requests_log (snd (main (Demo.env_without_mkdir "/site/content/blog/2024/01")
                          Demo.config_dated Demo.world))
     = [Demo.PAGE_URL; "https://example.com/p.png"]
  /\ fst (process_url Demo.env Demo.PAGE_URL Demo.config_dated
            Demo.world_with_file_in_the_way) = Raises OSError
  /\ fst (main Demo.env Demo.config_dated Demo.world_with_file_in_the_way) = SysExit 1
  /\ requests_log (snd (main Demo.env Demo.config_dated Demo.world_with_file_in_the_way))
     = [Demo.PAGE_URL; "https://example.com/p.png"]
  /\ fst (main Demo.env Demo.config_dated Demo.world) = Finished
  /\ requests_log (snd (main Demo.env Demo.config_dated Demo.world))
     = [Demo.PAGE_URL; "https://example.com/p.png"; Demo.NEXT_URL].
Proof. repeat split; by vm_compute. Qed.

(** The one exception that leaves [process_url]: the [OSError] of the
    [os.makedirs] in [create_markdown_file]. *)
Lemma create_markdown_file_raises E save_path front_matter content w :
  os_makedirs E (OsPath.dirname save_path) w = None ->
  create_markdown_file E save_path front_matter content w = (Raises OSError, w).
Proof. unfold create_markdown_file. by intros ->. Qed.

Lemma process_url_raises_from_makedirs E url config w e w' :
  process_url E url config w = (Raises e, w') ->
  exists save_path, os_makedirs E (OsPath.dirname save_path) w' = None.
Proof.
  unfold process_url. rewrite fetch_page_content_spec.
  destruct (requests_get E url) as [response|]; simpl; [|done].
  destruct (PyStr.is_empty (resp_body response)); [done|].
  unfold process_fetched. destruct (_ || _); [done|].
  destruct (with_date E _ _) as [extracted w1]. cbv zeta.
  destruct (download_content_images E _ _ _ w1) as [localized w2].
  unfold create_markdown_file.
  match goal with
  | |- context [os_makedirs E (OsPath.dirname ?p) w2] =>
      destruct (os_makedirs E (OsPath.dirname p) w2) as [w3|] eqn:Hmk;
      [|intros Hraise; assert (w' = w2) as -> by congruence; by exists p]
  end.
  by destruct (write_ok _).
Qed.

(** An exception ends the loop: the URLs after it are not looked at. *)
Lemma process_urls_stops E config downloaded_urls url rest w e w' :
  url ∉ downloaded_urls ->
  process_url E url config w = (Raises e, w') ->
  process_urls E config downloaded_urls (url :: rest) w = (Raises e, w').
Proof. intros Hnew Hraise. simpl. by rewrite bool_decide_eq_false_2, Hraise. Qed.

(** ** [sanitize_filename] *)

Example sanitize_filename_hello :
  sanitize_filename "Hello, World!  Foo" = "hello-world-foo".
Proof. reflexivity. Qed.

(** C4, evaluated where it fails: a title of 99 letters, a hyphen and one
    more letter is cut after the hyphen, and a second application strips
    that hyphen; the slug is not a fixed point.  The example of the claim
    holds. *)
Theorem sanitize_filename_truncation_not_fixed_point :
  sanitize_filename "Hello, World!  Foo" = "hello-world-foo"
  /\ sanitize_filename Demo.LONG_TITLE
     = string_of_list_ascii (repeat "a"%char 99) +:+ "-"
  /\ sanitize_filename (sanitize_filename Demo.LONG_TITLE)
     = string_of_list_ascii (repeat "a"%char 99)
  /\ sanitize_filename (sanitize_filename Demo.LONG_TITLE)
     <> sanitize_filename Demo.LONG_TITLE.
Proof. repeat split; by vm_compute. Qed.

(** ** Where [sanitize_filename] is a fixed point *)

Lemma lower_char_idem c : lower_char (lower_char c) = lower_char c.
Proof. by destruct c as [[] [] [] [] [] [] [] []]. Qed.

Lemma is_word_lower c : is_word (lower_char c) = is_word c.
Proof. by destruct c as [[] [] [] [] [] [] [] []]. Qed.

Lemma is_hyphen_lower c : is_hyphen (lower_char c) = is_hyphen c.
Proof. by destruct c as [[] [] [] [] [] [] [] []]. Qed.

Lemma slug_char_not_space c : slug_char c = true -> PyStr.chr_eqb c " "%char = false.
Proof. by destruct c as [[] [] [] [] [] [] [] []]. Qed.

Lemma slug_char_kept c : slug_char c = true -> is_word c || is_hyphen c = true.
Proof. unfold slug_char. by intros [? _]%andb_true_iff. Qed.

Lemma slug_char_lower c : slug_char c = true -> lower_char c = c.
Proof.
  unfold slug_char, PyStr.chr_eqb. intros [_ H]%andb_true_iff. by apply Ascii.eqb_eq.
Qed.

Lemma slug_char_of_kept c : is_word c || is_hyphen c = true -> slug_char (lower_char c) = true.
Proof.
  intros H. unfold slug_char, PyStr.chr_eqb.
  rewrite is_word_lower, is_hyphen_lower, H, lower_char_idem. simpl. apply Ascii.eqb_refl.
Qed.

(** The stages, one by one. *)

Lemma keep_word_or_hyphen_Forall l :
  Forall (fun c => is_word c || is_hyphen c = true) (keep_word_or_hyphen l).
Proof.
  unfold keep_word_or_hyphen. induction l as [|a l IH]; simpl; [constructor|].
  destruct (is_word a || is_hyphen a) eqn:Ha; [by constructor | done].
Qed.

Lemma squeeze_hyphens_Forall (P : ascii -> Prop) l :
  Forall P l -> Forall P (squeeze_hyphens l).
Proof.
  induction 1 as [|a l Ha Hl IH]; [constructor|]. simpl.
  destruct l as [|b l]; [by constructor|].
  destruct (is_hyphen a && is_hyphen b); [done | by constructor].
Qed.

Lemma squeeze_hyphens_head a l :
  exists r, squeeze_hyphens (a :: l) = a :: r.
Proof.
  revert a. induction l as [|b l IH]; intros a; simpl; [by eexists|].
  destruct (is_hyphen a && is_hyphen b) eqn:Hab; [|by eexists].
  apply andb_true_iff in Hab as [Ha Hb]. unfold is_hyphen, PyStr.chr_eqb in Ha, Hb.
  apply Ascii.eqb_eq in Ha as ->. apply Ascii.eqb_eq in Hb as ->. apply IH.
Qed.

Lemma squeeze_hyphens_no_double l : no_double_hyphen (squeeze_hyphens l) = true.
Proof.
  induction l as [|a l IH]; [done|].
  destruct l as [|b l]; [done|].
  change (squeeze_hyphens (a :: b :: l))
    with (if is_hyphen a && is_hyphen b then squeeze_hyphens (b :: l)
          else a :: squeeze_hyphens (b :: l)).
  destruct (is_hyphen a && is_hyphen b) eqn:Hab; [done|].
  destruct (squeeze_hyphens_head b l) as [r Hr]. rewrite Hr in IH |- *.
  simpl. simpl in IH. by rewrite Hab, IH.
Qed.

Lemma no_double_hyphen_lower l :
  no_double_hyphen (map lower_char l) = no_double_hyphen l.
Proof.
  induction l as [|a l IH]; [done|]. destruct l as [|b l]; [done|].
  change (no_double_hyphen (map lower_char (a :: b :: l)))
    with (negb (is_hyphen (lower_char a) && is_hyphen (lower_char b))
          && no_double_hyphen (map lower_char (b :: l))).
  by rewrite IH, !is_hyphen_lower.
Qed.

Lemma no_double_hyphen_app l1 l2 :
  no_double_hyphen (l1 ++ l2) = true ->
  no_double_hyphen l1 = true /\ no_double_hyphen l2 = true.
Proof.
  induction l1 as [|a l1 IH]; [done|]. destruct l1 as [|b l1].
  - simpl. destruct l2; [done|]. by intros [_ ?]%andb_true_iff.
  - simpl in *. intros [Hab Hrest]%andb_true_iff.
    destruct (IH Hrest) as [H1 H2]. by rewrite Hab, H1.
Qed.

Lemma lstrip_hyphens_suffix l : exists k, l = k ++ lstrip_hyphens l.
Proof.
  induction l as [|a l [k IH]]; [by exists []|]. simpl.
  destruct (is_hyphen a); [|by exists []]. exists (a :: k). simpl. by f_equal.
Qed.

Lemma rstrip_hyphens_prefix l : exists k, l = rstrip_hyphens l ++ k.
Proof.
  induction l as [|a l [k IH]]; [by exists []|]. simpl.
  destruct (rstrip_hyphens l) as [|b r] eqn:Hr.
  - destruct (is_hyphen a); [by exists (a :: l) | exists l; by rewrite IH].
  - exists k. simpl. by rewrite IH at 1.
Qed.

Lemma lstrip_hyphens_head l : starts_with_hyphen (lstrip_hyphens l) = false.
Proof.
  induction l as [|a l IH]; [done|]. simpl. by destruct (is_hyphen a) eqn:Ha; simpl.
Qed.

Lemma rstrip_hyphens_head l :
  starts_with_hyphen l = false -> starts_with_hyphen (rstrip_hyphens l) = false.
Proof.
  destruct l as [|a l]; [done|]. simpl. intros Ha.
  destruct (rstrip_hyphens l); [by rewrite Ha | done].
Qed.

Lemma take_head n l :
  starts_with_hyphen l = false -> starts_with_hyphen (take n l) = false.
Proof. by destruct l, n. Qed.

Lemma lstrip_hyphens_id l : starts_with_hyphen l = false -> lstrip_hyphens l = l.
Proof. destruct l as [|a l]; [done|]. simpl. by intros ->. Qed.

Lemma ends_with_hyphen_cons a b l :
  ends_with_hyphen (a :: b :: l) = ends_with_hyphen (b :: l).
Proof. reflexivity. Qed.

Lemma rstrip_hyphens_id l : ends_with_hyphen l = false -> rstrip_hyphens l = l.
Proof.
  induction l as [|a l IH]; [done|]. destruct l as [|b l].
  - unfold ends_with_hyphen. simpl. by intros ->.
  - rewrite ends_with_hyphen_cons. intros H. specialize (IH H).
    change (rstrip_hyphens (a :: b :: l))
      with (match rstrip_hyphens (b :: l) with
            | [] => if is_hyphen a then [] else [a]
            | r' => a :: r'
            end).
    by rewrite IH.
Qed.

Lemma rstrip_hyphens_shorter l :
  ends_with_hyphen l = true -> length (rstrip_hyphens l) < length l.
Proof.
  induction l as [|a l IH]; [done|]. destruct l as [|b l].
  - unfold ends_with_hyphen. simpl. intros ->. simpl. lia.
  - rewrite ends_with_hyphen_cons. intros H. specialize (IH H).
    change (rstrip_hyphens (a :: b :: l))
      with (match rstrip_hyphens (b :: l) with
            | [] => if is_hyphen a then [] else [a]
            | r' => a :: r'
            end).
    destruct (rstrip_hyphens (b :: l)); [destruct (is_hyphen a)|]; simpl in *; lia.
Qed.

Lemma slug_shaped_sanitize_chars l : slug_shaped (sanitize_chars l).
Proof.
  unfold sanitize_chars, strip_hyphens.
  set (kept := squeeze_hyphens (keep_word_or_hyphen (spaces_to_hyphens l))).
  assert (Forall (fun c => slug_char c = true) (map lower_char kept)) as Hchars.
  { apply Forall_fmap. unfold kept.
    eapply Forall_impl; [apply squeeze_hyphens_Forall, keep_word_or_hyphen_Forall|].
    intros c Hc. by apply slug_char_of_kept. }
  assert (no_double_hyphen (map lower_char kept) = true) as Hdouble
    by (rewrite no_double_hyphen_lower; apply squeeze_hyphens_no_double).
  destruct (lstrip_hyphens_suffix (map lower_char kept)) as [k1 H1].
  destruct (rstrip_hyphens_prefix (lstrip_hyphens (map lower_char kept))) as [k2 H2].
  set (stripped := rstrip_hyphens (lstrip_hyphens (map lower_char kept))) in *.
  assert (map lower_char kept = k1 ++ (take 100 stripped ++ drop 100 stripped) ++ k2)
    as Hsplit by (by rewrite take_drop, <- H2).
  rewrite Hsplit in Hchars, Hdouble. split; [|split].
  - apply Forall_app in Hchars as [_ Hchars]. apply Forall_app in Hchars as [Hchars _].
    by apply Forall_app in Hchars as [Hchars _].
  - apply no_double_hyphen_app in Hdouble as [_ Hdouble].
    apply no_double_hyphen_app in Hdouble as [Hdouble _].
    by apply no_double_hyphen_app in Hdouble as [Hdouble _].
  - apply take_head, rstrip_hyphens_head, lstrip_hyphens_head.
Qed.

Lemma sanitize_chars_length l : length (sanitize_chars l) <= 100.
Proof. unfold sanitize_chars. rewrite length_take. lia. Qed.

Lemma no_double_hyphen_squeeze l : no_double_hyphen l = true -> squeeze_hyphens l = l.
Proof.
  induction l as [|a l IH]; [done|]. destruct l as [|b l]; [done|].
  intros [Hab Hrest]%andb_true_iff. apply negb_true_iff in Hab.
  change (squeeze_hyphens (a :: b :: l))
    with (if is_hyphen a && is_hyphen b then squeeze_hyphens (b :: l)
          else a :: squeeze_hyphens (b :: l)).
  by rewrite Hab, IH.
Qed.

Lemma spaces_to_hyphens_id l :
  Forall (fun c => slug_char c = true) l -> spaces_to_hyphens l = l.
Proof.
  unfold spaces_to_hyphens. induction 1 as [|c l Hc Hl IH]; [done|].
  simpl. by rewrite (slug_char_not_space c Hc), IH.
Qed.

Lemma keep_word_or_hyphen_id l :
  Forall (fun c => slug_char c = true) l -> keep_word_or_hyphen l = l.
Proof.
  unfold keep_word_or_hyphen. induction 1 as [|c l Hc Hl IH]; [done|].
  simpl. by rewrite (slug_char_kept c Hc), IH.
Qed.

Lemma map_lower_char_id l :
  Forall (fun c => slug_char c = true) l -> map lower_char l = l.
Proof.
  induction 1 as [|c l Hc Hl IH]; [done|]. simpl. by rewrite (slug_char_lower c Hc), IH.
Qed.

(** On a slug-shaped list the stages before the strip change nothing. *)
Lemma slug_shaped_stages l :
  slug_shaped l ->
  map lower_char (squeeze_hyphens (keep_word_or_hyphen (spaces_to_hyphens l))) = l.
Proof.
  intros (Hchars & Hdouble & _).
  rewrite spaces_to_hyphens_id, keep_word_or_hyphen_id by done.
  rewrite no_double_hyphen_squeeze by done. by apply map_lower_char_id.
Qed.

(** [sanitize_chars] maps its output to itself exactly when the cut at 100
    characters did not leave a hyphen at the end. *)
Lemma sanitize_chars_fixed_point_iff l :
  sanitize_chars (sanitize_chars l) = sanitize_chars l
  <-> ends_with_hyphen (sanitize_chars l) = false.
Proof.
  pose proof (slug_shaped_sanitize_chars l) as Hshape.
  pose proof (sanitize_chars_length l) as Hlen.
  set (t := sanitize_chars l) in *.
  assert (sanitize_chars t = take 100 (rstrip_hyphens t)) as Hsecond.
  { unfold sanitize_chars at 1. rewrite (slug_shaped_stages t Hshape).
    unfold strip_hyphens. rewrite lstrip_hyphens_id; [done|]. apply Hshape. }
  rewrite Hsecond. destruct (ends_with_hyphen t) eqn:Hend.
  - split; [|done]. intros Heq. apply (f_equal length) in Heq.
    pose proof (rstrip_hyphens_shorter t Hend). rewrite length_take in Heq. lia.
  - split; [done|]. intros _. rewrite rstrip_hyphens_id by done.
    by apply take_ge.
Qed.

Lemma rstrip_hyphens_end l : ends_with_hyphen (rstrip_hyphens l) = false.
Proof.
  induction l as [|a l IH]; [done|]. simpl.
  destruct (rstrip_hyphens l) as [|b r].
  - unfold ends_with_hyphen. by destruct (is_hyphen a) eqn:Ha; simpl.
  - by rewrite ends_with_hyphen_cons.
Qed.

Lemma squeeze_hyphens_length l : length (squeeze_hyphens l) <= length l.
Proof.
  induction l as [|a l IH]; [done|]. destruct l as [|b l]; [done|].
  change (squeeze_hyphens (a :: b :: l))
    with (if is_hyphen a && is_hyphen b then squeeze_hyphens (b :: l)
          else a :: squeeze_hyphens (b :: l)).
  destruct (is_hyphen a && is_hyphen b); simpl in *; lia.
Qed.

Lemma keep_word_or_hyphen_length l : length (keep_word_or_hyphen l) <= length l.
Proof.
  unfold keep_word_or_hyphen. induction l as [|a l IH]; [done|]. simpl.
  destruct (is_word a || is_hyphen a); simpl; lia.
Qed.

Lemma strip_hyphens_length l : length (strip_hyphens l) <= length l.
Proof.
  unfold strip_hyphens.
  destruct (lstrip_hyphens_suffix l) as [k1 H1].
  destruct (rstrip_hyphens_prefix (lstrip_hyphens l)) as [k2 H2].
  apply (f_equal length) in H1, H2. rewrite length_app in H1, H2. lia.
Qed.

(** A name of at most 100 characters is not cut, and its slug is a fixed
    point. *)
Lemma sanitize_chars_idempotent_short l :
  length l <= 100 -> sanitize_chars (sanitize_chars l) = sanitize_chars l.
Proof.
  intros Hlen. apply sanitize_chars_fixed_point_iff. unfold sanitize_chars.
  set (lowered := map lower_char
                    (squeeze_hyphens (keep_word_or_hyphen (spaces_to_hyphens l)))).
  assert (length lowered <= length l) as Hlow.
  { unfold lowered, spaces_to_hyphens.
    rewrite length_map.
    etrans; [apply squeeze_hyphens_length|].
    etrans; [apply keep_word_or_hyphen_length|]. by rewrite length_map. }
  pose proof (strip_hyphens_length lowered).
  rewrite take_ge by lia. apply rstrip_hyphens_end.
Qed.

Lemma sanitize_filename_idempotent_short name :
  String.length name <= 100 ->
  sanitize_filename (sanitize_filename name) = sanitize_filename name.
Proof.
  intros Hlen. unfold sanitize_filename. rewrite list_ascii_of_string_of_list_ascii.
  rewrite sanitize_chars_idempotent_short; [done|].
  clear -Hlen. revert Hlen. generalize 100. induction name as [|a name IH]; intros n Hn.
  - simpl. lia.
  - simpl in *. destruct n as [|n]; [lia|]. specialize (IH n). lia.
Qed.

Lemma sanitize_filename_fixed_point_iff name :
  sanitize_filename (sanitize_filename name) = sanitize_filename name
  <-> ends_with_hyphen (list_ascii_of_string (sanitize_filename name)) = false.
Proof.
  unfold sanitize_filename. rewrite !list_ascii_of_string_of_list_ascii.
  rewrite <- sanitize_chars_fixed_point_iff. split; [|by intros ->].
  intros H. apply (f_equal list_ascii_of_string) in H.
  by rewrite !list_ascii_of_string_of_list_ascii in H.
Qed.

(** ** Dictionaries and the extracted record *)

Section Dict.

Context {V : Type}.
Implicit Types (d : PyDict.dict V) (k : string) (v : V).

Lemma dict_get_set_eq k v d : PyDict.get k (PyDict.set k v d) = Some v.
Proof.
  induction d as [|[k' v'] d IH]; simpl.
  - by rewrite decide_True.
  - destruct (decide (k = k')) as [->|Hne]; simpl.
    + by rewrite decide_True.
    + by rewrite decide_False.
Qed.

Lemma dict_get_set_ne k k' v d :
  k <> k' -> PyDict.get k (PyDict.set k' v d) = PyDict.get k d.
Proof.
  intros Hne. induction d as [|[k0 v0] d IH]; simpl.
  - by rewrite decide_False.
  - destruct (decide (k' = k0)) as [->|Hne0]; simpl.
    + by rewrite !decide_False.
    + destruct (decide (k = k0)); [done | apply IH].
Qed.

Lemma dict_get_None k d : PyDict.get k d = None <-> k ∉ PyDict.keys d.
Proof.
  unfold PyDict.keys. induction d as [|[k' v'] d IH]; simpl.
  - split; [intros _; apply not_elem_of_nil | done].
  - rewrite not_elem_of_cons. destruct (decide (k = k')) as [->|Hne].
    + split; [done | by intros [? _]].
    + rewrite IH. tauto.
Qed.

Lemma dict_get_Some_elem k v d : PyDict.get k d = Some v -> (k, v) ∈ d.
Proof.
  induction d as [|[k' v'] d IH]; simpl; [done|].
  destruct (decide (k = k')) as [->|Hne].
  - intros [= ->]. apply list_elem_of_here.
  - intros H. apply list_elem_of_further, IH, H.
Qed.

(** In a well-formed dictionary a key has one binding. *)
Lemma dict_wf_binding k v v' d :
  PyDict.wf d = true -> PyDict.get k d = Some v -> (k, v') ∈ d -> v' = v.
Proof.
  unfold PyDict.wf, PyDict.keys. intros Hwf%bool_decide_eq_true.
  induction d as [|[k0 v0] d IH]; simpl in *; [done|].
  apply NoDup_cons in Hwf as [Hfresh Hwf].
  destruct (decide (k = k0)) as [->|Hne].
  - intros [= ->] [[= ->]|Hin]%elem_of_cons; [done|].
    exfalso. apply Hfresh. apply list_elem_of_fmap. by exists (k0, v').
  - intros Hget [[= -> ->]|Hin]%elem_of_cons; [done|]. by apply IH.
Qed.

Lemma dict_get_filter_None (P : string * V -> bool) k d :
  PyDict.get k d = None -> PyDict.get k (List.filter P d) = None.
Proof.
  induction d as [|[k' v'] d IH]; simpl; [done|].
  destruct (decide (k = k')) as [->|Hne]; [done|].
  intros H. destruct (P (k', v')); simpl; [rewrite decide_False by done|]; by apply IH.
Qed.

End Dict.

Lemma extract_step_incomplete E html base acc name rule :
  incomplete rule -> extract_step E html base acc (name, rule) = acc.
Proof.
  unfold extract_step. simpl. intros [-> | ->]; [done|]. by destruct (fc_xpath rule).
Qed.

Lemma extract_step_other E html base acc item field :
  field <> fst item ->
  PyDict.get field (extract_step E html base acc item) = PyDict.get field acc.
Proof.
  intros Hne. unfold extract_step.
  destruct (fc_xpath (snd item)), (fc_attribute (snd item)); try done.
  by apply dict_get_set_ne.
Qed.

Lemma extract_loop_absent E html base (items : PyDict.dict FieldConfig) acc field :
  PyDict.get field acc = None ->
  (forall rule, (field, rule) ∈ items -> incomplete rule) ->
  PyDict.get field (fold_left (extract_step E html base) items acc) = None.
Proof.
  revert acc. induction items as [|[name rule] items IH]; intros acc Hacc Hall; [done|].
  simpl. apply IH.
  - destruct (decide (field = name)) as [->|Hne].
    + rewrite extract_step_incomplete; [done|]. apply Hall, list_elem_of_here.
    + by rewrite extract_step_other.
  - intros rule' Hin. apply Hall. by apply list_elem_of_further.
Qed.

Lemma extract_fields_absent E html base config field rule :
  PyDict.wf (fields config) = true ->
  PyDict.get field (fields config) = Some rule ->
  incomplete rule ->
  PyDict.get field (extract_fields E html base (fields config)) = None.
Proof.
  intros Hwf Hget Hinc. apply extract_loop_absent; [done|].
  intros rule' Hin. by rewrite (dict_wf_binding _ _ _ _ Hwf Hget Hin).
Qed.

Lemma dict_get_absent field (d : PyDict.dict (option string)) :
  PyDict.get field d = None -> dict_get field d = None.
Proof. unfold dict_get. by intros ->. Qed.

(** C10, as stated, fails for the field [date]: its rule has neither key,
    nothing is extracted for it, and still the document's front-matter has
    a [date] line, the date of the run. *)
Lemma bare_date_rule_reaches_front_matter :
  PyDict.get "date" (fields Demo.config_bare_date) = Some (mkFieldConfig None None)
  /\ PyDict.get "date"
       (extract_fields Demo.env Demo.PAGE Demo.PAGE_URL (fields Demo.config_bare_date))
     = None
  /\ files (snd (process_url Demo.env Demo.PAGE_URL Demo.config_bare_date Demo.world))
       !! "/site/content/blog/2024-01-15-hello-world.md"
     = Some (md_content [ ("title", Some "Hello World"); ("date", Some "2024-01-15");
                          ("slug", Some "hello-world") ]
               "![](/static/images/p.png)").
Proof. repeat split; by vm_compute. Qed.

(** C10, amended: a configured field whose rule lacks [xpath] or
    [attribute] is skipped by the extraction loop and is absent from the
    extracted record (not bound to [None]); unless it is [date] or [slug],
    which the pipeline sets itself, it is absent from the front-matter;
    and if it is [title] or [content], every run of [process_url] on every
    URL returns [False] and leaves all files, the ledger among them, as
    they were. *)
Theorem incomplete_rule_field_is_skipped (E : Env) (config : Config) (field : string)
    (rule : FieldConfig) :
  PyDict.wf (fields config) = true ->
  PyDict.get field (fields config) = Some rule ->
  fc_xpath rule = None \/ fc_attribute rule = None ->
  (forall html base_url,
     PyDict.get field (extract_fields E html base_url (fields config)) = None)
  /\ (field <> "date" -> field <> "slug" ->
      forall html base_url title w,
        PyDict.get field
          (front_matter_of
             (with_slug title
                (fst (with_date E (extract_fields E html base_url (fields config)) w))))
        = None)
  /\ (field = "title" \/ field = "content" ->
      forall url w,
        fst (process_url E url config w) = Returns false
        /\ files (snd (process_url E url config w)) = files w).
Proof.
  intros Hwf Hget Hinc.
  assert (forall html base_url,
            PyDict.get field (extract_fields E html base_url (fields config)) = None)
    as Habsent by (intros; by eapply extract_fields_absent).
  split; [exact Habsent|]. split.
  - intros Hdate Hslug html base_url title w.
    apply dict_get_filter_None. unfold with_slug.
    rewrite dict_get_set_ne by done. unfold with_date.
    destruct (_ || _); simpl; [|apply Habsent].
    rewrite dict_get_set_ne by done. apply Habsent.
  - intros Hreq url w.
    assert (process_url E url config w = (Returns false, log_request url w)) as ->; [|done].
    destruct (requests_get E url) as [response|] eqn:Hfetch;
      [|by apply process_url_fetch_failed].
    apply (process_url_gate _ _ _ _ _ Hfetch).
    destruct Hreq as [-> | ->]; rewrite (dict_get_absent _ _ (Habsent _ _));
      [reflexivity | apply andb_false_r].
Qed.

(** On the demo site: a [title] rule without [attribute]. *)
Lemma incomplete_rule_field_is_skipped_witness :
  PyDict.get "title"
    (extract_fields Demo.env Demo.PAGE Demo.PAGE_URL (fields Demo.config_bare_title)) = None
  /\ fst (process_url Demo.env Demo.PAGE_URL Demo.config_bare_title Demo.world)
     = Returns false
  /\ files (snd (process_url Demo.env Demo.PAGE_URL Demo.config_bare_title Demo.world))
     = files Demo.world.
Proof.
  destruct (incomplete_rule_field_is_skipped Demo.env Demo.config_bare_title "title"
              (mkFieldConfig (Some "//h1") None) eq_refl eq_refl (or_intror eq_refl))
    as (Habsent & _ & Hgate).
  split; [apply Habsent | apply Hgate; by left].
Defined.

(** ** [download_image] *)

Lemma os_makedirs_existing E d w : d ∈ dirs w -> os_makedirs E d w = Some w.
Proof. intros Hd. unfold os_makedirs. by rewrite bool_decide_eq_true_2. Qed.

Lemma os_makedirs_Some E d w w' :
  os_makedirs E d w = Some w' ->
  d ∈ dirs w' /\ files w' = files w /\ requests_log w' = requests_log w
  /\ clock_reads w' = clock_reads w.
Proof.
  unfold os_makedirs. case_bool_decide as Hd; [by intros [= <-]|].
  case_bool_decide; [done|]. destruct (os_mkdir E d); [|done].
  intros [= <-]. simpl. split; [set_solver | done].
Qed.

Lemma local_image_name_frame E image_url w :
  files (snd (local_image_name E image_url w)) = files w
  /\ dirs (snd (local_image_name E image_url w)) = dirs w
  /\ requests_log (snd (local_image_name E image_url w)) = requests_log w.
Proof. unfold local_image_name. by destruct (_ || _). Qed.

Lemma os_path_exists_ext path w w' :
  files w' = files w -> dirs w' = dirs w ->
  os_path_exists path w' = os_path_exists path w.
Proof. unfold os_path_exists. by intros -> ->. Qed.

Lemma os_path_exists_put_file path data w :
  os_path_exists path (put_file path data w) = true.
Proof.
  unfold os_path_exists, put_file. simpl.
  rewrite lookup_insert_eq. rewrite bool_decide_eq_true_2; [done | by eexists].
Qed.

(** A file that exists is not fetched again. *)
Lemma download_image_existing E image_url save_dir base_url w resolved :
  PyStr.is_empty image_url = false ->
  save_dir ∈ dirs w ->
  resolve_image_url E base_url image_url = Some resolved ->
  os_path_exists (OsPath.join save_dir [fst (local_image_name E resolved w)]) w = true ->
  download_image E image_url save_dir base_url w
  = (Some (fst (local_image_name E resolved w)), snd (local_image_name E resolved w)).
Proof.
  intros Hne Hdir Hres Hexists. unfold download_image.
  rewrite Hne, (os_makedirs_existing _ _ _ Hdir), Hres.
  destruct (local_image_name_frame E resolved w) as (Hf & Hd & _).
  destruct (local_image_name E resolved w) as [image_name w2]; simpl in *.
  by rewrite (os_path_exists_ext _ _ _ Hf Hd), Hexists.
Qed.

(** What a successful call leaves behind. *)
Lemma download_image_Some E image_url save_dir base_url w name w1 :
  download_image E image_url save_dir base_url w = (Some name, w1) ->
  save_dir ∈ dirs w1
  /\ os_path_exists (OsPath.join save_dir [name]) w1 = true
  /\ length (requests_log w1) <= S (length (requests_log w)).
Proof.
  unfold download_image. destruct (PyStr.is_empty image_url); [done|].
  destruct (os_makedirs E save_dir w) as [w0|] eqn:Hmk; [|done].
  apply os_makedirs_Some in Hmk as (Hdir & _ & Hlog & _).
  destruct (resolve_image_url E base_url image_url) as [resolved|]; [|done].
  destruct (local_image_name_frame E resolved w0) as (_ & Hd & Hl).
  destruct (local_image_name E resolved w0) as [image_name w2]; simpl in *.
  destruct (os_path_exists _ w2) eqn:Hexists.
  - intros [= <- <-]. rewrite Hd, Hl, Hlog. auto.
  - destruct (requests_get E resolved) as [response|]; [|done].
    destruct (os_write E _ (resp_body response)) as [|[partial|]]; simpl; [|done..].
    intros [= <- <-]. simpl. rewrite Hd, Hl, Hlog, length_app. simpl.
    split; [done|]. split; [apply os_path_exists_put_file | lia].
Qed.

(** A first call for an image that is not there yet: one request, for
    the resolved URL, and the body of the response in the file. *)
Lemma download_image_first E image_url save_dir base_url w resolved response :
  PyStr.is_empty image_url = false ->
  save_dir ∈ dirs w ->
  resolve_image_url E base_url image_url = Some resolved ->
  os_path_exists (OsPath.join save_dir [fst (local_image_name E resolved w)]) w = false ->
  requests_get E resolved = Some response ->
  os_write E (OsPath.join save_dir [fst (local_image_name E resolved w)])
    (resp_body response) = WriteOk ->
  download_image E image_url save_dir base_url w
  = (Some (fst (local_image_name E resolved w)),
     put_file (OsPath.join save_dir [fst (local_image_name E resolved w)])
       (resp_body response) (log_request resolved (snd (local_image_name E resolved w)))).
Proof.
  intros Hne Hdir Hres Hnew Hget Hwrite. unfold download_image.
  rewrite Hne, (os_makedirs_existing _ _ _ Hdir), Hres.
  destruct (local_image_name_frame E resolved w) as (Hf & Hd & _).
  destruct (local_image_name E resolved w) as [image_name w2]; simpl in *.
  by rewrite (os_path_exists_ext _ _ _ Hf Hd), Hnew, Hget, Hwrite.
Qed.

(** C7: when the file name computed for an image URL already exists in
    the destination directory, [download_image] requests nothing, writes
    nothing and returns that name.  Hence two URLs with the same computed
    name make exactly one download: the call for the first, with the file
    not yet there, makes one request, for the first URL, and writes what
    it received; the call for the second returns the same name, requests
    nothing and leaves the files as they are, so that after both calls the
    request log has grown by the first URL alone and the file holds the
    first image. *)
Theorem download_image_dedup_by_name (E : Env) (save_dir base_url : string) :
  (forall image_url resolved w,
     PyStr.is_empty image_url = false ->
     save_dir ∈ dirs w ->
     resolve_image_url E base_url image_url = Some resolved ->
     os_path_exists (OsPath.join save_dir [fst (local_image_name E resolved w)]) w = true ->
     fst (download_image E image_url save_dir base_url w)
       = Some (fst (local_image_name E resolved w))
     /\ requests_log (snd (download_image E image_url save_dir base_url w))
        = requests_log w
     /\ files (snd (download_image E image_url save_dir base_url w)) = files w)
  /\ (forall url1 url2 resolved1 resolved2 response w,
        PyStr.is_empty url1 = false ->
        PyStr.is_empty url2 = false ->
        save_dir ∈ dirs w ->
        resolve_image_url E base_url url1 = Some resolved1 ->
        resolve_image_url E base_url url2 = Some resolved2 ->
        os_path_exists (OsPath.join save_dir [fst (local_image_name E resolved1 w)]) w
        = false ->
        requests_get E resolved1 = Some response ->
        os_write E (OsPath.join save_dir [fst (local_image_name E resolved1 w)])
          (resp_body response) = WriteOk ->
        fst (local_image_name E resolved2
               (snd (download_image E url1 save_dir base_url w)))
        = fst (local_image_name E resolved1 w) ->
        fst (download_image E url1 save_dir base_url w)
        = Some (fst (local_image_name E resolved1 w))
        /\ requests_log (snd (download_image E url1 save_dir base_url w))
           = requests_log w ++ [resolved1]
        /\ fst (download_image E url2 save_dir base_url
                  (snd (download_image E url1 save_dir base_url w)))
           = Some (fst (local_image_name E resolved1 w))
        /\ requests_log
             (snd (download_image E url2 save_dir base_url
                     (snd (download_image E url1 save_dir base_url w))))
           = requests_log w ++ [resolved1]
        /\ files (snd (download_image E url2 save_dir base_url
                         (snd (download_image E url1 save_dir base_url w))))
           = files (snd (download_image E url1 save_dir base_url w))
        /\ read_file (OsPath.join save_dir [fst (local_image_name E resolved1 w)])
             (snd (download_image E url2 save_dir base_url
                     (snd (download_image E url1 save_dir base_url w))))
           = Some (resp_body response)).
Proof.
  split.
  - intros image_url resolved w Hne Hdir Hres Hexists.
    rewrite (download_image_existing _ _ _ _ _ _ Hne Hdir Hres Hexists). simpl.
    destruct (local_image_name_frame E resolved w) as (Hf & _ & Hl). done.
  - intros url1 url2 resolved1 resolved2 response w Hne1 Hne2 Hdir Hres1 Hres2 Hnew Hget
      Hwrite.
    rewrite (download_image_first _ _ _ _ _ _ _ Hne1 Hdir Hres1 Hnew Hget Hwrite).
    cbn [fst snd].
    destruct (local_image_name_frame E resolved1 w) as (_ & Hd1 & Hl1).
    set (name := fst (local_image_name E resolved1 w)) in *.
    set (w1 := put_file (OsPath.join save_dir [name]) (resp_body response)
                 (log_request resolved1 (snd (local_image_name E resolved1 w)))).
    intros Hname.
    assert (save_dir ∈ dirs w1) as Hdir1 by (unfold w1; simpl; by rewrite Hd1).
    assert (os_path_exists (OsPath.join save_dir [fst (local_image_name E resolved2 w1)]) w1
            = true) as Hexists
      by (rewrite Hname; apply os_path_exists_put_file).
    rewrite (download_image_existing _ _ _ _ _ _ Hne2 Hdir1 Hres2 Hexists). cbn [fst snd].
    destruct (local_image_name_frame E resolved2 w1) as (Hf2 & _ & Hl2).
    assert (requests_log w1 = requests_log w ++ [resolved1]) as Hlog
      by (unfold w1; simpl; by rewrite Hl1).
    split; [done|]. split; [done|]. split; [by rewrite Hname|].
    split; [by rewrite Hl2|]. split; [done|].
    unfold read_file. rewrite Hf2. unfold w1. simpl. apply lookup_insert_eq.
Qed.

(** On the demo site: [p.png] already on disk, and two URLs that both end
    in [p.png], the second on another host. *)
Lemma download_image_dedup_by_name_witness :
  (fst (download_image Demo.env "/p.png" Demo.IMAGES Demo.PAGE_URL Demo.world_with_image)
     = Some "p.png"
   /\ requests_log
        (snd (download_image Demo.env "/p.png" Demo.IMAGES Demo.PAGE_URL
                Demo.world_with_image)) = [])
  /\ (requests_log (snd (download_image Demo.env "/p.png" Demo.IMAGES Demo.PAGE_URL
                           Demo.world))
        = ["https://example.com/p.png"]
      /\ fst (download_image Demo.env "https://cdn.example.net/img/p.png" Demo.IMAGES
                Demo.PAGE_URL
                (snd (download_image Demo.env "/p.png" Demo.IMAGES Demo.PAGE_URL
                        Demo.world)))
         = Some "p.png"
      /\ requests_log
           (snd (download_image Demo.env "https://cdn.example.net/img/p.png" Demo.IMAGES
                   Demo.PAGE_URL
                   (snd (download_image Demo.env "/p.png" Demo.IMAGES Demo.PAGE_URL
                           Demo.world))))
         = ["https://example.com/p.png"]
      /\ read_file "/site/static/images/p.png"
           (snd (download_image Demo.env "https://cdn.example.net/img/p.png" Demo.IMAGES
                   Demo.PAGE_URL
                   (snd (download_image Demo.env "/p.png" Demo.IMAGES Demo.PAGE_URL
                           Demo.world))))
         = Some "PNG-1").
Proof.
  destruct (download_image_dedup_by_name Demo.env Demo.IMAGES Demo.PAGE_URL)
    as [Hexisting Hsecond].
  split.
  - destruct (Hexisting "/p.png" "https://example.com/p.png" Demo.world_with_image)
      as (Hname & Hlog & _); [reflexivity | by vm_compute | reflexivity | reflexivity |].
    split; [exact Hname | exact Hlog].
  - destruct (Hsecond "/p.png" "https://cdn.example.net/img/p.png"
                "https://example.com/p.png" "https://cdn.example.net/img/p.png"
                (mkResponse "https://example.com/p.png" "PNG-1") Demo.world)
      as (_ & Hlog1 & Hname & Hlog2 & _ & Hfile);
      [reflexivity | reflexivity | by vm_compute | reflexivity | reflexivity
      | by vm_compute | reflexivity | reflexivity | by vm_compute |].
    split; [exact Hlog1|]. split; [exact Hname|]. split; [exact Hlog2 | exact Hfile].
Defined.

(** ** Paths *)

Lemma append_cons a s t : String a s +:+ t = String a (s +:+ t).
Proof. reflexivity. Qed.

Lemma append_assoc s t u : (s +:+ t) +:+ u = s +:+ (t +:+ u).
Proof. induction s as [|a s IH]; [done|]. by rewrite !append_cons, IH. Qed.

Lemma append_inv_head s t u : s +:+ t = s +:+ u -> t = u.
Proof.
  induction s as [|a s IH]; [done|]. rewrite !append_cons. intros [= H]. by apply IH.
Qed.

Lemma is_empty_append s t : PyStr.is_empty t = false -> PyStr.is_empty (s +:+ t) = false.
Proof. by destruct s. Qed.

Lemma last_char_append s t :
  PyStr.is_empty t = false -> PyStr.last_char (s +:+ t) = PyStr.last_char t.
Proof.
  intros Ht. induction s as [|a s IH]; [done|].
  rewrite append_cons. simpl. rewrite IH.
  pose proof (is_empty_append s t Ht). by destruct (s +:+ t).
Qed.

Lemma endswith_char_append c s t :
  PyStr.is_empty t = false ->
  PyStr.endswith_char c (s +:+ t) = PyStr.endswith_char c t.
Proof. intros Ht. unfold PyStr.endswith_char. by rewrite last_char_append. Qed.

Lemma startswith_has_char s :
  PyStr.startswith "/" s = true -> PyStr.has_char OsPath.SEP s = true.
Proof.
  destruct s as [|a s]; [done|]. cbn [PyStr.startswith PyStr.has_char].
  unfold PyStr.chr_eqb, OsPath.SEP. destruct (Ascii.eqb_spec "/" a) as [<-|]; done.
Qed.

Lemma rsplit_sep_tail p : PyStr.has_char OsPath.SEP (snd (OsPath.rsplit_sep p)) = false.
Proof.
  induction p as [|c r IH]; [done|]. simpl.
  destruct (PyStr.has_char OsPath.SEP r) eqn:Hr.
  - by destruct (OsPath.rsplit_sep r).
  - destruct (PyStr.chr_eqb c OsPath.SEP) eqn:Hc; simpl; [done|]. by rewrite Hc.
Qed.

Lemma basename_relative p : PyStr.startswith "/" (OsPath.basename p) = false.
Proof.
  destruct (PyStr.startswith "/" (OsPath.basename p)) eqn:H; [|done].
  apply startswith_has_char in H. unfold OsPath.basename in H.
  by rewrite rsplit_sep_tail in H.
Qed.

Lemma join2_relative path b :
  PyStr.startswith "/" b = false -> OsPath.join2 path b = with_sep path +:+ b.
Proof.
  intros Hb. unfold OsPath.join2, with_sep. rewrite Hb.
  destruct (_ || _); [done|]. by rewrite append_assoc.
Qed.

(** Continuing a path that ends in a name. *)
Lemma join2_after_name x name b :
  PyStr.is_empty name = false -> PyStr.endswith_char OsPath.SEP name = false ->
  PyStr.startswith "/" b = false ->
  OsPath.join2 (x +:+ name) b = x +:+ name +:+ "/" +:+ b.
Proof.
  intros Hne Hend Hb. unfold OsPath.join2.
  rewrite Hb, is_empty_append, endswith_char_append by done. simpl.
  by rewrite Hend, !append_assoc.
Qed.

Lemma downloaded_log_path_eq root :
  downloaded_log_path root = with_sep root +:+ "downloaded.log".
Proof. unfold downloaded_log_path. simpl. by rewrite join2_relative. Qed.

Lemma image_save_dir_eq root : image_save_dir root = with_sep root +:+ "static/images".
Proof.
  unfold image_save_dir. simpl. rewrite (join2_relative root) by done.
  by rewrite join2_after_name.
Qed.

(** No image is saved over the ledger. *)
Lemma image_path_not_ledger root name :
  PyStr.startswith "/" name = false ->
  OsPath.join (image_save_dir root) [name] <> downloaded_log_path root.
Proof.
  intros Hname. simpl. rewrite image_save_dir_eq, downloaded_log_path_eq.
  rewrite join2_after_name by done. intros H%append_inv_head. discriminate H.
Qed.

(** No document is saved over the ledger. *)
Lemma md_save_path_not_ledger root date_prefix slug :
  md_save_path root date_prefix slug <> downloaded_log_path root.
Proof.
  unfold md_save_path. rewrite downloaded_log_path_eq. simpl.
  rewrite (join2_relative root) by done. rewrite join2_after_name by done.
  set (name := date_prefix +:+ "-" +:+ slug +:+ ".md").
  destruct (PyStr.startswith "/" name) eqn:Habs.
  - unfold OsPath.join2. rewrite Habs. intros H.
    apply (f_equal PyStr.last_char) in H. unfold name in H.
    rewrite <- !append_assoc in H. rewrite !last_char_append in H by done.
    discriminate H.
  - rewrite <- append_assoc. rewrite join2_after_name by done.
    rewrite !append_assoc. intros H%append_inv_head. discriminate H.
Qed.

(** ** The ledger *)

Section Frame.

Context (E : Env).

Lemma after_write_other o path data w k :
  path <> k -> files (after_write o path data w) !! k = files w !! k.
Proof.
  intros Hne. destruct o as [|[partial|]]; simpl; [| |done];
    by rewrite lookup_insert_ne.
Qed.

Lemma local_image_name_relative image_url w :
  PyStr.startswith "/" (fst (local_image_name E image_url w)) = false.
Proof.
  unfold local_image_name. destruct (_ || _); simpl; [done | apply basename_relative].
Qed.

(** [download_image] writes one file at most, in [save_dir]. *)
Lemma download_image_frame image_url save_dir base_url w k :
  (forall name, PyStr.startswith "/" name = false -> OsPath.join save_dir [name] <> k) ->
  files (snd (download_image E image_url save_dir base_url w)) !! k = files w !! k.
Proof.
  intros Hk. unfold download_image. destruct (PyStr.is_empty image_url); [done|].
  destruct (os_makedirs E save_dir w) as [w0|] eqn:Hmk; [|done].
  apply os_makedirs_Some in Hmk as (_ & Hfiles & _).
  destruct (resolve_image_url E base_url image_url) as [resolved|]; simpl;
    [|by rewrite Hfiles].
  pose proof (local_image_name_relative resolved w0) as Hrel.
  destruct (local_image_name_frame E resolved w0) as (Hf & _ & _).
  destruct (local_image_name E resolved w0) as [image_name w2]; simpl in *.
  destruct (os_path_exists _ w2); simpl; [by rewrite Hf, Hfiles|].
  destruct (requests_get E resolved) as [response|]; simpl; [|by rewrite Hf, Hfiles].
  rewrite after_write_other by (by apply Hk). simpl. by rewrite Hf, Hfiles.
Qed.

Lemma localize_images_frame srcs save_dir base_url w k :
  (forall name, PyStr.startswith "/" name = false -> OsPath.join save_dir [name] <> k) ->
  files (snd (localize_images E srcs save_dir base_url w)) !! k = files w !! k.
Proof.
  intros Hk. revert w. induction srcs as [|img_url rest IH]; intros w; [done|].
  simpl. destruct (truthy img_url).
  - pose proof (download_image_frame (default EmptyString img_url) save_dir base_url w k Hk)
      as Hone.
    destruct (download_image E _ save_dir base_url w) as [img_name w1]; simpl in *.
    specialize (IH w1). destruct (localize_images E rest save_dir base_url w1); simpl in *.
    by rewrite IH.
  - specialize (IH w). by destruct (localize_images E rest save_dir base_url w).
Qed.

Lemma download_content_images_frame content_html save_dir base_url w k :
  (forall name, PyStr.startswith "/" name = false -> OsPath.join save_dir [name] <> k) ->
  files (snd (download_content_images E content_html save_dir base_url w)) !! k
  = files w !! k.
Proof.
  intros Hk. unfold download_content_images. destruct (PyStr.is_empty content_html); [done|].
  pose proof (localize_images_frame (bs4_img_srcs E content_html) save_dir base_url w k Hk).
  by destruct (localize_images E _ save_dir base_url w).
Qed.

Lemma with_date_files extracted_fields w :
  files (snd (with_date E extracted_fields w)) = files w.
Proof. unfold with_date. by destruct (_ || _). Qed.

(** What [create_markdown_file] does to the files. *)
Lemma create_markdown_file_spec save_path front_matter content w r w' :
  create_markdown_file E save_path front_matter content w = (r, w') ->
  (forall k, save_path <> k -> files w' !! k = files w !! k)
  /\ (r = Returns true ->
      os_write E save_path (md_content front_matter content) = WriteOk
      /\ files w' !! save_path = Some (md_content front_matter content)).
Proof.
  unfold create_markdown_file.
  destruct (os_makedirs E _ w) as [w1|] eqn:Hmk; [|by intros [= <- <-]].
  apply os_makedirs_Some in Hmk as (_ & Hfiles & _).
  intros [= <- <-]. split.
  - intros k Hk. by rewrite after_write_other, Hfiles.
  - destruct (os_write E save_path _) as [|partial]; [|done].
    intros _. split; [done|]. simpl. apply lookup_insert_eq.
Qed.

(** The steps after the fetch: the ledger file is touched by
    [mark_as_downloaded] alone, and that comes after a document that is
    written in full. *)
Lemma process_fetched_ledger url html base_url config w r w' :
  process_fetched E url html base_url config w = (r, w') ->
  (r <> Returns true ->
   files w' !! downloaded_log_path (project_root config)
   = files w !! downloaded_log_path (project_root config))
  /\ (r = Returns true ->
      exists w_doc save_path text,
        os_write E save_path text = WriteOk
        /\ files w_doc !! save_path = Some text
        /\ files w_doc !! downloaded_log_path (project_root config)
           = files w !! downloaded_log_path (project_root config)
        /\ w' = mark_as_downloaded E (project_root config) url w_doc).
Proof.
  unfold process_fetched. destruct (_ || _); [by intros [= <- <-]|].
  pose proof (with_date_files (extract_fields E html base_url (fields config)) w) as Hdate.
  destruct (with_date E _ w) as [extracted w1]; simpl in Hdate. cbv zeta.
  match goal with
  | |- context [download_content_images E ?c ?d ?b w1] =>
      pose proof (download_content_images_frame c d b w1
                    (downloaded_log_path (project_root config))
                    (image_path_not_ledger (project_root config))) as Himg;
      destruct (download_content_images E c d b w1) as [localized w2]
  end.
  simpl in Himg.
  match goal with
  | |- context [create_markdown_file E ?p ?fm ?c w2] =>
      destruct (create_markdown_file E p fm c w2) as [md_result w3] eqn:Hmd;
      apply create_markdown_file_spec in Hmd as [Hother Hwritten];
      specialize (Hother _ (md_save_path_not_ledger _ _ _))
  end.
  destruct md_result as [[]|e]; intros [= <- <-].
  - split; [done|]. intros _. destruct (Hwritten eq_refl) as [Hok Hfile].
    eexists w3, _, _. split; [exact Hok|]. split; [exact Hfile|].
    split; [by rewrite Hother, Himg, Hdate | done].
  - split; [|done]. intros _. by rewrite Hother, Himg, Hdate.
  - split; [|done]. intros _. by rewrite Hother, Himg, Hdate.
Qed.

End Frame.

(** ** The document of a page and the ledger *)

Lemma after_append_other o path data w k :
  path <> k -> files (after_append o path data w) !! k = files w !! k.
Proof.
  intros Hne. destruct o as [|[partial|]]; simpl; [| |done];
    by rewrite lookup_insert_ne.
Qed.

(** [process_url], by the fetch. *)
Lemma process_url_plan E url config w :
  process_url E url config w
  = match requests_get E url with
    | None => (Returns false, log_request url w)
    | Some response =>
        if PyStr.is_empty (resp_body response) then (Returns false, log_request url w)
        else process_fetched E url (resp_body response) url config (log_request url w)
    end.
Proof.
  unfold process_url. rewrite fetch_page_content_spec.
  by destruct (requests_get E url).
Qed.

(** [process_url] after the fetch, by the document of the page. *)
Lemma process_fetched_plan E url html base_url config w :
  process_fetched E url html base_url config w
  = if required_fields_present E html base_url config
    then
      match create_markdown_file E
              (doc_path (fst (document_plan E html base_url config w)))
              (doc_front_matter (fst (document_plan E html base_url config w)))
              (doc_body (fst (document_plan E html base_url config w)))
              (snd (document_plan E html base_url config w)) with
      | (Returns true, w3) =>
          (Returns true, mark_as_downloaded E (project_root config) url w3)
      | (Returns false, w3) => (Returns false, w3)
      | (Raises e, w3) => (Raises e, w3)
      end
    else (Returns false, w).
Proof.
  unfold process_fetched, required_fields_present, document_plan.
  rewrite <- negb_andb. destruct (_ && _); [|done]. cbn [negb].
  destruct (with_date E _ w) as [extracted w1]. cbv zeta.
  by destruct (download_content_images E _ _ base_url w1) as [localized w2].
Qed.

(** Until the document is written the ledger is not touched, and the
    document is not the ledger. *)
Lemma document_plan_ledger E html base_url config w :
  files (snd (document_plan E html base_url config w))
    !! downloaded_log_path (project_root config)
  = files w !! downloaded_log_path (project_root config)
  /\ doc_path (fst (document_plan E html base_url config w))
     <> downloaded_log_path (project_root config).
Proof.
  unfold document_plan.
  pose proof (with_date_files E (extract_fields E html base_url (fields config)) w) as Hdate.
  destruct (with_date E _ w) as [extracted w1]; simpl in Hdate. cbv zeta.
  match goal with
  | |- context [download_content_images E ?c ?d ?b w1] =>
      pose proof (download_content_images_frame E c d b w1
                    (downloaded_log_path (project_root config))
                    (image_path_not_ledger (project_root config))) as Himg;
      destruct (download_content_images E c d b w1) as [localized w2]
  end.
  simpl in *. split; [by rewrite Himg, Hdate | apply md_save_path_not_ledger].
Qed.

(** What [create_markdown_file] returns, by the outcome of the write. *)
Lemma create_markdown_file_true E save_path front_matter content w w' :
  create_markdown_file E save_path front_matter content w = (Returns true, w') ->
  os_write E save_path (md_content front_matter content) = WriteOk.
Proof. intros H. by apply create_markdown_file_spec in H as [_ [? _]]. Qed.

Lemma create_markdown_file_not_ok E save_path front_matter content w :
  os_write E save_path (md_content front_matter content) <> WriteOk ->
  fst (create_markdown_file E save_path front_matter content w) <> Returns true.
Proof.
  intros Hfail Htrue.
  destruct (create_markdown_file E save_path front_matter content w) as [r w'] eqn:Hmd.
  simpl in Htrue. subst r. by apply create_markdown_file_true in Hmd.
Qed.

(** C2: in a run of [process_url] the URL is appended to the ledger only
    after the document of that URL was written in full.  Whenever the call
    does not return [True], the ledger file is as it was; and if the
    ledger file has changed, the call returned [True], the page of this
    URL was fetched and has its required fields, the write of the document
    of this page (its path from the date and the slug of the title, its
    text the front-matter and the body) succeeded, the document was on
    disk and the ledger untouched when [mark_as_downloaded] was called for
    this URL, and the document is still there afterwards.  In particular
    the ledger is left as it was when the fetch fails or gives an empty
    page, when a required field is missing, and when the write of the
    document fails. *)
Theorem ledger_appended_only_after_document (E : Env) (url : string) (config : Config)
    (w : World) (r : Outcome bool) (w' : World) :
  process_url E url config w = (r, w') ->
  (r <> Returns true ->
   read_file (downloaded_log_path (project_root config)) w'
   = read_file (downloaded_log_path (project_root config)) w)
  /\ (read_file (downloaded_log_path (project_root config)) w'
      <> read_file (downloaded_log_path (project_root config)) w ->
      r = Returns true
      /\ exists response doc w_plan w_doc,
           requests_get E url = Some response
           /\ required_fields_present E (resp_body response) url config = true
           /\ document_plan E (resp_body response) url config (log_request url w)
              = (doc, w_plan)
           /\ os_write E (doc_path doc) (document_text doc) = WriteOk
           /\ create_markdown_file E (doc_path doc) (doc_front_matter doc) (doc_body doc)
                w_plan = (Returns true, w_doc)
           /\ read_file (doc_path doc) w_doc = Some (document_text doc)
           /\ read_file (downloaded_log_path (project_root config)) w_doc
              = read_file (downloaded_log_path (project_root config)) w
           /\ w' = mark_as_downloaded E (project_root config) url w_doc
           /\ read_file (doc_path doc) w' = Some (document_text doc))
  /\ ((requests_get E url = None
       \/ (exists response, requests_get E url = Some response
                            /\ PyStr.is_empty (resp_body response) = true)
       \/ (exists response, requests_get E url = Some response
                            /\ required_fields_present E (resp_body response) url config
                               = false)
       \/ (exists response,
             requests_get E url = Some response
             /\ os_write E
                  (doc_path (fst (document_plan E (resp_body response) url config
                                    (log_request url w))))
                  (document_text (fst (document_plan E (resp_body response) url config
                                         (log_request url w))))
                <> WriteOk)) ->
      r <> Returns true
      /\ read_file (downloaded_log_path (project_root config)) w'
         = read_file (downloaded_log_path (project_root config)) w).
Proof.
  intros Hrun. rewrite process_url_plan in Hrun. unfold read_file.
  set (ledger := downloaded_log_path (project_root config)).
  destruct (requests_get E url) as [response|] eqn:Hget.
  2: { injection Hrun as <- <-. split; [done|]. split; [done|]. by intros _. }
  destruct (PyStr.is_empty (resp_body response)) eqn:Hbody.
  { injection Hrun as <- <-. split; [done|]. split; [done|]. by intros _. }
  rewrite process_fetched_plan in Hrun.
  destruct (required_fields_present E (resp_body response) url config) eqn:Hgate.
  2: { injection Hrun as <- <-. split; [done|]. split; [done|]. by intros _. }
  destruct (document_plan_ledger E (resp_body response) url config (log_request url w))
    as [Hplan Hpath]. fold ledger in Hplan, Hpath.
  destruct (document_plan E (resp_body response) url config (log_request url w))
    as [doc w_plan] eqn:Hdoc. cbn [fst snd] in *.
  pose proof (create_markdown_file_not_ok E (doc_path doc) (doc_front_matter doc)
                (doc_body doc) w_plan) as Hnot_ok.
  destruct (create_markdown_file E (doc_path doc) (doc_front_matter doc) (doc_body doc)
              w_plan) as [md_result w_doc] eqn:Hmd.
  pose proof Hmd as Hspec. apply create_markdown_file_spec in Hspec as [Hother Hwritten].
  specialize (Hother _ Hpath). simpl in Hplan.
  assert (files w_doc !! ledger = files w !! ledger) as Hsame by (by rewrite Hother, Hplan).
  assert (md_result <> Returns true -> r <> Returns true /\ files w' !! ledger = files w !! ledger)
    as Hfailed.
  { intros Hne. destruct md_result as [[]|e]; [done| |]; by injection Hrun as <- <-. }
  split; [|split].
  - intros Hr. destruct md_result as [[]|e]; [|by apply Hfailed..].
    injection Hrun as <- _. done.
  - intros Hchanged. destruct md_result as [[]|e];
      [|by destruct (Hfailed ltac:(done)) as [_ ?]..].
    injection Hrun as <- <-. split; [done|].
    destruct (Hwritten eq_refl) as [Hok Hfile].
    exists response, doc, w_plan, w_doc. repeat (split; [done|]).
    unfold mark_as_downloaded. by rewrite after_append_other.
  - intros [Hnone|[(response' & Hsome & Hempty)|[(response' & Hsome & Hmissing)|
                   (response' & Hsome & Hwrite)]]]; try done.
    + injection Hsome as <-. by rewrite Hbody in Hempty.
    + injection Hsome as <-. by rewrite Hgate in Hmissing.
    + injection Hsome as <-. rewrite Hdoc in Hwrite. apply Hfailed.
      by apply Hnot_ok.
Qed.

(** On the demo site: the page that is processed in full. *)
Lemma ledger_appended_only_after_document_witness :
  read_file "/site/downloaded.log" Demo.world = None
  /\ read_file "/site/downloaded.log"
       (snd (process_url Demo.env Demo.PAGE_URL Demo.config Demo.world))
     = Some (Demo.PAGE_URL +:+ PyStr.NL)
  /\ fst (process_url Demo.env Demo.PAGE_URL Demo.config Demo.world) = Returns true
  /\ read_file "/site/content/blog/2024-01-15-hello-world.md"
       (snd (process_url Demo.env Demo.PAGE_URL Demo.config Demo.world))
     = Some (document_text
               (fst (document_plan Demo.env Demo.PAGE Demo.PAGE_URL Demo.config
                       (log_request Demo.PAGE_URL Demo.world)))).
Proof.
  split; [reflexivity|]. split; [reflexivity|].
  destruct (ledger_appended_only_after_document Demo.env Demo.PAGE_URL Demo.config
              Demo.world _ _ (surjective_pairing _)) as (_ & Hchanged & _).
  destruct Hchanged as (Htrue & response & doc & w_plan & w_doc & Hget & _ & Hplan & _ & _
                        & _ & _ & _ & Hfile); [by vm_compute|].
  split; [exact Htrue|].
  injection Hget as <-. change (resp_body _) with Demo.PAGE in Hplan.
  rewrite Hplan. simpl fst. rewrite <- Hfile. f_equal.
  apply (f_equal (fun p => doc_path (fst p))) in Hplan. simpl in Hplan. rewrite <- Hplan.
  by vm_compute.
Defined.

(** * Further properties of the code *)

(** ** The slug of any [str], and of one below 256 *)

Lemma code_below_256 c : (PyStr.code c < 256)%N.
Proof. apply N_ascii_bounded. Qed.

Lemma code_inj a b : PyStr.code a = PyStr.code b -> a = b.
Proof.
  unfold PyStr.code. intros H. apply (f_equal ascii_of_N) in H.
  by rewrite !ascii_N_embedding in H.
Qed.

Lemma code_eqb a b : (PyStr.code a =? PyStr.code b)%N = PyStr.chr_eqb a b.
Proof.
  unfold PyStr.chr_eqb. destruct (Ascii.eqb_spec a b) as [->|Hne].
  - apply N.eqb_refl.
  - apply N.eqb_neq. intros H. by apply Hne, code_inj.
Qed.

Lemma of_chars_inj l1 l2 : Unicode.of_chars l1 = Unicode.of_chars l2 -> l1 = l2.
Proof.
  revert l2. induction l1 as [|a l1 IH]; intros [|b l2]; try done.
  intros [= Hab Hrest]. f_equal; [by apply code_inj | by apply IH].
Qed.

Lemma latin1_of_chars name :
  Unicode.latin1 name = true -> name = Unicode.of_chars (ascii_of_N <$> name).
Proof.
  induction name as [|p name IH]; [done|]. cbn [Unicode.latin1 forallb].
  intros [Hp Hrest]%andb_true_iff. apply N.ltb_lt in Hp.
  unfold Unicode.of_chars in *. rewrite !fmap_cons. unfold PyStr.code at 1.
  rewrite N_ascii_embedding by done. f_equal. by apply IH.
Qed.

Section Latin1.

Context (U : Unicode.Tables) (Hagree : Unicode.agree_below_256 U).

Lemma hyphenate_of_chars l :
  Unicode.hyphenate (Unicode.of_chars l) = Unicode.of_chars (spaces_to_hyphens l).
Proof.
  unfold Unicode.hyphenate, Unicode.of_chars, spaces_to_hyphens.
  induction l as [|a l IH]; [done|]. cbn [map]. rewrite !fmap_cons, IH. f_equal.
  change Unicode.SPACE with (PyStr.code " "%char). rewrite code_eqb.
  by destruct (PyStr.chr_eqb a " ").
Qed.

Lemma keep_of_chars l :
  Unicode.keep U (Unicode.of_chars l) = Unicode.of_chars (keep_word_or_hyphen l).
Proof using Hagree.
  destruct Hagree as [Hword _].
  unfold Unicode.keep, Unicode.of_chars, keep_word_or_hyphen.
  induction l as [|a l IH]; [done|]. rewrite fmap_cons. cbn [List.filter].
  rewrite IH, Hword. change Unicode.HYPHEN with (PyStr.code HYPHEN). rewrite code_eqb.
  fold (is_hyphen a). by destruct (is_word a || is_hyphen a).
Qed.

Lemma squeeze_of_chars l :
  Unicode.squeeze (Unicode.of_chars l) = Unicode.of_chars (squeeze_hyphens l).
Proof.
  unfold Unicode.of_chars. induction l as [|a l IH]; [done|].
  destruct l as [|b l]; [done|].
  change (Unicode.squeeze (PyStr.code <$> a :: b :: l))
    with (if (PyStr.code a =? Unicode.HYPHEN)%N && (PyStr.code b =? Unicode.HYPHEN)%N
          then Unicode.squeeze (PyStr.code <$> b :: l)
          else PyStr.code a :: Unicode.squeeze (PyStr.code <$> b :: l)).
  change (squeeze_hyphens (a :: b :: l))
    with (if is_hyphen a && is_hyphen b then squeeze_hyphens (b :: l)
          else a :: squeeze_hyphens (b :: l)).
  change Unicode.HYPHEN with (PyStr.code HYPHEN). rewrite !code_eqb.
  fold (is_hyphen a) (is_hyphen b). rewrite IH.
  by destruct (is_hyphen a && is_hyphen b).
Qed.

Lemma lstrip_of_chars l :
  Unicode.lstrip (Unicode.of_chars l) = Unicode.of_chars (lstrip_hyphens l).
Proof.
  unfold Unicode.of_chars. induction l as [|a l IH]; [done|].
  rewrite fmap_cons. cbn [Unicode.lstrip lstrip_hyphens].
  change Unicode.HYPHEN with (PyStr.code HYPHEN). rewrite code_eqb. fold (is_hyphen a).
  by destruct (is_hyphen a).
Qed.

Lemma rstrip_of_chars l :
  Unicode.rstrip (Unicode.of_chars l) = Unicode.of_chars (rstrip_hyphens l).
Proof.
  unfold Unicode.of_chars. induction l as [|a l IH]; [done|].
  rewrite fmap_cons. cbn [Unicode.rstrip rstrip_hyphens]. rewrite IH.
  change Unicode.HYPHEN with (PyStr.code HYPHEN). rewrite code_eqb. fold (is_hyphen a).
  destruct (rstrip_hyphens l); [by destruct (is_hyphen a) | done].
Qed.

(** On code points below 256 the function is [sanitize_chars]. *)
Lemma sanitize_of_chars l :
  Unicode.sanitize_filename U (Unicode.of_chars l) = Unicode.of_chars (sanitize_chars l).
Proof using Hagree.
  unfold Unicode.sanitize_filename, sanitize_chars, strip_hyphens.
  rewrite hyphenate_of_chars, keep_of_chars, squeeze_of_chars.
  destruct Hagree as [_ Hlower]. rewrite Hlower.
  change (map lower_char) with (fmap (M := list) lower_char).
  rewrite lstrip_of_chars, rstrip_of_chars. unfold Unicode.of_chars. by rewrite fmap_take.
Qed.

End Latin1.

Lemma sample_agrees : Unicode.agree_below_256 Unicode.sample.
Proof.
  split.
  - intros c. simpl. pose proof (code_below_256 c) as Hc. apply N.ltb_lt in Hc.
    rewrite Hc. unfold PyStr.code. by rewrite ascii_N_embedding.
  - intros l. simpl. unfold Unicode.of_chars. induction l as [|a l IH]; [done|].
    rewrite !fmap_cons. cbn [flat_map]. rewrite IH.
    pose proof (code_below_256 a) as Ha. apply N.ltb_lt in Ha. rewrite Ha.
    unfold PyStr.code at 1. by rewrite ascii_N_embedding.
Qed.

(** Beyond 256 a slug can hold a character that is no word character,
    and then it is no fixed point: [sanitize_filename] of a title that
    begins with U+0130 begins with [i] and U+0307, and loses the latter
    when it is applied again. *)
Example sanitize_filename_beyond_latin1 :
  Unicode.sanitize_filename Unicode.sample (304%N :: Unicode.of_chars ["s"; "t"]%char)
  = [105%N; 775%N; 115%N; 116%N]
  /\ Unicode.word Unicode.sample 775 = false
  /\ Unicode.sanitize_filename Unicode.sample [105%N; 775%N; 115%N; 116%N]
     = [105%N; 115%N; 116%N].
Proof. repeat split; by vm_compute. Qed.

Lemma ends_with_hyphen_of_chars l :
  last (Unicode.of_chars l) <> Some Unicode.HYPHEN <-> ends_with_hyphen l = false.
Proof.
  unfold Unicode.of_chars, ends_with_hyphen. rewrite fmap_last.
  destruct (last l) as [a|]; simpl; [|done].
  change Unicode.HYPHEN with (PyStr.code HYPHEN). unfold is_hyphen.
  rewrite <- code_eqb. destruct (N.eqb_spec (PyStr.code a) (PyStr.code HYPHEN)) as [->|Hne].
  - split; [by intros H | done].
  - split; [done|]. intros _ [= H]. done.
Qed.

(** X1: for a name of code points below 256, the slug that
    [sanitize_filename] returns is safe as a file name: it is a string of
    such code points, every character of it is a lower-case word
    character or a hyphen, no two hyphens are side by side, it does not
    start with a hyphen, it is at most 100 characters long and it holds no
    path separator.  It is the slug that the 8-bit function of this
    development computes. *)
Theorem sanitize_filename_shape (U : Unicode.Tables) (name : list N) :
  Unicode.agree_below_256 U ->
  Unicode.latin1 name = true ->
  exists slug,
    Unicode.sanitize_filename U name = Unicode.of_chars slug
    /\ string_of_list_ascii slug
       = sanitize_filename (string_of_list_ascii (ascii_of_N <$> name))
    /\ slug_shaped slug
    /\ length (Unicode.sanitize_filename U name) <= 100
    /\ 47%N ∉ Unicode.sanitize_filename U name.
Proof.
  intros Hagree Hname.
  assert (Unicode.sanitize_filename U name
          = Unicode.of_chars (sanitize_chars (ascii_of_N <$> name))) as Hslug.
  { rewrite (latin1_of_chars name Hname) at 1. by apply sanitize_of_chars. }
  exists (sanitize_chars (ascii_of_N <$> name)). rewrite Hslug.
  pose proof (slug_shaped_sanitize_chars (ascii_of_N <$> name)) as Hshape.
  split; [done|]. split.
  { unfold sanitize_filename. by rewrite list_ascii_of_string_of_list_ascii. }
  split; [exact Hshape|]. split.
  { unfold Unicode.of_chars. rewrite length_fmap. apply sanitize_chars_length. }
  unfold Unicode.of_chars. intros (c & Hc & Hin)%list_elem_of_fmap.
  destruct Hshape as [Hchars _]. rewrite Forall_forall in Hchars.
  specialize (Hchars c Hin). change 47%N with (PyStr.code "/") in Hc.
  apply code_inj in Hc. subst c. done.
Qed.

Lemma sanitize_filename_shape_witness :
  exists slug,
    Unicode.sanitize_filename Unicode.sample
      (Unicode.of_chars (list_ascii_of_string "--Hello,  World/-- "))
    = Unicode.of_chars slug
    /\ string_of_list_ascii slug
       = sanitize_filename
           (string_of_list_ascii
              (ascii_of_N <$> Unicode.of_chars (list_ascii_of_string "--Hello,  World/-- ")))
    /\ slug_shaped slug
    /\ length (Unicode.sanitize_filename Unicode.sample
                 (Unicode.of_chars (list_ascii_of_string "--Hello,  World/-- "))) <= 100
    /\ 47%N ∉ Unicode.sanitize_filename Unicode.sample
                (Unicode.of_chars (list_ascii_of_string "--Hello,  World/-- ")).
Proof. apply sanitize_filename_shape; [apply sample_agrees | by vm_compute]. Defined.

(** X2: for a name of code points below 256, the slug is a fixed point
    of [sanitize_filename] exactly when it does not end in a hyphen, and
    the slug of the slug always is one: on such names the function is
    stable from its second application on. *)
Theorem sanitize_filename_stable_after_two (U : Unicode.Tables) (name : list N) :
  Unicode.agree_below_256 U ->
  Unicode.latin1 name = true ->
  (Unicode.sanitize_filename U (Unicode.sanitize_filename U name)
   = Unicode.sanitize_filename U name
   <-> last (Unicode.sanitize_filename U name) <> Some Unicode.HYPHEN)
  /\ Unicode.sanitize_filename U
       (Unicode.sanitize_filename U (Unicode.sanitize_filename U name))
     = Unicode.sanitize_filename U (Unicode.sanitize_filename U name).
Proof.
  intros Hagree Hname. rewrite (latin1_of_chars name Hname).
  rewrite !(sanitize_of_chars U Hagree). split.
  - rewrite ends_with_hyphen_of_chars, <- sanitize_chars_fixed_point_iff.
    split; [apply of_chars_inj | by intros ->].
  - f_equal. apply sanitize_chars_idempotent_short, sanitize_chars_length.
Qed.

Lemma sanitize_filename_stable_after_two_witness :
  (Unicode.sanitize_filename Unicode.sample
     (Unicode.sanitize_filename Unicode.sample
        (Unicode.of_chars (list_ascii_of_string Demo.LONG_TITLE)))
   = Unicode.sanitize_filename Unicode.sample
       (Unicode.of_chars (list_ascii_of_string Demo.LONG_TITLE))
   <-> last (Unicode.sanitize_filename Unicode.sample
               (Unicode.of_chars (list_ascii_of_string Demo.LONG_TITLE)))
       <> Some Unicode.HYPHEN)
  /\ Unicode.sanitize_filename Unicode.sample
       (Unicode.sanitize_filename Unicode.sample
          (Unicode.sanitize_filename Unicode.sample
             (Unicode.of_chars (list_ascii_of_string Demo.LONG_TITLE))))
     = Unicode.sanitize_filename Unicode.sample
         (Unicode.sanitize_filename Unicode.sample
            (Unicode.of_chars (list_ascii_of_string Demo.LONG_TITLE))).
Proof.
  apply sanitize_filename_stable_after_two; [apply sample_agrees | by vm_compute].
Defined.

(** X3: a name of at most 100 code points, all below 256, is not cut:
    its slug does not end in a hyphen and is a fixed point of
    [sanitize_filename]. *)
Theorem sanitize_filename_short_name (U : Unicode.Tables) (name : list N) :
  Unicode.agree_below_256 U ->
  Unicode.latin1 name = true ->
  length name <= 100 ->
  last (Unicode.sanitize_filename U name) <> Some Unicode.HYPHEN
  /\ Unicode.sanitize_filename U (Unicode.sanitize_filename U name)
     = Unicode.sanitize_filename U name.
Proof.
  intros Hagree Hname Hlen.
  assert (length (ascii_of_N <$> name) <= 100) as Hshort by (by rewrite length_fmap).
  rewrite (latin1_of_chars name Hname). rewrite !(sanitize_of_chars U Hagree).
  pose proof (sanitize_chars_idempotent_short _ Hshort) as Hfix.
  split; [|by rewrite Hfix].
  by rewrite ends_with_hyphen_of_chars, <- sanitize_chars_fixed_point_iff.
Qed.

Lemma sanitize_filename_short_name_witness :
  last (Unicode.sanitize_filename Unicode.sample
          (Unicode.of_chars (list_ascii_of_string "--Hello,  World-- ")))
  <> Some Unicode.HYPHEN
  /\ Unicode.sanitize_filename Unicode.sample
       (Unicode.sanitize_filename Unicode.sample
          (Unicode.of_chars (list_ascii_of_string "--Hello,  World-- ")))
     = Unicode.sanitize_filename Unicode.sample
         (Unicode.of_chars (list_ascii_of_string "--Hello,  World-- ")).
Proof.
  apply sanitize_filename_short_name; [apply sample_agrees | by vm_compute |].
  vm_compute. lia.
Defined.

(** ** The extracted record, entry by entry *)

Lemma dict_set_fresh {V} k (v : V) d :
  k ∉ PyDict.keys d -> PyDict.set k v d = d ++ [(k, v)].
Proof.
  unfold PyDict.keys. induction d as [|[k' v'] d IH]; simpl; [done|].
  intros [Hne Hrest]%not_elem_of_cons. rewrite decide_False by done.
  by rewrite IH.
Qed.

Lemma extract_loop_entries E html base (items : PyDict.dict FieldConfig) acc :
  NoDup (PyDict.keys acc ++ PyDict.keys items) ->
  fold_left (extract_step E html base) items acc
  = acc ++ omap (extracted_entry E html base) items.
Proof.
  revert acc. induction items as [|[name rule] items IH]; intros acc Hnodup; simpl.
  - by rewrite app_nil_r.
  - unfold PyDict.keys in Hnodup. simpl in Hnodup.
    assert (name ∉ PyDict.keys acc) as Hfresh.
    { apply NoDup_app in Hnodup as (_ & Hdisj & _). intros Hin.
      apply (Hdisj _ Hin), list_elem_of_here. }
    unfold extract_step at 2, extracted_entry at 1. simpl.
    destruct (fc_xpath rule) as [xpath|], (fc_attribute rule) as [attribute|];
      try (apply IH; unfold PyDict.keys;
           eapply NoDup_app in Hnodup as (Hacc & Hdisj & [_ Hitems]%NoDup_cons);
           apply NoDup_app; split; [done|]; split; [|done];
           intros k Hk Hin; apply (Hdisj k Hk); by apply list_elem_of_further).
    rewrite dict_set_fresh by done. rewrite IH.
    + by rewrite <- app_assoc.
    + unfold PyDict.keys. rewrite fmap_app. simpl. rewrite <- app_assoc. exact Hnodup.
Qed.

(** X4: for a configuration whose field names are distinct (a JSON
    object), the extracted record holds exactly one entry for every rule
    that has both [xpath] and [attribute], in the order of the
    configuration, bound to what [extract_field] returns for it (also
    when that is [None]); the other rules leave no entry. *)
Theorem extract_fields_entries (E : Env) (html_content base_url : string)
    (field_configs : PyDict.dict FieldConfig) :
  PyDict.wf field_configs = true ->
  extract_fields E html_content base_url field_configs
  = omap (extracted_entry E html_content base_url) field_configs.
Proof.
  intros Hwf%bool_decide_eq_true. unfold extract_fields.
  by rewrite extract_loop_entries.
Qed.

Lemma extract_fields_entries_witness :
  extract_fields Demo.env Demo.PAGE Demo.PAGE_URL (fields Demo.config_bare_date)
  = omap (extracted_entry Demo.env Demo.PAGE Demo.PAGE_URL) (fields Demo.config_bare_date).
Proof. apply extract_fields_entries. by vm_compute. Defined.

(** ** Where the document goes and what it holds *)

Lemma startswith_sep_append d t :
  PyStr.startswith "/" t = false ->
  PyStr.startswith "/" (d +:+ t) = PyStr.startswith "/" d.
Proof. intros Ht. by destruct d. Qed.

(** X6: the document of a page goes to
    [<project_root>/content/blog/<date>-<slug>.md] as long as the date
    does not start with a slash; a date that does makes
    [os.path.join] drop the project root, and the path of the document
    is [<date>-<slug>.md] as it stands. *)
Theorem md_save_path_cases (root date_prefix slug : string) :
  md_save_path root date_prefix slug
  = if PyStr.startswith "/" date_prefix
    then date_prefix +:+ "-" +:+ slug +:+ ".md"
    else with_sep root +:+ "content/blog/" +:+ date_prefix +:+ "-" +:+ slug +:+ ".md".
Proof.
  unfold md_save_path, OsPath.join. cbn [fold_left].
  rewrite (join2_relative root) by done. rewrite join2_after_name by done.
  pose proof (startswith_sep_append date_prefix ("-" +:+ slug +:+ ".md") eq_refl) as Hname.
  destruct (PyStr.startswith "/" date_prefix) eqn:Habs.
  - unfold OsPath.join2. by rewrite Hname.
  - rewrite <- append_assoc. rewrite join2_after_name by done.
    by rewrite !append_assoc.
Qed.

Lemma dict_get_set_same k v (d : PyDict.dict (option string)) :
  dict_get k (PyDict.set k v d) = v.
Proof. unfold dict_get. by rewrite dict_get_set_eq. Qed.

Lemma dict_get_set_other k k' v (d : PyDict.dict (option string)) :
  k <> k' -> dict_get k (PyDict.set k' v d) = dict_get k d.
Proof. intros Hne. unfold dict_get. by rewrite dict_get_set_ne. Qed.

Lemma truthy_Some v : truthy v = true -> exists s, v = Some s /\ PyStr.is_empty s = false.
Proof.
  destruct v as [s|]; [|done]. simpl. intros H%negb_true_iff. by exists s.
Qed.

(** [content] and [url] are left out of the front-matter; the other keys
    stay. *)
Lemma front_matter_get k (extracted_fields : PyDict.dict (option string)) :
  PyDict.get k (front_matter_of extracted_fields)
  = if bool_decide (k = "content") || bool_decide (k = "url") then None
    else PyDict.get k extracted_fields.
Proof.
  unfold front_matter_of.
  induction extracted_fields as [|[k' v] d IH]; simpl; [by destruct (_ || _)|].
  destruct (decide (k = k')) as [<-|Hne].
  - destruct (bool_decide (k = "content")) eqn:Hc; simpl; [exact IH|].
    destruct (bool_decide (k = "url")) eqn:Hu; simpl; [exact IH|].
    by rewrite decide_True.
  - destruct (negb _ && negb _); simpl; [by rewrite decide_False|done].
Qed.

(** X5: the front-matter is the record without [content] and [url]:
    these two keys are gone, every other key keeps its place and its
    value. *)
Theorem front_matter_of_spec (extracted_fields : PyDict.dict (option string)) :
  PyDict.keys (front_matter_of extracted_fields)
  = List.filter (fun k => negb (bool_decide (k = "content")) && negb (bool_decide (k = "url")))
      (PyDict.keys extracted_fields)
  /\ forall k,
       PyDict.get k (front_matter_of extracted_fields)
       = if bool_decide (k = "content") || bool_decide (k = "url") then None
         else PyDict.get k extracted_fields.
Proof.
  split; [|intros k; apply front_matter_get].
  unfold front_matter_of, PyDict.keys.
  induction extracted_fields as [|[k v] d IH]; [done|].
  rewrite fmap_cons. cbn [List.filter fst].
  destruct (negb (bool_decide (k = "content")) && negb (bool_decide (k = "url")));
    [rewrite fmap_cons|]; by rewrite IH.
Qed.

(** The record after lines 268-275: the title is as extracted, the date
    is the extracted one if that is truthy, the slug is made from the
    title. *)
Lemma with_date_title E extracted_fields w :
  dict_get "title" (fst (with_date E extracted_fields w)) = dict_get "title" extracted_fields.
Proof.
  unfold with_date. destruct (_ || _); simpl; [|done]. by rewrite dict_get_set_other.
Qed.

Lemma with_date_date E extracted_fields w :
  dict_get "date" (fst (with_date E extracted_fields w))
  = if truthy (dict_get "date" extracted_fields) then dict_get "date" extracted_fields
    else Some (ymd (datetime_now E (clock_reads w))).
Proof.
  unfold with_date.
  destruct (truthy (dict_get "date" extracted_fields)) eqn:Hdate.
  - assert (PyDict.mem "date" extracted_fields = true) as ->; [|done].
    unfold PyDict.mem. unfold dict_get in Hdate.
    by destruct (PyDict.get "date" extracted_fields).
  - rewrite orb_true_r. simpl. by rewrite dict_get_set_same.
Qed.

Lemma dict_get_Some k (d : PyDict.dict (option string)) v :
  dict_get k d = Some v -> PyDict.get k d = Some (Some v).
Proof. unfold dict_get. destruct (PyDict.get k d) as [[v'|]|]; by intros [= ->]. Qed.

(** A field with a value has its line in the document. *)
Lemma md_content_line front_matter body key value :
  PyDict.get key front_matter = Some (Some value) ->
  document_with_line (md_content front_matter body) key value body.
Proof.
  intros Hget. unfold document_with_line, md_content.
  assert (exists before after,
            fold_right String.append EmptyString (map front_matter_line front_matter)
            = before +:+ (key +:+ ": " +:+ String PyStr.DQUOTE (PyStr.escape_quotes value)
                            +:+ String PyStr.DQUOTE PyStr.NL) +:+ after)
    as (before & after & ->).
  { induction front_matter as [|[k v] d IH]; [done|]. simpl in Hget.
    destruct (decide (key = k)) as [<-|Hne].
    - injection Hget as ->. exists EmptyString. eexists. reflexivity.
    - destruct (IH Hget) as (before & after & Hrest).
      exists (front_matter_line (k, v) +:+ before), after.
      cbn [map fold_right]. rewrite Hrest. symmetry. apply append_assoc. }
  exists before, after. by rewrite !append_assoc.
Qed.

(** The parts of the document of a page with a title and a content. *)
Lemma document_plan_parts E html base_url config w title content :
  dict_get "title" (extract_fields E html base_url (fields config)) = Some title ->
  dict_get "content" (extract_fields E html base_url (fields config)) = Some content ->
  doc_path (fst (document_plan E html base_url config w))
  = md_save_path (project_root config)
      (page_date E (extract_fields E html base_url (fields config)) w)
      (sanitize_filename title)
  /\ doc_front_matter (fst (document_plan E html base_url config w))
     = front_matter_of
         (with_slug title
            (fst (with_date E (extract_fields E html base_url (fields config)) w)))
  /\ doc_body (fst (document_plan E html base_url config w))
     = markdownify E
         (fst (download_content_images E content (image_save_dir (project_root config))
                 base_url
                 (snd (with_date E (extract_fields E html base_url (fields config)) w))))
  /\ dict_get "date"
       (with_slug title
          (fst (with_date E (extract_fields E html base_url (fields config)) w)))
     = Some (page_date E (extract_fields E html base_url (fields config)) w).
Proof.
  intros Htitle Hcontent. unfold document_plan.
  set (extracted := extract_fields E html base_url (fields config)) in *.
  pose proof (with_date_title E extracted w) as Hkeep.
  pose proof (with_date_date E extracted w) as Hdate.
  assert (dict_get "content" (fst (with_date E extracted w)) = Some content) as Hc.
  { unfold with_date. destruct (_ || _); simpl; [|done].
    by rewrite dict_get_set_other. }
  destruct (with_date E extracted w) as [dated w1]; simpl in Hkeep, Hdate, Hc |- *.
  rewrite Hkeep, Htitle. change (default EmptyString (Some title)) with title.
  assert (dict_get "date" (with_slug title dated) = Some (page_date E extracted w)) as Hd.
  { unfold with_slug, page_date. rewrite dict_get_set_other by done. rewrite Hdate.
    destruct (truthy (dict_get "date" extracted)) eqn:Ht; [|done].
    by apply truthy_Some in Ht as (date & -> & _). }
  rewrite Hd. change (default EmptyString (Some ?d)) with d.
  assert (dict_get "content" (with_slug title dated) = Some content) as ->
    by (unfold with_slug; by rewrite dict_get_set_other).
  change (default EmptyString (Some content)) with content.
  by destruct (download_content_images E content _ base_url w1).
Qed.

(** X7: when [process_url] returns [True] for a URL, the page of that
    URL was fetched and a non-empty title and content were extracted from
    it; the document is on disk at the path made of the date of the page
    (the extracted one, or the day of the run) and the slug of that
    title; its text ends in the content of the page, its images made
    local, as [markdownify] renders it, and its front-matter has the lines
    of that title, that date and that slug, and no field [content] or
    [url]. *)
Theorem process_url_document (E : Env) (url : string) (config : Config) (w w' : World) :
  process_url E url config w = (Returns true, w') ->
  exists response title content doc,
    requests_get E url = Some response
    /\ dict_get "title" (extract_fields E (resp_body response) url (fields config))
       = Some title
    /\ PyStr.is_empty title = false
    /\ dict_get "content" (extract_fields E (resp_body response) url (fields config))
       = Some content
    /\ PyStr.is_empty content = false
    /\ doc = fst (document_plan E (resp_body response) url config (log_request url w))
    /\ doc_path doc
       = md_save_path (project_root config)
           (page_date E (extract_fields E (resp_body response) url (fields config)) w)
           (sanitize_filename title)
    /\ doc_body doc
       = markdownify E
           (fst (download_content_images E content (image_save_dir (project_root config))
                   url
                   (snd (with_date E
                           (extract_fields E (resp_body response) url (fields config))
                           (log_request url w)))))
    /\ read_file (doc_path doc) w' = Some (document_text doc)
    /\ document_with_line (document_text doc) "title" title (doc_body doc)
    /\ document_with_line (document_text doc) "date"
         (page_date E (extract_fields E (resp_body response) url (fields config)) w)
         (doc_body doc)
    /\ document_with_line (document_text doc) "slug" (sanitize_filename title)
         (doc_body doc)
    /\ PyDict.get "content" (doc_front_matter doc) = None
    /\ PyDict.get "url" (doc_front_matter doc) = None.
Proof.
  rewrite process_url_plan.
  destruct (requests_get E url) as [response|]; [|done].
  destruct (PyStr.is_empty (resp_body response)); [done|].
  rewrite process_fetched_plan.
  destruct (required_fields_present E (resp_body response) url config) eqn:Hgate; [|done].
  apply andb_true_iff in Hgate as [Htitle Hcontent].
  apply truthy_Some in Htitle as (title & Htitle & Hne).
  apply truthy_Some in Hcontent as (content & Hcontent & Hnec).
  destruct (document_plan_parts E (resp_body response) url config (log_request url w)
              title content Htitle Hcontent) as (Hpath & Hfm & Hbody & Hdate).
  destruct (document_plan_ledger E (resp_body response) url config (log_request url w))
    as [_ Hnot_ledger].
  set (doc := fst (document_plan E (resp_body response) url config (log_request url w)))
    in *.
  destruct (create_markdown_file E (doc_path doc) (doc_front_matter doc) (doc_body doc) _)
    as [md_result w_doc] eqn:Hmd.
  apply create_markdown_file_spec in Hmd as [_ Hwritten].
  destruct md_result as [[]|e]; [|done..]. intros [= <-].
  destruct (Hwritten eq_refl) as [_ Hfile].
  assert (forall key value,
            key <> "content" -> key <> "url" ->
            dict_get key
              (with_slug title
                 (fst (with_date E
                         (extract_fields E (resp_body response) url (fields config))
                         (log_request url w)))) = Some value ->
            document_with_line (document_text doc) key value (doc_body doc)) as Hline.
  { intros key value Hc Hu Hget. apply md_content_line.
    rewrite Hfm, front_matter_get, !bool_decide_eq_false_2 by done.
    by apply dict_get_Some. }
  exists response, title, content, doc.
  split; [reflexivity|]. split; [exact Htitle|]. split; [exact Hne|].
  split; [exact Hcontent|]. split; [exact Hnec|]. split; [reflexivity|].
  split; [exact Hpath|]. split; [exact Hbody|].
  split.
  { unfold read_file, mark_as_downloaded. rewrite after_append_other; [exact Hfile|].
    by intros Heq. }
  split.
  { apply Hline; [done..|]. unfold with_slug. rewrite dict_get_set_other by done.
    by rewrite with_date_title. }
  split; [by apply Hline|]. split.
  { apply Hline; [done..|]. unfold with_slug. by rewrite dict_get_set_same. }
  by rewrite Hfm, !front_matter_get.
Qed.

Lemma process_url_document_witness :
  exists response title content doc,
    requests_get Demo.env Demo.PAGE_URL = Some response
    /\ dict_get "title"
         (extract_fields Demo.env (resp_body response) Demo.PAGE_URL
            (fields Demo.config_dated))
       = Some title
    /\ PyStr.is_empty title = false
    /\ dict_get "content"
         (extract_fields Demo.env (resp_body response) Demo.PAGE_URL
            (fields Demo.config_dated))
       = Some content
    /\ PyStr.is_empty content = false
    /\ doc = fst (document_plan Demo.env (resp_body response) Demo.PAGE_URL
                    Demo.config_dated (log_request Demo.PAGE_URL Demo.world))
    /\ doc_path doc
       = md_save_path (project_root Demo.config_dated)
           (page_date Demo.env
              (extract_fields Demo.env (resp_body response) Demo.PAGE_URL
                 (fields Demo.config_dated)) Demo.world)
           (sanitize_filename title)
    /\ doc_body doc
       = markdownify Demo.env
           (fst (download_content_images Demo.env content
                   (image_save_dir (project_root Demo.config_dated)) Demo.PAGE_URL
                   (snd (with_date Demo.env
                           (extract_fields Demo.env (resp_body response) Demo.PAGE_URL
                              (fields Demo.config_dated))
                           (log_request Demo.PAGE_URL Demo.world)))))
    /\ read_file (doc_path doc)
         (snd (process_url Demo.env Demo.PAGE_URL Demo.config_dated Demo.world))
       = Some (document_text doc)
    /\ document_with_line (document_text doc) "title" title (doc_body doc)
    /\ document_with_line (document_text doc) "date"
         (page_date Demo.env
            (extract_fields Demo.env (resp_body response) Demo.PAGE_URL
               (fields Demo.config_dated)) Demo.world)
         (doc_body doc)
    /\ document_with_line (document_text doc) "slug" (sanitize_filename title)
         (doc_body doc)
    /\ PyDict.get "content" (doc_front_matter doc) = None
    /\ PyDict.get "url" (doc_front_matter doc) = None.
Proof.
  apply (process_url_document Demo.env Demo.PAGE_URL Demo.config_dated Demo.world).
  by vm_compute.
Defined.

(** ** Lines of a text *)

Lemma split_lines_aux_head cur s :
  PyStr.split_lines_aux cur s
  = cur (hd EmptyString (PyStr.split_lines s)) :: tl (PyStr.split_lines s).
Proof.
  unfold PyStr.split_lines. revert cur. induction s as [|a s IH]; intros cur; [done|].
  cbn [PyStr.split_lines_aux]. fold (is_break a). destruct (is_break a); [done|].
  rewrite (IH (fun r => cur (String a r))), (IH (fun r => String a r)). done.
Qed.

Lemma split_lines_cons a s :
  PyStr.split_lines (String a s)
  = if is_break a then EmptyString :: PyStr.split_lines s
    else String a (hd EmptyString (PyStr.split_lines s)) :: tl (PyStr.split_lines s).
Proof.
  unfold PyStr.split_lines at 1. cbn [PyStr.split_lines_aux]. fold (is_break a).
  destruct (is_break a); [done|]. by rewrite split_lines_aux_head.
Qed.

Lemma split_lines_not_nil s : PyStr.split_lines s <> [].
Proof. destruct s as [|a s]; [done|]. rewrite split_lines_cons. by destruct (is_break a). Qed.

Lemma has_break_cons a s :
  one_line (String a s) = negb (is_break a) && one_line s.
Proof.
  unfold one_line, is_break, PyText.LF, PyText.CR. cbn [PyStr.has_char].
  destruct (PyStr.chr_eqb a (ascii_of_nat 10)), (PyStr.chr_eqb a (ascii_of_nat 13)); simpl;
    try done.
  - by destruct (PyStr.has_char _ s).
Qed.

Lemma split_lines_one_line s : one_line s = true -> PyStr.split_lines s = [s].
Proof.
  induction s as [|a s IH]; [done|]. rewrite has_break_cons, split_lines_cons.
  intros [Ha%negb_true_iff Hs]%andb_true_iff. by rewrite Ha, IH.
Qed.

(** A line break ends a line, whatever comes before and after. *)
Lemma split_lines_at_break s c t :
  is_break c = true ->
  PyStr.split_lines (s +:+ String c t) = PyStr.split_lines s ++ PyStr.split_lines t.
Proof.
  intros Hc. induction s as [|a s IH].
  - change (EmptyString +:+ String c t) with (String c t).
    by rewrite split_lines_cons, Hc.
  - rewrite append_cons, !split_lines_cons, IH. destruct (is_break a); [done|].
    pose proof (split_lines_not_nil s). by destruct (PyStr.split_lines s).
Qed.

Lemma ends_lines_cases text :
  ends_lines text = true ->
  text = EmptyString
  \/ exists s c, text = s +:+ String c EmptyString /\ is_break c = true.
Proof.
  unfold ends_lines. induction text as [|a text IH]; [by left|]. intros H. right.
  destruct text as [|b text].
  - by exists EmptyString, a.
  - destruct IH as [|(s & c & -> & Hc)]; [exact H | done |].
    by exists (String a s), c.
Qed.

Lemma stripped_lines_app l1 l2 :
  List.filter (fun l => negb (PyStr.is_empty l)) (map PyStr.strip (l1 ++ l2))
  = List.filter (fun l => negb (PyStr.is_empty l)) (map PyStr.strip l1)
    ++ List.filter (fun l => negb (PyStr.is_empty l)) (map PyStr.strip l2).
Proof. by rewrite map_app, List.filter_app. Qed.

(** The ledger after one more line. *)
Lemma stripped_lines_append_line old url :
  ends_lines old = true -> listed_url url ->
  stripped_lines (old +:+ url +:+ PyStr.NL) = stripped_lines old ++ [url].
Proof.
  intros Hold (Hne & Hstrip & Hline).
  assert (stripped_lines (url +:+ PyStr.NL) = [url]) as Hlast.
  { unfold stripped_lines, PyStr.NL. rewrite split_lines_at_break by done.
    rewrite split_lines_one_line by done. simpl. by rewrite Hstrip, Hne. }
  destruct (ends_lines_cases old Hold) as [->|(s & c & -> & Hc)].
  - exact Hlast.
  - unfold stripped_lines in *. rewrite append_assoc. rewrite append_cons.
    change (EmptyString +:+ url +:+ PyStr.NL) with (url +:+ PyStr.NL).
    rewrite !split_lines_at_break by done. rewrite !stripped_lines_app, Hlast.
    simpl. by rewrite app_nil_r.
Qed.

Lemma ends_lines_append_line old url : ends_lines (old +:+ url +:+ PyStr.NL) = true.
Proof.
  unfold ends_lines. rewrite <- append_assoc. by rewrite last_char_append.
Qed.

(** [strip] gives a piece of the string, and stripping again changes
    nothing. *)
Lemma lstrip_head s : starts_with_space (PyStr.lstrip s) = false.
Proof.
  induction s as [|a s IH]; [done|]. simpl. by destruct (PyStr.isspace a) eqn:Ha; simpl.
Qed.

Lemma lstrip_id s : starts_with_space s = false -> PyStr.lstrip s = s.
Proof. destruct s as [|a s]; [done|]. simpl. by intros ->. Qed.

Lemma rstrip_head s :
  starts_with_space s = false -> starts_with_space (PyStr.rstrip s) = false.
Proof.
  destruct s as [|a s]; [done|]. simpl. intros Ha.
  destruct (PyStr.rstrip s); [by rewrite Ha | done].
Qed.

Lemma rstrip_idem s : PyStr.rstrip (PyStr.rstrip s) = PyStr.rstrip s.
Proof.
  induction s as [|a s IH]; [done|]. cbn [PyStr.rstrip].
  destruct (PyStr.rstrip s) as [|b r] eqn:Hr.
  - destruct (PyStr.isspace a) eqn:Ha; [done|]. simpl. by rewrite Ha.
  - cbn [PyStr.rstrip]. cbn [PyStr.rstrip] in IH. by rewrite IH.
Qed.

Lemma strip_idem s : PyStr.strip (PyStr.strip s) = PyStr.strip s.
Proof.
  unfold PyStr.strip. rewrite (lstrip_id (PyStr.rstrip _)).
  - apply rstrip_idem.
  - apply rstrip_head, lstrip_head.
Qed.

Lemma one_line_lstrip s : one_line s = true -> one_line (PyStr.lstrip s) = true.
Proof.
  induction s as [|a s IH]; [done|]. intros H. simpl.
  destruct (PyStr.isspace a); [|done].
  rewrite has_break_cons in H. apply andb_true_iff in H as [_ H]. by apply IH.
Qed.

Lemma one_line_rstrip s : one_line s = true -> one_line (PyStr.rstrip s) = true.
Proof.
  induction s as [|a s IH]; [done|]. rewrite has_break_cons.
  intros [Ha Hs]%andb_true_iff. cbn [PyStr.rstrip]. specialize (IH Hs).
  destruct (PyStr.rstrip s) as [|b r].
  - destruct (PyStr.isspace a); [done|]. by rewrite has_break_cons, Ha.
  - by rewrite has_break_cons, Ha, IH.
Qed.

Lemma split_lines_Forall s : Forall (fun l => one_line l = true) (PyStr.split_lines s).
Proof.
  induction s as [|a s IH]; [by repeat constructor|]. rewrite split_lines_cons.
  destruct (is_break a) eqn:Ha; [by constructor|].
  destruct (PyStr.split_lines s) as [|l ls]; simpl.
  - constructor; [|done]. by rewrite has_break_cons, Ha.
  - apply Forall_cons in IH as [Hl Hls]. constructor; [|done].
    by rewrite has_break_cons, Ha, Hl.
Qed.

Lemma stripped_lines_listed text : Forall listed_url (stripped_lines text).
Proof.
  unfold stripped_lines. pose proof (split_lines_Forall text) as Hlines.
  induction Hlines as [|l ls Hl _ IH]; [constructor|]. simpl.
  destruct (PyStr.is_empty (PyStr.strip l)) eqn:Hne; simpl; [exact IH|].
  constructor; [|exact IH]. split; [done|]. split; [apply strip_idem|].
  by apply one_line_rstrip, one_line_lstrip.
Qed.

(** X9: every URL that [read_url_list] returns is a non-empty string
    without white space around it and without a line break in it: blank
    lines are dropped, the others are stripped. *)
Theorem read_url_list_listed (root : string) (w : World) (urls : list string) :
  read_url_list root w = Some urls -> Forall listed_url urls.
Proof.
  unfold read_url_list. destruct (read_file _ w) as [text|]; [|done].
  intros [= <-]. apply stripped_lines_listed.
Qed.

Lemma read_url_list_listed_witness :
  Forall listed_url [Demo.PAGE_URL; Demo.NEXT_URL].
Proof. apply (read_url_list_listed Demo.ROOT Demo.world). reflexivity. Defined.

(** ** The ledger as a set of URLs *)

Lemma append_empty_r s : s +:+ EmptyString = s.
Proof. induction s as [|a s IH]; [done|]. by rewrite append_cons, IH. Qed.

Lemma get_downloaded_urls_text root w :
  get_downloaded_urls root w = list_to_set (stripped_lines (ledger_text root w)).
Proof.
  unfold get_downloaded_urls, ledger_text. by destruct (read_file _ w).
Qed.

Lemma mark_as_downloaded_ok E root url w :
  os_append E (downloaded_log_path root) (url +:+ PyStr.NL) = WriteOk ->
  ledger_text root (mark_as_downloaded E root url w)
  = ledger_text root w +:+ url +:+ PyStr.NL.
Proof.
  intros Hok. unfold mark_as_downloaded, ledger_text, read_file. rewrite Hok. simpl.
  by rewrite lookup_insert_eq.
Qed.

Lemma ledger_after_line root url w w' :
  ledger_text root w' = ledger_text root w +:+ url +:+ PyStr.NL ->
  ends_lines (ledger_text root w) = true -> listed_url url ->
  get_downloaded_urls root w' = get_downloaded_urls root w ∪ {[url]}
  /\ ends_lines (ledger_text root w') = true.
Proof.
  intros Htext Hold Hurl. rewrite !get_downloaded_urls_text, Htext. split.
  - rewrite stripped_lines_append_line by done.
    rewrite list_to_set_app_L. simpl. by rewrite union_empty_r_L.
  - apply ends_lines_append_line.
Qed.

(** X8: what [mark_as_downloaded] appends, [get_downloaded_urls] reads
    back: when the append succeeds, the ledger is empty, absent or ends in
    a line break, and the URL is one that [read_url_list] can return, the
    set of downloaded URLs is the former one with this URL, and the ledger
    again ends in a line break. *)
Theorem mark_as_downloaded_round_trip (E : Env) (root url : string) (w : World) :
  os_append E (downloaded_log_path root) (url +:+ PyStr.NL) = WriteOk ->
  ends_lines (ledger_text root w) = true ->
  listed_url url ->
  get_downloaded_urls root (mark_as_downloaded E root url w)
  = get_downloaded_urls root w ∪ {[url]}
  /\ ends_lines (ledger_text root (mark_as_downloaded E root url w)) = true.
Proof.
  intros Hok Hold Hurl. apply ledger_after_line; [|done|done].
  by apply mark_as_downloaded_ok.
Qed.

Lemma mark_as_downloaded_round_trip_witness :
  get_downloaded_urls Demo.ROOT
    (mark_as_downloaded Demo.env Demo.ROOT Demo.NEXT_URL
       (put_file "/site/downloaded.log" (Demo.PAGE_URL +:+ PyStr.NL) Demo.world))
  = get_downloaded_urls Demo.ROOT
      (put_file "/site/downloaded.log" (Demo.PAGE_URL +:+ PyStr.NL) Demo.world)
    ∪ {[Demo.NEXT_URL]}
  /\ ends_lines
       (ledger_text Demo.ROOT
          (mark_as_downloaded Demo.env Demo.ROOT Demo.NEXT_URL
             (put_file "/site/downloaded.log" (Demo.PAGE_URL +:+ PyStr.NL) Demo.world)))
     = true.
Proof.
  apply mark_as_downloaded_round_trip; [reflexivity | by vm_compute |].
  repeat split; by vm_compute.
Defined.

(** ** The ledger over a run *)

Lemma mark_as_downloaded_text E root url w :
  exists added,
    ledger_text root (mark_as_downloaded E root url w) = ledger_text root w +:+ added.
Proof.
  unfold mark_as_downloaded, ledger_text, read_file.
  destruct (os_append E _ _) as [|[partial|]]; simpl.
  - eexists. by rewrite lookup_insert_eq.
  - eexists. by rewrite lookup_insert_eq.
  - exists EmptyString. by rewrite append_empty_r.
Qed.

(** What [process_url] does to the ledger, by its result. *)
Lemma process_url_ledger E url config w r w' :
  process_url E url config w = (r, w') ->
  (r <> Returns true ->
   ledger_text (project_root config) w' = ledger_text (project_root config) w)
  /\ (r = Returns true ->
      exists w_doc,
        ledger_text (project_root config) w_doc = ledger_text (project_root config) w
        /\ w' = mark_as_downloaded E (project_root config) url w_doc).
Proof.
  unfold process_url. rewrite fetch_page_content_spec.
  destruct (requests_get E url) as [response|]; simpl; [|by intros [= <- <-]].
  destruct (PyStr.is_empty (resp_body response)); [by intros [= <- <-]|].
  intros [Hfail Hok]%process_fetched_ledger. split.
  - intros Hr. unfold ledger_text, read_file. by rewrite (Hfail Hr).
  - intros Hr. destruct (Hok Hr) as (w_doc & save_path & text & _ & _ & Hsame & ->).
    exists w_doc. split; [|done]. unfold ledger_text, read_file. by rewrite Hsame.
Qed.

Lemma process_url_ledger_text E url config w :
  exists added,
    ledger_text (project_root config) (snd (process_url E url config w))
    = ledger_text (project_root config) w +:+ added.
Proof.
  destruct (process_url E url config w) as [r w'] eqn:Hrun.
  apply process_url_ledger in Hrun as [Hfail Hok]. simpl.
  destruct r as [[]|e].
  - destruct (Hok eq_refl) as (w_doc & Hsame & ->).
    destruct (mark_as_downloaded_text E (project_root config) url w_doc) as [added Ha].
    exists added. by rewrite Ha, Hsame.
  - exists EmptyString. by rewrite append_empty_r, Hfail.
  - exists EmptyString. by rewrite append_empty_r, Hfail.
Qed.

(** X10: the ledger is append-only: whatever the loop of [main] does,
    however it ends, the text of the ledger afterwards is the text before
    with something (or nothing) added at its end. *)
Theorem ledger_is_append_only (E : Env) (config : Config) (downloaded_urls : gset string)
    (urls : list string) (w : World) :
  exists added,
    ledger_text (project_root config)
      (snd (process_urls E config downloaded_urls urls w))
    = ledger_text (project_root config) w +:+ added.
Proof.
  revert w. induction urls as [|url rest IH]; intros w; simpl.
  - exists EmptyString. by rewrite append_empty_r.
  - destruct (bool_decide (url ∈ downloaded_urls)); [apply IH|].
    destruct (process_url_ledger_text E url config w) as [added1 H1].
    destruct (process_url E url config w) as [[r|e] w1]; simpl in H1.
    + destruct (IH w1) as [added2 H2]. exists (added1 +:+ added2).
      by rewrite H2, H1, append_assoc.
    + by exists added1.
Qed.

(** X11: a URL of the list that [process_url] has processed is in the
    ledger afterwards, so that the next run skips it, provided the append
    succeeds and the ledger was empty, absent or ended in a line break;
    the other URLs of the ledger stay, and the ledger again ends in a line
    break. *)
Theorem processed_url_reaches_ledger (E : Env) (url : string) (config : Config)
    (w w' : World) :
  process_url E url config w = (Returns true, w') ->
  os_append E (downloaded_log_path (project_root config)) (url +:+ PyStr.NL) = WriteOk ->
  ends_lines (ledger_text (project_root config) w) = true ->
  listed_url url ->
  get_downloaded_urls (project_root config) w'
  = get_downloaded_urls (project_root config) w ∪ {[url]}
  /\ ends_lines (ledger_text (project_root config) w') = true.
Proof.
  intros [_ Hok]%process_url_ledger Happend Hold Hurl.
  destruct (Hok eq_refl) as (w_doc & Hsame & ->).
  apply ledger_after_line; [|done|done].
  by rewrite mark_as_downloaded_ok, Hsame.
Qed.

Lemma processed_url_reaches_ledger_witness :
  get_downloaded_urls Demo.ROOT
    (snd (process_url Demo.env Demo.PAGE_URL Demo.config Demo.world))
  = get_downloaded_urls Demo.ROOT Demo.world ∪ {[Demo.PAGE_URL]}
  /\ ends_lines
       (ledger_text Demo.ROOT
          (snd (process_url Demo.env Demo.PAGE_URL Demo.config Demo.world)))
     = true.
Proof.
  apply (processed_url_reaches_ledger Demo.env Demo.PAGE_URL Demo.config Demo.world);
    [by vm_compute | reflexivity | by vm_compute |].
  repeat split; by vm_compute.
Defined.


(** ** What a run leaves in place *)

Lemma extends_refl w : extends w w.
Proof.
  split; [done|]. split; [done|]. split; [|done]. exists []. by rewrite app_nil_r.
Qed.

Lemma extends_trans w1 w2 w3 : extends w1 w2 -> extends w2 w3 -> extends w1 w3.
Proof.
  intros (Hd1 & Hf1 & [m1 Hl1] & Hc1) (Hd2 & Hf2 & [m2 Hl2] & Hc2).
  split; [set_solver|]. split; [auto|]. split; [|lia].
  exists (m1 ++ m2). by rewrite Hl2, Hl1, app_assoc.
Qed.

Lemma extends_log_request url w : extends w (log_request url w).
Proof. split; [done|]. split; [done|]. split; [|done]. by exists [url]. Qed.

Lemma extends_tick w : extends w (tick w).
Proof.
  split; [done|]. split; [done|]. split; [|simpl; lia]. exists []. simpl.
  by rewrite app_nil_r.
Qed.

Lemma extends_add_dir d w : extends w (add_dir d w).
Proof.
  split; [simpl; set_solver|]. split; [done|]. split; [|done]. exists []. simpl.
  by rewrite app_nil_r.
Qed.

Lemma extends_put_file path data w : extends w (put_file path data w).
Proof.
  split; [done|]. split; [|split; [|done]].
  - intros k Hk. simpl. destruct (decide (path = k)) as [->|Hne].
    + by rewrite lookup_insert_eq.
    + by rewrite lookup_insert_ne.
  - exists []. simpl. by rewrite app_nil_r.
Qed.

Lemma extends_os_makedirs E d w w' : os_makedirs E d w = Some w' -> extends w w'.
Proof.
  unfold os_makedirs. destruct (bool_decide (d ∈ dirs w)).
  - intros [= <-]. apply extends_refl.
  - destruct (bool_decide (is_Some (files w !! d))); [done|].
    destruct (os_mkdir E d); [|done]. intros [= <-]. apply extends_add_dir.
Qed.

Lemma extends_after_write o path data w : extends w (after_write o path data w).
Proof.
  destruct o as [|[partial|]]; simpl;
    [apply extends_put_file | apply extends_put_file | apply extends_refl].
Qed.

Lemma extends_after_append o path data w : extends w (after_append o path data w).
Proof.
  destruct o as [|[partial|]]; simpl;
    [apply extends_put_file | apply extends_put_file | apply extends_refl].
Qed.

Lemma extends_local_image_name E image_url w :
  extends w (snd (local_image_name E image_url w)).
Proof.
  unfold local_image_name. destruct (_ || _); simpl;
    [apply extends_tick | apply extends_refl].
Qed.

Lemma extends_download_image E image_url save_dir base_url w :
  extends w (snd (download_image E image_url save_dir base_url w)).
Proof.
  unfold download_image. destruct (PyStr.is_empty image_url); [apply extends_refl|].
  destruct (os_makedirs E save_dir w) as [w1|] eqn:Hmk; [|apply extends_refl].
  apply extends_os_makedirs in Hmk.
  destruct (resolve_image_url E base_url image_url) as [resolved|]; [|done].
  pose proof (extends_local_image_name E resolved w1) as Hname.
  destruct (local_image_name E resolved w1) as [image_name w2]; simpl in Hname.
  assert (extends w w2) as Hw2 by (by eapply extends_trans).
  destruct (os_path_exists _ w2); [done|].
  assert (extends w (log_request resolved w2)) as Hw3
    by (eapply extends_trans; [exact Hw2 | apply extends_log_request]).
  destruct (requests_get E resolved) as [response|]; simpl; [|done].
  eapply extends_trans; [exact Hw3 | apply extends_after_write].
Qed.

Lemma extends_localize_images E srcs save_dir base_url w :
  extends w (snd (localize_images E srcs save_dir base_url w)).
Proof.
  revert w. induction srcs as [|img_url rest IH]; intros w; [apply extends_refl|].
  simpl. destruct (truthy img_url).
  - pose proof (extends_download_image E (default EmptyString img_url) save_dir base_url w)
      as Hone.
    destruct (download_image E _ save_dir base_url w) as [img_name w1]; simpl in Hone.
    specialize (IH w1). destruct (localize_images E rest save_dir base_url w1); simpl in *.
    by eapply extends_trans.
  - specialize (IH w). by destruct (localize_images E rest save_dir base_url w).
Qed.

Lemma extends_download_content_images E content_html save_dir base_url w :
  extends w (snd (download_content_images E content_html save_dir base_url w)).
Proof.
  unfold download_content_images.
  destruct (PyStr.is_empty content_html); [apply extends_refl|].
  pose proof (extends_localize_images E (bs4_img_srcs E content_html) save_dir base_url w).
  by destruct (localize_images E _ save_dir base_url w).
Qed.

Lemma extends_with_date E extracted_fields w :
  extends w (snd (with_date E extracted_fields w)).
Proof.
  unfold with_date. destruct (_ || _); simpl; [apply extends_tick | apply extends_refl].
Qed.

Lemma extends_create_markdown_file E save_path front_matter content w :
  extends w (snd (create_markdown_file E save_path front_matter content w)).
Proof.
  unfold create_markdown_file.
  destruct (os_makedirs E _ w) as [w1|] eqn:Hmk; [|apply extends_refl].
  apply extends_os_makedirs in Hmk. simpl.
  eapply extends_trans; [exact Hmk | apply extends_after_write].
Qed.

Lemma extends_process_fetched E url html base_url config w :
  extends w (snd (process_fetched E url html base_url config w)).
Proof.
  unfold process_fetched. destruct (_ || _); [apply extends_refl|].
  pose proof (extends_with_date E (extract_fields E html base_url (fields config)) w)
    as Hdate.
  destruct (with_date E _ w) as [extracted w1]; simpl in Hdate. cbv zeta.
  match goal with
  | |- context [download_content_images E ?c ?d ?b w1] =>
      pose proof (extends_download_content_images E c d b w1) as Himg;
      destruct (download_content_images E c d b w1) as [localized w2]
  end.
  simpl in Himg.
  match goal with
  | |- context [create_markdown_file E ?p ?fm ?c w2] =>
      pose proof (extends_create_markdown_file E p fm c w2) as Hmd;
      destruct (create_markdown_file E p fm c w2) as [md_result w3]
  end.
  simpl in Hmd.
  assert (extends w w3) as Hw3 by (eapply extends_trans; [|exact Hmd];
                                    by eapply extends_trans).
  destruct md_result as [[]|e]; simpl; [|done|done].
  eapply extends_trans; [exact Hw3 | apply extends_after_append].
Qed.

(** [process_url] asks for the page first. *)
Lemma process_url_extends E url config w :
  extends (log_request url w) (snd (process_url E url config w)).
Proof.
  unfold process_url. rewrite fetch_page_content_spec.
  destruct (requests_get E url) as [response|]; simpl; [|apply extends_refl].
  destruct (PyStr.is_empty (resp_body response)); [apply extends_refl|].
  apply extends_process_fetched.
Qed.

Lemma process_urls_extends E config downloaded_urls urls w :
  extends w (snd (process_urls E config downloaded_urls urls w)).
Proof.
  revert w. induction urls as [|url rest IH]; intros w; simpl; [apply extends_refl|].
  destruct (bool_decide (url ∈ downloaded_urls)); [apply IH|].
  pose proof (process_url_extends E url config w) as Hone.
  assert (extends w (snd (process_url E url config w))) as Hw1
    by (eapply extends_trans; [apply extends_log_request | exact Hone]).
  destruct (process_url E url config w) as [[r|e] w1]; simpl in *; [|done].
  eapply extends_trans; [exact Hw1 | apply IH].
Qed.

(** ** The loop of [main] *)

(** X12: the loop of [main] treats a URL that is in the set of
    downloaded URLs as if it were not in the list: nothing is requested
    and nothing is changed for it. *)
Theorem process_urls_skips_downloaded (E : Env) (config : Config)
    (downloaded_urls : gset string) (urls : list string) (w : World) :
  process_urls E config downloaded_urls urls w
  = process_urls E config downloaded_urls
      (List.filter (fun url => negb (bool_decide (url ∈ downloaded_urls))) urls) w.
Proof.
  revert w. induction urls as [|url rest IH]; intros w; [done|].
  cbn [process_urls List.filter].
  destruct (bool_decide (url ∈ downloaded_urls)) eqn:Hin; simpl; [apply IH|].
  rewrite Hin. destruct (process_url E url config w) as [[r|e] w1]; [apply IH | done].
Qed.

Lemma elem_of_log_extends url w w' :
  url ∈ requests_log w -> extends w w' -> url ∈ requests_log w'.
Proof.
  intros Hin (_ & _ & [more ->] & _). apply elem_of_app. by left.
Qed.

Lemma process_urls_requested E config downloaded_urls urls w w' :
  process_urls E config downloaded_urls urls w = (Returns tt, w') ->
  Forall (fun url => url ∈ downloaded_urls \/ url ∈ requests_log w') urls.
Proof.
  revert w. induction urls as [|url rest IH]; intros w; [constructor|].
  cbn [process_urls]. destruct (bool_decide (url ∈ downloaded_urls)) eqn:Hin.
  - intros Hrest. constructor; [|by eapply IH].
    left. by apply bool_decide_eq_true in Hin.
  - pose proof (process_url_extends E url config w) as Hone.
    destruct (process_url E url config w) as [[r|e] w1]; [|done]. simpl in Hone.
    intros Hrest. constructor; [|by eapply IH]. right.
    pose proof (process_urls_extends E config downloaded_urls rest w1) as Hloop.
    rewrite Hrest in Hloop. simpl in Hloop.
    eapply elem_of_log_extends; [|exact Hloop].
    eapply elem_of_log_extends; [|exact Hone].
    simpl. apply elem_of_app. right. apply list_elem_of_here.
Qed.

Lemma process_urls_raises E config downloaded_urls urls w e w' :
  process_urls E config downloaded_urls urls w = (Raises e, w') ->
  exists url w0, process_url E url config w0 = (Raises e, w').
Proof.
  revert w. induction urls as [|url rest IH]; intros w; [done|].
  cbn [process_urls]. destruct (bool_decide (url ∈ downloaded_urls)); [apply IH|].
  destruct (process_url E url config w) as [[r|e0] w1] eqn:Hone; [apply IH|].
  intros Hraise. assert (w1 = w') as <- by congruence.
  exists url, w. rewrite Hone. by destruct e, e0.
Qed.

(** The three calls of [os.makedirs] at the start of [main]. *)
Lemma main_unfold E config w :
  main E config w
  = match os_makedirs E (project_root config) w with
    | None => (SysExit 1, w)
    | Some w1 =>
        match os_makedirs E (OsPath.join (project_root config) ["content"; "blog"]) w1 with
        | None => (SysExit 1, w1)
        | Some w2 =>
            match os_makedirs E (OsPath.join (project_root config) ["static"; "images"]) w2
            with
            | None => (SysExit 1, w2)
            | Some w3 =>
                match read_url_list (project_root config) w3 with
                | None => (SysExit 1, w3)
                | Some urls =>
                    if bool_decide (urls = []) then (Finished, w3)
                    else
                      match process_urls E config
                              (get_downloaded_urls (project_root config) w3) urls w3 with
                      | (Returns _, w4) => (Finished, w4)
                      | (Raises _, w4) => (SysExit 1, w4)
                      end
                end
            end
        end
    end.
Proof. reflexivity. Qed.

(** X13: when [main] finishes, the three directories of the project
    exist, the list of URLs was readable, and every URL of the list that
    the ledger did not hold at the start was requested. *)
Theorem main_finished (E : Env) (config : Config) (w w' : World) :
  main E config w = (Finished, w') ->
  project_root config ∈ dirs w'
  /\ OsPath.join (project_root config) ["content"; "blog"] ∈ dirs w'
  /\ OsPath.join (project_root config) ["static"; "images"] ∈ dirs w'
  /\ exists urls,
       read_url_list (project_root config) w = Some urls
       /\ Forall (fun url => url ∈ get_downloaded_urls (project_root config) w
                             \/ url ∈ requests_log w') urls.
Proof.
  rewrite main_unfold.
  destruct (os_makedirs E (project_root config) w) as [w1|] eqn:H1; [|done].
  destruct (os_makedirs E _ w1) as [w2|] eqn:H2; [|done].
  destruct (os_makedirs E _ w2) as [w3|] eqn:H3; [|done].
  pose proof (extends_os_makedirs _ _ _ _ H2) as E2.
  pose proof (extends_os_makedirs _ _ _ _ H3) as E3.
  apply os_makedirs_Some in H1 as (D1 & F1 & _).
  apply os_makedirs_Some in H2 as (D2 & F2 & _).
  apply os_makedirs_Some in H3 as (D3 & F3 & _).
  assert (read_url_list (project_root config) w3 = read_url_list (project_root config) w)
    as Hlist by (unfold read_url_list, read_file; by rewrite F3, F2, F1).
  assert (get_downloaded_urls (project_root config) w3
          = get_downloaded_urls (project_root config) w)
    as Hledger by (unfold get_downloaded_urls, read_file; by rewrite F3, F2, F1).
  rewrite Hlist, Hledger.
  destruct (read_url_list (project_root config) w) as [urls|]; [|done].
  assert (extends w3 w' ->
          project_root config ∈ dirs w'
          /\ OsPath.join (project_root config) ["content"; "blog"] ∈ dirs w'
          /\ OsPath.join (project_root config) ["static"; "images"] ∈ dirs w') as Hdirs.
  { intros (Hd & _). destruct E2 as (Hd2 & _), E3 as (Hd3 & _).
    rewrite elem_of_subseteq in Hd, Hd2, Hd3. auto 6. }
  case_bool_decide as Hempty.
  - intros [= <-]. destruct (Hdirs (extends_refl w3)) as (? & ? & ?).
    repeat (split; [done|]). exists urls. split; [done|]. subst urls. constructor.
  - pose proof (process_urls_extends E config
                  (get_downloaded_urls (project_root config) w) urls w3) as Hloop.
    destruct (process_urls E config _ urls w3) as [[[]|e] w4] eqn:Hrun; [|done].
    intros [= <-]. simpl in Hloop. destruct (Hdirs Hloop) as (? & ? & ?).
    repeat (split; [done|]). exists urls. split; [done|].
    by eapply process_urls_requested.
Qed.

Lemma main_finished_witness :
  Demo.ROOT ∈ dirs (snd (main Demo.env Demo.config Demo.world))
  /\ OsPath.join Demo.ROOT ["content"; "blog"]
     ∈ dirs (snd (main Demo.env Demo.config Demo.world))
  /\ OsPath.join Demo.ROOT ["static"; "images"]
     ∈ dirs (snd (main Demo.env Demo.config Demo.world))
  /\ exists urls,
       read_url_list Demo.ROOT Demo.world = Some urls
       /\ Forall (fun url => url ∈ get_downloaded_urls Demo.ROOT Demo.world
                             \/ url ∈ requests_log
                                      (snd (main Demo.env Demo.config Demo.world))) urls.
Proof.
  apply (main_finished Demo.env Demo.config Demo.world). by vm_compute.
Defined.

(** X14: a run of [main] removes nothing: every directory and every file
    that was there before is there afterwards, and the requests made and
    the readings of the clock only add to the earlier ones. *)
Theorem main_keeps_everything (E : Env) (config : Config) (w : World) :
  extends w (snd (main E config w)).
Proof.
  rewrite main_unfold.
  destruct (os_makedirs E (project_root config) w) as [w1|] eqn:H1; [|apply extends_refl].
  apply extends_os_makedirs in H1.
  destruct (os_makedirs E _ w1) as [w2|] eqn:H2; [|done].
  apply extends_os_makedirs in H2.
  destruct (os_makedirs E _ w2) as [w3|] eqn:H3; [|by eapply extends_trans].
  apply extends_os_makedirs in H3.
  assert (extends w w3) as Hw3 by (eapply extends_trans; [|exact H3];
                                    by eapply extends_trans).
  destruct (read_url_list (project_root config) w3) as [urls|]; [|done].
  case_bool_decide; [done|].
  pose proof (process_urls_extends E config
                (get_downloaded_urls (project_root config) w3) urls w3) as Hloop.
  destruct (process_urls E config _ urls w3) as [[r|e] w4]; simpl in *;
    by eapply extends_trans.
Qed.





(** ** Which files a run writes *)

Lemma startswith_refl_append p s : PyStr.startswith p (p +:+ s) = true.
Proof.
  induction p as [|a p IH]; [done|]. rewrite append_cons. cbn [PyStr.startswith].
  unfold PyStr.chr_eqb. by rewrite Ascii.eqb_refl, IH.
Qed.

Lemma startswith_append_common p s t :
  PyStr.startswith (p +:+ s) (p +:+ t) = PyStr.startswith s t.
Proof.
  induction p as [|a p IH]; [done|]. rewrite !append_cons. cbn [PyStr.startswith].
  unfold PyStr.chr_eqb. by rewrite Ascii.eqb_refl, IH.
Qed.

Lemma endswith_refl suffix : PyText.endswith suffix suffix = true.
Proof. destruct suffix; cbn [PyText.endswith]; by rewrite String.eqb_refl. Qed.

Lemma endswith_append suffix s t :
  PyText.endswith suffix t = true -> PyText.endswith suffix (s +:+ t) = true.
Proof.
  intros Ht. induction s as [|a s IH]; [done|]. rewrite append_cons.
  cbn [PyText.endswith]. by rewrite IH, orb_true_r.
Qed.

Lemma endswith_last_char suffix s :
  PyStr.is_empty suffix = false -> PyText.endswith suffix s = true ->
  PyStr.last_char s = PyStr.last_char suffix.
Proof.
  intros Hne. induction s as [|a s IH].
  - by destruct suffix.
  - cbn [PyText.endswith]. intros [H%String.eqb_eq|H]%orb_true_iff; [by subst|].
    rewrite <- (IH H). destruct s as [|b s]; [|done]. by destruct suffix.
Qed.

(** A file outside [save_dir] is not one that [download_image] writes. *)
Lemma outside_save_dir save_dir path :
  PyStr.startswith (with_sep save_dir) path = false ->
  forall name, PyStr.startswith "/" name = false -> OsPath.join save_dir [name] <> path.
Proof.
  intros Hout name Hname <-. simpl in Hout.
  by rewrite join2_relative, startswith_refl_append in Hout.
Qed.

(** X16: the images of a page are saved inside the directory given to
    [download_content_images] and nowhere else: a file whose path does not
    continue that directory is as it was. *)
Theorem images_stay_in_save_dir (E : Env) (content_html save_dir base_url : string)
    (w : World) (path : string) :
  PyStr.startswith (with_sep save_dir) path = false ->
  read_file path (snd (download_content_images E content_html save_dir base_url w))
  = read_file path w.
Proof.
  intros Hout. apply download_content_images_frame. by apply outside_save_dir.
Qed.

Lemma images_stay_in_save_dir_witness :
  read_file "/site/content/blog/p.png"
    (snd (download_content_images Demo.env Demo.GALLERY Demo.IMAGES Demo.PAGE_URL Demo.world))
  = read_file "/site/content/blog/p.png" Demo.world.
Proof. apply images_stay_in_save_dir. reflexivity. Defined.

Lemma md_save_path_endswith root date_prefix slug :
  PyText.endswith ".md" (md_save_path root date_prefix slug) = true.
Proof.
  unfold md_save_path, OsPath.join. cbn [fold_left].
  set (name := date_prefix +:+ "-" +:+ slug +:+ ".md").
  assert (PyText.endswith ".md" name = true) as Hname.
  { unfold name. rewrite <- !append_assoc. apply endswith_append, endswith_refl. }
  unfold OsPath.join2 at 1. destruct (PyStr.startswith "/" name); [done|].
  destruct (_ || _); repeat apply endswith_append; done.
Qed.

Section Writes.

Context (E : Env) (config : Config) (path : string).
Hypothesis Himages :
  PyStr.startswith (with_sep (image_save_dir (project_root config))) path = false.
Hypothesis Hdocument : PyText.endswith ".md" path = false.
Hypothesis Hledger : path <> downloaded_log_path (project_root config).

Lemma process_fetched_frame url html base_url w :
  files (snd (process_fetched E url html base_url config w)) !! path = files w !! path.
Proof using Himages Hdocument Hledger.
  unfold process_fetched. destruct (_ || _); [done|].
  pose proof (with_date_files E (extract_fields E html base_url (fields config)) w) as Hdate.
  destruct (with_date E _ w) as [extracted w1]; simpl in Hdate. cbv zeta.
  match goal with
  | |- context [download_content_images E ?c ?d ?b w1] =>
      pose proof (download_content_images_frame E c d b w1 path
                    (outside_save_dir _ _ Himages)) as Himg;
      destruct (download_content_images E c d b w1) as [localized w2]
  end.
  simpl in Himg.
  match goal with
  | |- context [create_markdown_file E ?p ?fm ?c w2] =>
      destruct (create_markdown_file E p fm c w2) as [md_result w3] eqn:Hmd;
      apply create_markdown_file_spec in Hmd as [Hother _];
      assert (p <> path) as Hne
        by (intros <-; by rewrite md_save_path_endswith in Hdocument);
      specialize (Hother _ Hne)
  end.
  destruct md_result as [[]|e]; simpl; [|by rewrite Hother, Himg, Hdate..].
  unfold mark_as_downloaded. rewrite after_append_other by done.
  by rewrite Hother, Himg, Hdate.
Qed.

Lemma process_url_frame url w :
  files (snd (process_url E url config w)) !! path = files w !! path.
Proof using Himages Hdocument Hledger.
  unfold process_url. rewrite fetch_page_content_spec.
  destruct (requests_get E url) as [response|]; simpl; [|done].
  destruct (PyStr.is_empty (resp_body response)); [done|].
  by rewrite process_fetched_frame.
Qed.

Lemma process_urls_frame downloaded_urls urls w :
  files (snd (process_urls E config downloaded_urls urls w)) !! path = files w !! path.
Proof using Himages Hdocument Hledger.
  revert w. induction urls as [|url rest IH]; intros w; [done|]. simpl.
  destruct (bool_decide (url ∈ downloaded_urls)); [apply IH|].
  pose proof (process_url_frame url w) as Hone.
  destruct (process_url E url config w) as [[r|e] w1]; simpl in Hone; [|done].
  by rewrite IH.
Qed.

End Writes.

(** The files after [main]: those at the start, or what the loop made of
    them. *)
Lemma main_files E config w :
  files (snd (main E config w)) = files w
  \/ exists downloaded_urls urls w3,
       files w3 = files w
       /\ snd (main E config w) = snd (process_urls E config downloaded_urls urls w3).
Proof.
  rewrite main_unfold.
  destruct (os_makedirs E (project_root config) w) as [w1|] eqn:H1; [|by left].
  apply os_makedirs_Some in H1 as (_ & F1 & _).
  destruct (os_makedirs E _ w1) as [w2|] eqn:H2; [|by left].
  apply os_makedirs_Some in H2 as (_ & F2 & _).
  destruct (os_makedirs E _ w2) as [w3|] eqn:H3; [|left; simpl; congruence].
  apply os_makedirs_Some in H3 as (_ & F3 & _).
  assert (files w3 = files w) as F by congruence.
  destruct (read_url_list (project_root config) w3) as [urls|]; [|by left].
  case_bool_decide; [by left|]. right.
  exists (get_downloaded_urls (project_root config) w3), urls, w3. split; [done|].
  by destruct (process_urls E config _ urls w3) as [[r|e] w4].
Qed.

(** X17: a run of [main] writes documents (paths that end in [.md]),
    images under [static/images] of the project and the ledger, and no
    other file: any other path holds afterwards what it held before. *)
Theorem main_writes_only (E : Env) (config : Config) (w : World) (path : string) :
  PyStr.startswith (with_sep (image_save_dir (project_root config))) path = false ->
  PyText.endswith ".md" path = false ->
  path <> downloaded_log_path (project_root config) ->
  read_file path (snd (main E config w)) = read_file path w.
Proof.
  intros Himages Hdocument Hledger. unfold read_file.
  destruct (main_files E config w) as [->|(d & urls & w3 & <- & ->)]; [done|].
  by apply process_urls_frame.
Qed.

Lemma main_writes_only_witness :
  read_file "/site/config.json" (snd (main Demo.env Demo.config Demo.world))
  = read_file "/site/config.json" Demo.world.
Proof. by apply main_writes_only. Defined.

(** X18: [main] never changes the list of URLs it reads: [urllist.txt]
    holds after the run what it held before, whatever the pages, their
    titles and dates and their images are. *)
Theorem main_keeps_url_list (E : Env) (config : Config) (w : World) :
  read_file (OsPath.join (project_root config) ["urllist.txt"]) (snd (main E config w))
  = read_file (OsPath.join (project_root config) ["urllist.txt"]) w.
Proof.
  unfold read_file.
  destruct (main_files E config w) as [->|(d & urls & w3 & <- & ->)]; [done|].
  assert (OsPath.join (project_root config) ["urllist.txt"]
          = with_sep (project_root config) +:+ "urllist.txt") as ->
    by (simpl; by rewrite join2_relative).
  apply process_urls_frame.
  - rewrite image_save_dir_eq. unfold with_sep at 1.
    rewrite is_empty_append, endswith_char_append by done. simpl.
    rewrite !append_assoc. by rewrite startswith_append_common.
  - destruct (PyText.endswith ".md" _) eqn:Hmd; [|done].
    apply endswith_last_char in Hmd; [|done].
    by rewrite last_char_append in Hmd.
  - rewrite downloaded_log_path_eq. by intros H%append_inv_head.
Qed.


(** ** The images of a page, one by one *)

Lemma download_image_one_request E image_url save_dir base_url w :
  length (requests_log (snd (download_image E image_url save_dir base_url w)))
  <= S (length (requests_log w)).
Proof.
  unfold download_image. destruct (PyStr.is_empty image_url); [simpl; lia|].
  destruct (os_makedirs E save_dir w) as [w0|] eqn:Hmk; [|simpl; lia].
  apply os_makedirs_Some in Hmk as (_ & _ & Hlog & _).
  destruct (resolve_image_url E base_url image_url) as [resolved|];
    [|simpl; rewrite Hlog; lia].
  destruct (local_image_name_frame E resolved w0) as (_ & _ & Hl).
  destruct (local_image_name E resolved w0) as [image_name w2]; simpl in Hl.
  destruct (os_path_exists _ w2); [simpl; rewrite Hl, Hlog; lia|].
  assert (length (requests_log (log_request resolved w2)) = S (length (requests_log w)))
    as Hone by (simpl; rewrite length_app, Hl, Hlog; simpl; lia).
  destruct (requests_get E resolved) as [response|]; [|simpl snd; lia].
  destruct (os_write E _ _) as [|[partial|]]; simpl in *; lia.
Qed.

(** X19: [download_content_images] gives every [img] of the fragment one
    new [src] or leaves it alone, in the order of the document: an [img]
    without a [src] or whose download failed is left alone, the others get
    [/static/images/] followed by a non-empty file name, whatever the
    directory is that the files are saved in; and at most one request is
    made for each [img]. *)
Theorem localize_images_aligned (E : Env) (srcs : list (option string))
    (save_dir base_url : string) (w : World) :
  Forall2 (fun src new_src =>
             new_src = None
             \/ (truthy src = true
                 /\ exists name, PyStr.is_empty name = false
                                 /\ new_src = Some ("/static/images/" +:+ name)))
    srcs (fst (localize_images E srcs save_dir base_url w))
  /\ length (requests_log (snd (localize_images E srcs save_dir base_url w)))
     <= length (requests_log w) + length srcs.
Proof.
  revert w. induction srcs as [|src rest IH]; intros w.
  - split; [constructor | simpl; lia].
  - cbn [localize_images]. destruct (truthy src) eqn:Hsrc.
    + pose proof (download_image_one_request E (default EmptyString src) save_dir base_url w)
        as Hone.
      destruct (download_image E _ save_dir base_url w) as [img_name w1]; simpl in Hone.
      destruct (IH w1) as [Hrest Hlog].
      destruct (localize_images E rest save_dir base_url w1) as [new_srcs w2].
      simpl in *. split; [|lia]. constructor; [|done].
      destruct (truthy img_name) eqn:Hname; [|by left]. right. split; [done|].
      apply truthy_Some in Hname as (name & -> & Hne). by exists name.
    + destruct (IH w) as [Hrest Hlog].
      destruct (localize_images E rest save_dir base_url w) as [new_srcs w2].
      simpl in *. split; [|lia]. constructor; [by left | done].
Qed.


(** ** [replacestr.py]: the walk *)

Section Walk.

Context (E : Env) (source_str target_str : string).

Lemma visit_dir_paths dry_run st entry :
  ReplaceStr.visit_dir E source_str target_str dry_run st entry
  = fold_left (fun st path => ReplaceStr.visit_file E source_str target_str dry_run path st)
      (map (fun filename => OsPath.join (fst entry) [filename])
         (List.filter ReplaceStr.is_markdown (snd entry)))
      st.
Proof.
  unfold ReplaceStr.visit_dir. revert st.
  induction (snd entry) as [|filename rest IH]; intros st; [done|].
  cbn [fold_left List.filter]. destruct (ReplaceStr.is_markdown filename); apply IH.
Qed.

Lemma walk_paths dry_run walk st :
  fold_left (ReplaceStr.visit_dir E source_str target_str dry_run) walk st
  = fold_left (fun st path => ReplaceStr.visit_file E source_str target_str dry_run path st)
      (md_paths walk) st.
Proof.
  unfold md_paths. revert st. induction walk as [|entry rest IH]; intros st; [done|].
  cbn [fold_left flat_map]. by rewrite fold_left_app, IH, visit_dir_paths.
Qed.

(** A dry run reads and lists. *)
Lemma visit_file_dry path modified_files count w :
  ReplaceStr.visit_file E source_str target_str true path (modified_files, count, w)
  = (modified_files ++ (if holds source_str w path then [path] else []), count, w).
Proof.
  unfold ReplaceStr.visit_file, holds.
  destruct (ReplaceStr.read_text path w) as [content|]; [|by rewrite app_nil_r].
  destruct (PyText.contains source_str content); [done | by rewrite app_nil_r].
Qed.

Lemma dry_run_paths paths modified_files count w :
  fold_left (fun st path => ReplaceStr.visit_file E source_str target_str true path st)
    paths (modified_files, count, w)
  = (modified_files ++ List.filter (holds source_str w) paths, count, w).
Proof.
  revert modified_files. induction paths as [|path rest IH]; intros modified_files.
  - by rewrite app_nil_r.
  - cbn [fold_left List.filter]. rewrite visit_file_dry, IH, <- app_assoc.
    by destruct (holds source_str w path).
Qed.

Lemma replace_in_file_frame file_path w path :
  file_path <> path ->
  files (snd (ReplaceStr.replace_in_file E file_path source_str target_str w)) !! path
  = files w !! path.
Proof.
  intros Hne. unfold ReplaceStr.replace_in_file.
  destruct (ReplaceStr.read_text file_path w) as [content|]; [|done].
  destruct (negb _); [done|]. simpl. by apply after_write_other.
Qed.

Lemma holds_ext w w' path :
  files w' !! path = files w !! path -> holds source_str w' path = holds source_str w path.
Proof. unfold holds, ReplaceStr.read_text, read_file. by intros ->. Qed.

(** One file of a run that replaces. *)
Lemma visit_file_real path modified_files count w :
  exists count' w',
    ReplaceStr.visit_file E source_str target_str false path (modified_files, count, w)
    = (modified_files ++ (if holds source_str w path then [path] else []), count', w')
    /\ count <= count'
    /\ count' <= count + (if holds source_str w path then 1 else 0)
    /\ (forall k, (holds source_str w path = true -> path <> k) ->
                  files w' !! k = files w !! k).
Proof.
  unfold ReplaceStr.visit_file, holds.
  destruct (ReplaceStr.read_text path w) as [content|] eqn:Hread;
    [|exists count, w; rewrite app_nil_r; repeat split; lia || done].
  destruct (PyText.contains source_str content) eqn:Hin;
    [|exists count, w; rewrite app_nil_r; repeat split; lia || done].
  pose proof (replace_in_file_frame path w) as Hframe.
  destruct (ReplaceStr.replace_in_file E path source_str target_str w) as [replaced w1].
  simpl in Hframe. eexists _, w1. split; [done|].
  split; [destruct replaced; lia|]. split; [destruct replaced; lia|].
  intros k Hk. apply Hframe. by apply Hk.
Qed.

Lemma real_run_paths paths modified_files count w :
  exists new count' w',
    fold_left (fun st path => ReplaceStr.visit_file E source_str target_str false path st)
      paths (modified_files, count, w)
    = (modified_files ++ new, count', w')
    /\ count' <= count + length new
    /\ (forall k, k ∉ new -> files w' !! k = files w !! k)
    /\ (NoDup paths -> new = List.filter (holds source_str w) paths).
Proof.
  revert modified_files count w.
  induction paths as [|path rest IH]; intros modified_files count w.
  - exists [], count, w. rewrite app_nil_r. split; [done|]. split; [simpl; lia|].
    by split.
  - cbn [fold_left].
    destruct (visit_file_real path modified_files count w)
      as (count1 & w1 & -> & Hge & Hle & Hframe).
    destruct (IH (modified_files ++ (if holds source_str w path then [path] else []))
                count1 w1) as (new & count' & w' & -> & Hcount & Hrest & Hnodup).
    exists ((if holds source_str w path then [path] else []) ++ new), count', w'.
    rewrite app_assoc. split; [done|]. split; [|split].
    + rewrite length_app. destruct (holds source_str w path); simpl in *; lia.
    + intros k Hk. apply not_elem_of_app in Hk as [Hk1 Hk2].
      rewrite Hrest by done. apply Hframe. intros Hholds ->.
      rewrite Hholds in Hk1. apply Hk1, list_elem_of_here.
    + intros [Hfresh Hnd]%NoDup_cons. rewrite (Hnodup Hnd). cbn [List.filter].
      assert (List.filter (holds source_str w1) rest = List.filter (holds source_str w) rest)
        as ->.
      { apply List.filter_ext_in. intros k Hk%list_elem_of_In. apply holds_ext, Hframe.
        intros _ ->. done. }
      by destruct (holds source_str w path).
Qed.

End Walk.

(** ** [replacestr.py]: what is listed and what is changed *)

(** X20: a dry run of [find_and_replace] changes nothing and counts
    nothing; it lists, in the order of the walk, exactly the files named
    [*.md] (in any case of the letters) that can be read and have the
    source string in them. *)
Theorem dry_run_lists_and_keeps (E : Env) (os_walk : string -> list (string * list string))
    (root_dir source_str target_str : string) (w : World) :
  ReplaceStr.find_and_replace E os_walk root_dir source_str target_str true w
  = ((List.filter (holds source_str w) (md_paths (os_walk root_dir)), 0), w).
Proof.
  unfold ReplaceStr.find_and_replace. by rewrite walk_paths, dry_run_paths.
Qed.

(** X21: [find_and_replace] reports every file it changes: a path that
    is not in the list it returns holds afterwards what it held before;
    and the count it returns is at most the length of that list. *)
Theorem find_and_replace_reports_changes (E : Env)
    (os_walk : string -> list (string * list string))
    (root_dir source_str target_str : string) (dry_run : bool) (w : World) :
  snd (fst (ReplaceStr.find_and_replace E os_walk root_dir source_str target_str dry_run w))
  <= length (fst (fst (ReplaceStr.find_and_replace E os_walk root_dir source_str
                         target_str dry_run w)))
  /\ forall path,
       path ∉ fst (fst (ReplaceStr.find_and_replace E os_walk root_dir source_str
                          target_str dry_run w)) ->
       read_file path
         (snd (ReplaceStr.find_and_replace E os_walk root_dir source_str target_str
                 dry_run w))
       = read_file path w.
Proof.
  unfold ReplaceStr.find_and_replace. rewrite walk_paths. destruct dry_run.
  - rewrite dry_run_paths. simpl. split; [lia | done].
  -
    destruct (real_run_paths E source_str target_str (md_paths (os_walk root_dir)) [] 0 w)
      as (new & count & w' & -> & Hcount & Hframe & _).
    simpl. split; [lia|]. intros path Hpath. by apply Hframe.
Qed.

(** X22: the dry run foretells the run that replaces: when no path is
    visited twice, the files that [find_and_replace] lists while it
    replaces are the files its dry run lists on the same tree, in the same
    order. *)
Theorem dry_run_foretells (E : Env) (os_walk : string -> list (string * list string))
    (root_dir source_str target_str : string) (w : World) :
  NoDup (md_paths (os_walk root_dir)) ->
  fst (fst (ReplaceStr.find_and_replace E os_walk root_dir source_str target_str false w))
  = fst (fst (ReplaceStr.find_and_replace E os_walk root_dir source_str target_str true w)).
Proof.
  intros Hnodup. unfold ReplaceStr.find_and_replace. rewrite !walk_paths, dry_run_paths.
  destruct (real_run_paths E source_str target_str (md_paths (os_walk root_dir)) [] 0 w)
    as (new & count & w' & -> & _ & _ & Hnew).
  simpl. by rewrite Hnew.
Qed.

Lemma dry_run_foretells_witness :
  fst (fst (ReplaceStr.find_and_replace Demo.env Notes.os_walk "/notes"
              "http://old.example" "https://new.example" false Notes.world))
  = fst (fst (ReplaceStr.find_and_replace Demo.env Notes.os_walk "/notes"
                "http://old.example" "https://new.example" true Notes.world)).
Proof.
  apply dry_run_foretells. apply (bool_decide_unpack _). by vm_compute.
Defined.

(** X23: [main] of [replacestr.py] replaces nothing unless it is forced
    or the answer is [y] or [yes] (in any case of the letters): without
    either, the files, and all else, are as they were. *)
Theorem main_needs_confirmation (E : Env) (os_walk : string -> list (string * list string))
    (args : ReplaceStr.Args) (answer : option string) (w : World) :
  ReplaceStr.force args = false ->
  says_yes answer = false ->
  ReplaceStr.main E os_walk args answer w = (None, w).
Proof.
  intros Hforce Hanswer. unfold ReplaceStr.main.
  destruct (negb (bool_decide (ReplaceStr.root args ∈ dirs w))); [done|].
  unfold ReplaceStr.find_and_replace at 1. rewrite walk_paths, dry_run_paths.
  cbv zeta. cbn [app]. destruct (bool_decide (_ = [])); [done|].
  unfold says_yes in Hanswer. by rewrite Hforce, Hanswer.
Qed.

Lemma main_needs_confirmation_witness :
  ReplaceStr.main Demo.env Notes.os_walk (Notes.args false) (Some "No") Notes.world
  = (None, Notes.world).
Proof. apply main_needs_confirmation; by vm_compute. Defined.


(** ** Replacing a string by itself *)

Lemma startswith_split old s :
  PyStr.startswith old s = true -> s = old +:+ drop_chars (String.length old) s.
Proof.
  revert s. induction old as [|a old IH]; intros s; [by destruct s|].
  destruct s as [|b s]; [done|]. cbn [PyStr.startswith]. unfold PyStr.chr_eqb.
  intros [Hab%Ascii.eqb_eq Hrest]%andb_true_iff. subst b.
  rewrite append_cons. cbn [String.length drop_chars]. by rewrite <- (IH s Hrest).
Qed.

Lemma drop_chars_0 s : drop_chars 0 s = s.
Proof. by destruct s. Qed.

Lemma replace_from_same old skip s :
  PyStr.is_empty old = false -> PyText.replace_from old old skip s = drop_chars skip s.
Proof.
  intros Hne. revert skip. induction s as [|a s IH]; intros skip; [by destruct skip|].
  cbn [PyText.replace_from]. destruct skip as [|skip]; [|apply IH].
  destruct (PyStr.startswith old (String a s)) eqn:Hstart.
  - rewrite IH, drop_chars_0.
    etrans; [|symmetry; exact (startswith_split _ _ Hstart)].
    destruct old as [|b old]; [done|]. cbn [String.length drop_chars].
    by replace (S (String.length old) - 1) with (String.length old) by lia.
  - by rewrite IH, drop_chars_0.
Qed.

Lemma insert_between_empty s : PyText.insert_between EmptyString s = s.
Proof. induction s as [|a s IH]; [done|]. simpl. by rewrite IH. Qed.

Lemma replace_same old s : PyText.replace old old s = s.
Proof.
  unfold PyText.replace. destruct (PyStr.is_empty old) eqn:Hne.
  - destruct old; [apply insert_between_empty | done].
  - by rewrite replace_from_same, drop_chars_0.
Qed.

(** X24: replacing a string by itself is not a no-op on the disk: a file
    that has the string is written again, with the text as [read]
    returned it, that is with every line ending turned into a line feed;
    nothing else in it changes. *)
Theorem replace_in_file_same (E : Env) (file_path source_str content : string) (w : World) :
  read_file file_path w = Some content ->
  PyText.contains source_str (PyText.universal_newlines content) = true ->
  ReplaceStr.replace_in_file E file_path source_str source_str w
  = (write_ok (os_write E file_path (PyText.universal_newlines content)),
     after_write (os_write E file_path (PyText.universal_newlines content))
       file_path (PyText.universal_newlines content) w).
Proof.
  intros Hread Hin. unfold ReplaceStr.replace_in_file, ReplaceStr.read_text.
  rewrite Hread. simpl. rewrite Hin. simpl. by rewrite replace_same.
Qed.

Lemma replace_in_file_same_witness :
  ReplaceStr.replace_in_file Demo.env "/notes/sub/d.md" "old" "old" Notes.world
  = (true, put_file "/notes/sub/d.md" ("http://old.example" +:+ PyStr.NL) Notes.world).
Proof.
  apply (replace_in_file_same Demo.env "/notes/sub/d.md" "old"
           ("http://old.example" +:+ Notes.CRLF) Notes.world); by vm_compute.
Defined.

(** ** [load_config] *)

(** X25: [load_config] returns a configuration only when the file can
    be read and parsed, the document is an object with a key
    [project_root] and a key [fields], [fields] is an object, and that
    object has the keys [title] and [content]; it then returns the
    document as parsed.  In particular an array or a string that contains
    the names is refused, and so is everything else. *)
Theorem load_config_accepts (json_loads : string -> option Json) (config_path : string)
    (w : World) (config : Json) :
  load_config json_loads config_path w = Some config
  <-> exists text members field_rules,
        read_file config_path w = Some text
        /\ json_loads text = Some config
        /\ config = JObject members
        /\ PyDict.mem "project_root" members = true
        /\ PyDict.get "fields" members = Some (JObject field_rules)
        /\ PyDict.mem "title" field_rules = true
        /\ PyDict.mem "content" field_rules = true.
Proof.
  unfold load_config. split.
  - destruct (read_file config_path w) as [text|]; [|done].
    destruct (json_loads text) as [parsed|] eqn:Hparsed; [|done].
    destruct (py_in "project_root" parsed) as [[]|] eqn:Hroot; [|done..].
    destruct (py_in "fields" parsed) as [[]|] eqn:Hfields; [|done..].
    destruct (py_item "fields" parsed) as [config_fields|] eqn:Hitem; [|done].
    destruct parsed as [| | | |items|members]; try done.
    destruct config_fields as [| | | | |field_rules]; try done.
    cbn [is_dict negb forallb py_in].
    destruct (PyDict.mem "title" field_rules) eqn:Htitle; [|done].
    destruct (PyDict.mem "content" field_rules) eqn:Hcontent; [|done].
    intros [= <-]. exists text, members, field_rules.
    cbn [py_in py_item] in Hroot, Hitem. injection Hroot as Hroot.
    repeat split; done.
  - intros (text & members & field_rules & -> & -> & -> & Hroot & Hfields & Htitle & Hcontent).
    cbn [py_in py_item]. rewrite Hroot, Hfields.
    unfold PyDict.mem at 1. rewrite Hfields.
    cbn [is_dict negb forallb py_in]. by rewrite Htitle, Hcontent.
Qed.


(** ** An image that was written in part *)

Lemma local_image_name_from_url E image_url w name w' :
  local_image_name E image_url w = (name, w) ->
  local_image_name E image_url w' = (name, w').
Proof.
  unfold local_image_name. destruct (_ || _); [|by intros [= ->]].
  intros [= _ Htick]. apply (f_equal clock_reads) in Htick. simpl in Htick. lia.
Qed.

(** X26: an image whose write fails after the file was opened is taken
    for downloaded from then on: the call returns [None] and leaves the
    part that was written under the image's name, and the next call for
    the same image finds that file, requests nothing, and returns the name
    as if the image were complete. *)
Theorem partial_image_is_taken_for_downloaded (E : Env)
    (image_url save_dir base_url : string) (w : World)
    (resolved name : string) (response : Response) (partial : string) :
  PyStr.is_empty image_url = false ->
  save_dir ∈ dirs w ->
  resolve_image_url E base_url image_url = Some resolved ->
  local_image_name E resolved w = (name, w) ->
  os_path_exists (OsPath.join save_dir [name]) w = false ->
  requests_get E resolved = Some response ->
  os_write E (OsPath.join save_dir [name]) (resp_body response)
  = WriteFails (Some partial) ->
  download_image E image_url save_dir base_url w
  = (None, put_file (OsPath.join save_dir [name]) partial (log_request resolved w))
  /\ download_image E image_url save_dir base_url
       (put_file (OsPath.join save_dir [name]) partial (log_request resolved w))
     = (Some name,
        put_file (OsPath.join save_dir [name]) partial (log_request resolved w)).
Proof.
  intros Hne Hdir Hres Hname Hnew Hget Hwrite. split.
  - unfold download_image.
    rewrite Hne, (os_makedirs_existing _ _ _ Hdir), Hres, Hname, Hnew, Hget, Hwrite.
    done.
  - set (w1 := put_file (OsPath.join save_dir [name]) partial (log_request resolved w)).
    pose proof (local_image_name_from_url E resolved w name w1 Hname) as Hname1.
    rewrite (download_image_existing E image_url save_dir base_url w1 resolved);
      rewrite ?Hname1; try done.
    apply os_path_exists_put_file.
Qed.

Lemma partial_image_is_taken_for_downloaded_witness :
  download_image FullDisk.env "/p.png" Demo.IMAGES Demo.PAGE_URL Demo.world
  = (None, put_file (OsPath.join Demo.IMAGES ["p.png"]) "PN"
             (log_request "https://example.com/p.png" Demo.world))
  /\ download_image FullDisk.env "/p.png" Demo.IMAGES Demo.PAGE_URL
       (put_file (OsPath.join Demo.IMAGES ["p.png"]) "PN"
          (log_request "https://example.com/p.png" Demo.world))
     = (Some "p.png",
        put_file (OsPath.join Demo.IMAGES ["p.png"]) "PN"
          (log_request "https://example.com/p.png" Demo.world)).
Proof.
  apply (partial_image_is_taken_for_downloaded FullDisk.env "/p.png" Demo.IMAGES
           Demo.PAGE_URL Demo.world "https://example.com/p.png" "p.png"
           (mkResponse "https://example.com/p.png" "PNG-1") "PN");
    by vm_compute.
Defined.
